(** * lib/server.js: listen-argument normalisation, the listener state
    machine, dual-stack binding, address reporting and the HTTP version
    gate, as a shallow embedding.

    JavaScript values are a small dynamic universe; objects are property
    lists; the Fastify instance, its servers (event emitters), pending
    promises and the observable effects live in an explicit [world] that
    every function threads.  Asynchronous completions (the readiness gate,
    the DNS answer, the 'listening' / 'error' / 'close' events of a server)
    are events delivered by the environment, see [step]. *)

From Stdlib Require Import ZArith QArith String Ascii List Bool Lia.
From stdpp Require Import base option list gmap strings pretty.

Local Open Scope string_scope.
Local Open Scope list_scope.

(** ** JavaScript values *)

(** Numbers: a finite double is embedded as the rational it denotes. *)
Inductive number :=
| Fin (q : Q)
| NaN
| PosInf
| NegInf.

Inductive error :=
| FST_ERR_REOPENED_CLOSE_SERVER
| FST_ERR_REOPENED_SERVER
| ExternalError (code : string).

#[local] Set Warnings "-register-all".

(** The values a caller can pass; [VFun f] is a function, known by its
    identity only. *)
Inductive value :=
| VUndefined
| VNull
| VBool (b : bool)
| VNum (n : number)
| VStr (s : string)
| VFun (f : nat)
| VErr (e : error)
| VObj (props : list (string * value)).

Abbreviation obj := (list (string * value)).

(** The [onListen] arrow functions given to [multipleBindings]: lines 91-95
    in the callback form, lines 112-115 in the promise form. *)
Inductive on_listen :=
| OnListenCallback (cb : value) (address : value)
| OnListenResolve (promise : nat) (address : value).

(** What [listenOptions.cb] can hold: a value of the caller, or one of the
    two arrow functions that server.js stores there (lines 84-96 and lines
    155-168), with the variables they capture. *)
Inductive callback :=
| UserCb (cb : value)
| LocalhostCb (cb : value) (listenOptions : obj)
| SecondaryCb (join : nat) (secondaryServer : nat) (onListen : on_listen).

(** A [listenOptions] object: its property [cb] is kept in a field of its
    own, the other properties in [props]. *)
Record ListenOptions := ListenOpts {
  props : obj;
  cb : callback
}.

Definition int (z : Z) : value := VNum (Fin (inject_Z z)).

(** *** Property access *)

Fixpoint lookup_prop (k : string) (o : obj) : option value :=
  match o with
  | [] => None
  | (k', v) :: o' => if String.eqb k k' then Some v else lookup_prop k o'
  end.

(** [o.k]: a missing property reads as [undefined]. *)
Definition get (k : string) (o : obj) : value :=
  match lookup_prop k o with
  | Some v => v
  | None => VUndefined
  end.

Definition hasOwnProperty (k : string) (o : obj) : bool :=
  match lookup_prop k o with
  | Some _ => true
  | None => false
  end.

(** [o.k = v]: overwrite in place, or append a new property. *)
Fixpoint set (k : string) (v : value) (o : obj) : obj :=
  match o with
  | [] => [(k, v)]
  | (k', v') :: o' =>
      if String.eqb k k' then (k', v) :: o' else (k', v') :: set k v o'
  end.

(** [Object.assign(target, source)]. *)
Definition assign (target source : obj) : obj :=
  fold_left (fun t kv => set (fst kv) (snd kv) t) source target.

(** Own properties of a value used as an options object. *)
Definition props_of (v : value) : obj :=
  match v with
  | VObj o => o
  | _ => []
  end.

(** *** Operators *)

Definition number_is_zero (n : number) : bool :=
  match n with
  | Fin q => (Qnum q =? 0)%Z
  | _ => false
  end.

Definition truthy (v : value) : bool :=
  match v with
  | VUndefined | VNull => false
  | VBool b => b
  | VNum NaN => false
  | VNum n => negb (number_is_zero n)
  | VStr s => negb (String.eqb s "")
  | VFun _ | VErr _ | VObj _ => true
  end.

(** [v === undefined] *)
Definition is_undefined (v : value) : bool :=
  match v with
  | VUndefined => true
  | _ => false
  end.

(** [v == null] *)
Definition nullish (v : value) : bool :=
  match v with
  | VUndefined | VNull => true
  | _ => false
  end.

(** [a ?? b] *)
Definition coalesce (a b : value) : value := if nullish a then b else a.

(** [v === 'literal'] *)
Definition is_str (v : value) (s : string) : bool :=
  match v with
  | VStr s' => String.eqb s' s
  | _ => false
  end.

(** [v === true] *)
Definition is_true (v : value) : bool :=
  match v with
  | VBool true => true
  | _ => false
  end.

Definition typeof (v : value) : string :=
  match v with
  | VUndefined => "undefined"
  | VNull => "object"
  | VBool _ => "boolean"
  | VNum _ => "number"
  | VStr _ => "string"
  | VFun _ => "function"
  | VErr _ | VObj _ => "object"
  end.

(** [Object.prototype.toString.call(v)] *)
Definition toStringTag (v : value) : string :=
  match v with
  | VUndefined => "[object Undefined]"
  | VNull => "[object Null]"
  | VBool _ => "[object Boolean]"
  | VNum _ => "[object Number]"
  | VStr _ => "[object String]"
  | VFun _ => "[object Function]"
  | VErr _ => "[object Error]"
  | VObj _ => "[object Object]"
  end.

Definition Number_isNaN (n : number) : bool :=
  match n with
  | NaN => true
  | _ => false
  end.

Definition Number_isInteger (v : value) : bool :=
  match v with
  | VNum (Fin q) => (Qden (Qred q) =? 1)%positive
  | _ => false
  end.

(** [n >= 0] *)
Definition ge0 (n : number) : bool :=
  match n with
  | Fin q => (0 <=? Qnum q)%Z
  | PosInf => true
  | NaN | NegInf => false
  end.

(** [s.indexOf(c)] for a one-character needle: the first position, or -1. *)
Fixpoint indexOf_from (c : ascii) (s : string) (i : Z) : Z :=
  match s with
  | EmptyString => (-1)%Z
  | String c' s' => if Ascii.eqb c' c then i else indexOf_from c s' (i + 1)%Z
  end.

Definition indexOf (c : ascii) (s : string) : Z := indexOf_from c s 0.

(** A string-to-number conversion for running examples: it agrees with
    ECMAScript's StringToNumber on the empty string, on strings of decimal
    digits (below 2^53) and on strings that are no numeric literal at all. *)
Fixpoint digits_value (s : string) (acc : Z) : option Z :=
  match s with
  | EmptyString => Some acc
  | String c s' =>
      let n := Z.of_nat (nat_of_ascii c) in
      if ((48 <=? n) && (n <=? 57))%Z
      then digits_value s' (10 * acc + (n - 48))%Z
      else None
  end.

Definition decimalStringToNumber (s : string) : number :=
  match digits_value s 0 with
  | Some z => Fin (inject_Z z)
  | None => NaN
  end.

(** ** compileValidateHTTPVersion (lines 300-329) *)

(** [map.has(v)] on a Map whose keys are all strings: only an equal string
    is found. *)
Definition Map_has (map : gmap string bool) (v : value) : bool :=
  match v with
  | VStr s => bool_decide (is_Some (map !! s))
  | _ => false
  end.

Definition compileValidateHTTPVersion (options : obj) : value -> bool :=
  let bypass := false in
  let map : gmap string bool := ∅ in
  let bypass := if truthy (get "serverFactory" options) then true else bypass in
  let map :=
    if truthy (get "http2" options) then
      let map := <["2.0" := true]> map in
      if truthy (get "https" options)
         && is_true (get "allowHTTP1" (props_of (get "https" options)))
      then <["1.0" := true]> (<["1.1" := true]> map)
      else map
    else <["1.0" := true]> (<["1.1" := true]> map) in
  fun httpVersion => bypass || Map_has map httpVersion.

(** ** The Fastify instance, its servers and the environment *)

(** What [server.address()] returns once bound: a pipe / socket path, or an
    IP address with its port. *)
Inductive bound_address :=
| Path (path : string)
| Inet (address : string) (port : nat).

(** The listener functions that server.js registers on a server.  A function
    is identified by the id it got when it was created ([l_id]), which is
    what [removeListener] compares. *)
Inductive handler :=
| Wrap (server : nat) (listenOptions : ListenOptions)
| ErrEventHandler (promise : nat)
| OnListening (server : nat) (listenOptions : ListenOptions) (errEventHandler : nat)
    (promise : nat)
| CloseSecondary (secondaryServer : nat)
| EmitUpgrade (mainServer : nat)
| SessionTimeout (timeout : value).

Record listener := Listener {
  l_event : string;
  l_once : bool;
  l_id : nat;
  l_fn : handler
}.

Inductive transport := CustomTransport | Http2Secure | Http2Plain | Https | Http.

Record net_server := NetServer {
  kind : transport;
  settings : obj;
  listeners : list listener;
  address : option bound_address;
  unref_emits : nat
}.

Inductive pstate :=
| Pending
| Fulfilled (v : value)
| Rejected (reason : value).

(** [p.then(address => new Promise(... multipleBindings ... resolve(address)))]
    of [listen], lines 110-117: the promise [result] follows [p]. *)
Inductive reaction :=
| ThenMultipleBindings (listenOptions : obj) (result : nat).

Record promise := Promise {
  p_state : pstate;
  p_then : option reaction
}.

(** Functions handed to the readiness gate. *)
Inductive ready_cont :=
| ListenCallbackFn (server : nat) (listenOptions : ListenOptions) (wrap : nat)
| ListenPromiseThen (server : nat) (listenOptions : ListenOptions) (promise : nat).

(** The callback handed to [dns.lookup] by [multipleBindings]. *)
Inductive dns_cont :=
| DnsCallback (listenOptions : obj) (onListen : on_listen).

(** What the code does to its collaborators, in order. *)
Inductive effect :=
| Warning (code : string)
| Invoke (f : value) (args : list value)
| Listen (server : nat) (listenOptions : ListenOptions)
| Close (server : nat)
| Lookup (host : value)
| LogInfo (text : string)
| LogInfoVia (listenTextResolver : value) (address : string)
| Throw (name : string)
| Uncaught (thrown : value).

Record world := World {
  listening : bool;
  closing : bool;
  kServerBindings : list nat;
  kOptions : obj;
  mainServer : nat;
  servers : gmap nat net_server;
  counters : gmap nat (nat * nat);
  promises : gmap nat promise;
  readyQ : list ready_cont;
  dnsQ : list dns_cont;
  trace : list effect;
  fresh : nat
}.

Definition set_listening (b : bool) (w : world) : world :=
  World b (closing w) (kServerBindings w) (kOptions w) (mainServer w)
    (servers w) (counters w) (promises w) (readyQ w) (dnsQ w) (trace w)
    (fresh w).

Definition set_kServerBindings (l : list nat) (w : world) : world :=
  World (listening w) (closing w) l (kOptions w) (mainServer w)
    (servers w) (counters w) (promises w) (readyQ w) (dnsQ w) (trace w)
    (fresh w).

Definition set_servers (m : gmap nat net_server) (w : world) : world :=
  World (listening w) (closing w) (kServerBindings w) (kOptions w)
    (mainServer w) m (counters w) (promises w) (readyQ w) (dnsQ w) (trace w)
    (fresh w).

Definition set_counters (m : gmap nat (nat * nat)) (w : world) : world :=
  World (listening w) (closing w) (kServerBindings w) (kOptions w)
    (mainServer w) (servers w) m (promises w) (readyQ w) (dnsQ w) (trace w)
    (fresh w).

Definition set_promises (m : gmap nat promise) (w : world) : world :=
  World (listening w) (closing w) (kServerBindings w) (kOptions w)
    (mainServer w) (servers w) (counters w) m (readyQ w) (dnsQ w) (trace w)
    (fresh w).

Definition set_readyQ (q : list ready_cont) (w : world) : world :=
  World (listening w) (closing w) (kServerBindings w) (kOptions w)
    (mainServer w) (servers w) (counters w) (promises w) q (dnsQ w) (trace w)
    (fresh w).

Definition set_dnsQ (q : list dns_cont) (w : world) : world :=
  World (listening w) (closing w) (kServerBindings w) (kOptions w)
    (mainServer w) (servers w) (counters w) (promises w) (readyQ w) q (trace w)
    (fresh w).

Definition set_trace (t : list effect) (w : world) : world :=
  World (listening w) (closing w) (kServerBindings w) (kOptions w)
    (mainServer w) (servers w) (counters w) (promises w) (readyQ w) (dnsQ w) t
    (fresh w).

Definition set_fresh (n : nat) (w : world) : world :=
  World (listening w) (closing w) (kServerBindings w) (kOptions w)
    (mainServer w) (servers w) (counters w) (promises w) (readyQ w) (dnsQ w)
    (trace w) n.

Definition record (e : effect) (w : world) : world :=
  set_trace (trace w ++ [e]) w.

(** A fresh identity for a newly created object or function. *)
Definition alloc (w : world) : nat * world := (fresh w, set_fresh (S (fresh w)) w).

(** *** Event emitter *)

Definition with_server (sid : nat) (f : net_server -> net_server) (w : world)
  : world :=
  set_servers (alter f sid (servers w)) w.

Definition add_listener (l : listener) (s : net_server) : net_server :=
  NetServer (kind s) (settings s) (listeners s ++ [l]) (address s)
    (unref_emits s).

(** [server.on(ev, fn)] *)
Definition on (sid : nat) (ev : string) (id : nat) (fn : handler) : world -> world :=
  with_server sid (add_listener (Listener ev false id fn)).

(** [server.once(ev, fn)] *)
Definition once (sid : nat) (ev : string) (id : nat) (fn : handler) : world -> world :=
  with_server sid (add_listener (Listener ev true id fn)).

Definition same_listener (ev : string) (id : nat) (l : listener) : bool :=
  String.eqb (l_event l) ev && Nat.eqb (l_id l) id.

Fixpoint remove_first (ev : string) (id : nat) (ls : list listener)
  : list listener :=
  match ls with
  | [] => []
  | l :: ls' => if same_listener ev id l then ls' else l :: remove_first ev id ls'
  end.

Definition drop_listener (ev : string) (id : nat) (s : net_server) : net_server :=
  NetServer (kind s) (settings s)
    (rev (remove_first ev id (rev (listeners s)))) (address s) (unref_emits s).

(** [server.removeListener(ev, fn)]: the most recently added registration
    of [fn] for [ev] goes, if there is one. *)
Definition removeListener (sid : nat) (ev : string) (id : nat) : world -> world :=
  with_server sid (drop_listener ev id).

(** The listeners registered for [ev] on server [sid], oldest first. *)
Definition listeners_in (m : gmap nat net_server) (sid : nat) (ev : string)
  : list listener :=
  match m !! sid with
  | Some s => List.filter (fun l => String.eqb (l_event l) ev) (listeners s)
  | None => []
  end.

Definition listeners_for (sid : nat) (ev : string) (w : world) : list listener :=
  listeners_in (servers w) sid ev.

(** [server.listen(listenOptions, fn)], when the call returns: a bind is
    attempted, and [fn] waits for the 'listening' event.  The call can also
    throw, see [server_listen_throws]. *)
Definition server_listen (sid : nat) (listenOptions : ListenOptions) (id : nat)
    (fn : handler) (w : world) : world :=
  once sid "listening" id fn (record (Listen sid listenOptions) w).

(** [server.listen(listenOptions, fn)], when the call throws (line 270:
    "listen can throw"): the runtime turns the options down in the call
    itself, an out-of-range port for one, and no 'listening' and no 'error'
    event follows from it.  The call is recorded; where the exception goes
    is the caller's part, lines 233 and 266.  What the runtime did with [fn]
    before it threw is its own business and is left out. *)
Definition server_listen_throws (sid : nat) (listenOptions : ListenOptions)
    (w : world) : world :=
  record (Listen sid listenOptions) w.

(** *** Promises *)

Definition new_promise (st : pstate) (w : world) : nat * world :=
  let '(p, w) := alloc w in
  (p, set_promises (<[p := Promise st None]> (promises w)) w).

Definition set_pstate (p : nat) (st : pstate) (w : world) : world :=
  set_promises (alter (fun pr => Promise st (p_then pr)) p (promises w)) w.

(** ** multipleBindings (lines 128-135): everything before the DNS answer *)
Definition multipleBindings (listenOptions : obj) (onListen : on_listen)
    (w : world) : world :=
  let w := set_listening false w in
  let w := record (Lookup (get "host" listenOptions)) w in
  set_dnsQ (dnsQ w ++ [DnsCallback listenOptions onListen]) w.

(** Settling a pending promise runs what was chained on it; a settled
    promise stays as it is.  Reactions run in the same turn. *)
Definition settle (p : nat) (st : pstate) (w : world) : world :=
  match promises w !! p with
  | Some (Promise Pending k) =>
      let w := set_pstate p st w in
      match k, st with
      | Some (ThenMultipleBindings listenOptions r), Fulfilled address =>
          multipleBindings listenOptions (OnListenResolve r address) w
      | Some (ThenMultipleBindings _ r), Rejected e => set_pstate r (Rejected e) w
      | _, _ => w
      end
  | _ => w
  end.

(** ** Calling [listenOptions.cb] *)

(** [onListen()] *)
Definition run_onListen (k : on_listen) (w : world) : world :=
  match k with
  | OnListenCallback cb address =>
      let w := set_listening true w in
      record (Invoke cb [VNull; address]) w
  | OnListenResolve p address =>
      let w := set_listening true w in
      settle p (Fulfilled address) w
  end.

(** A value of the caller is called by recording the call: what it does,
    and the TypeError when it is no function, are the caller's.  The two
    arrow functions of server.js run their bodies. *)
Definition call (f : callback) (args : list value) (w : world) : world :=
  match f with
  | UserCb cb => record (Invoke cb args) w
  | LocalhostCb cb listenOptions =>
      let err := nth 0 args VUndefined in
      let address := nth 1 args VUndefined in
      if truthy err then record (Invoke cb [err; address]) w
      else multipleBindings listenOptions (OnListenCallback cb address) w
  | SecondaryCb join secondaryServer onListen =>
      let _ignoreErr := nth 0 args VUndefined in
      let '(binding, binded) := default (0, 0) (counters w !! join) in
      let binded := S binded in
      let w := set_counters (<[join := (binding, binded)]> (counters w)) w in
      let w :=
        if negb (truthy _ignoreErr)
        then set_kServerBindings (kServerBindings w ++ [secondaryServer]) w
        else w in
      if Nat.eqb binded binding then run_onListen onListen w else w
  end.

(** ** logServerAddress (lines 414-435) *)

(** [listenOptions.listenTextResolver || defaultResolveServerListeningText] *)
Inductive text_resolver :=
| DefaultResolver
| CustomResolver (f : value).

Definition resolver_of (listenOptions : ListenOptions) : text_resolver :=
  if truthy (get "listenTextResolver" (props listenOptions))
  then CustomResolver (get "listenTextResolver" (props listenOptions))
  else DefaultResolver.

Definition defaultResolveServerListeningText (address : string) : string :=
  "Server listening at " +:+ address.

(** [server.address()] is [null] before the server is bound; reading
    [.address] of it throws. *)
Definition server_address (sid : nat) (w : world) : option bound_address :=
  servers w !! sid ≫= address.

Definition logServerAddress (sid : nat) (listenTextResolver : text_resolver)
    (w : world) : option string * world :=
  match server_address sid w with
  | None => (None, record (Throw "TypeError") w)
  | Some address =>
      let isUnixSocket := match address with Path _ => true | Inet _ _ => false end in
      let address :=
        match address with
        | Path p => p
        | Inet a port =>
            if (indexOf ":"%char a =? -1)%Z
            then a +:+ ":" +:+ pretty port
            else "[" +:+ a +:+ "]:" +:+ pretty port
        end in
      let address :=
        (if isUnixSocket then ""
         else "http" +:+ (if truthy (get "https" (kOptions w)) then "s" else "")
              +:+ "://") +:+ address in
      let w :=
        match listenTextResolver with
        | DefaultResolver =>
            record (LogInfo (defaultResolveServerListeningText address)) w
        | CustomResolver f => record (LogInfoVia f address) w
        end in
      (Some address, w)
  end.

(** ** listenCallback (lines 204-237) *)

(** [wrap], lines 206-217; [id] is [wrap] itself. *)
Definition run_wrap (id server : nat) (listenOptions : ListenOptions) (err : value)
    (w : world) : world :=
  let w := removeListener server "error" id w in
  if negb (truthy err) then
    match logServerAddress server (resolver_of listenOptions) w with
    | (Some address, w) => call (cb listenOptions) [VNull; VStr address] w
    | (None, w) => w
    end
  else
    let w := set_listening false w in
    call (cb listenOptions) [err; VNull] w.

(** Creating the closures: [wrap] gets its identity, the returned arrow
    function is [ListenCallbackFn]. *)
Definition listenCallback (server : nat) (listenOptions : ListenOptions) (w : world)
  : ready_cont * world :=
  let '(wrap, w) := alloc w in
  (ListenCallbackFn server listenOptions wrap, w).

(** The returned arrow function, lines 219-236. *)
Definition run_listenCallbackFn (server : nat) (listenOptions : ListenOptions)
    (wrap : nat) (err : value) (w : world) : world :=
  if negb (nullish err) then call (cb listenOptions) [err] w
  else if listening w && closing w then
    call (cb listenOptions) [VErr FST_ERR_REOPENED_CLOSE_SERVER; VNull] w
  else if listening w then
    call (cb listenOptions) [VErr FST_ERR_REOPENED_SERVER; VNull] w
  else
    let w := once server "error" wrap (Wrap server listenOptions) w in
    let w := server_listen server listenOptions wrap (Wrap server listenOptions) w in
    set_listening true w.

(** ** listenPromise (lines 240-279) *)

(** The guards and the hand-over to the readiness gate, lines 242-252.  The
    promise returned stands for the whole chain
    [ready().then(() => Promise.race([errEvent, listen]))]. *)
Definition listenPromise (server : nat) (listenOptions : ListenOptions) (w : world)
  : nat * world :=
  if listening w && closing w then
    new_promise (Rejected (VErr FST_ERR_REOPENED_CLOSE_SERVER)) w
  else if listening w then
    new_promise (Rejected (VErr FST_ERR_REOPENED_SERVER)) w
  else
    let '(p, w) := new_promise Pending w in
    (p, set_readyQ (readyQ w ++ [ListenPromiseThen server listenOptions p]) w).

(** The body run once the instance is ready, lines 253-277. *)
Definition run_listenPromiseThen (server : nat) (listenOptions : ListenOptions)
    (p : nat) (w : world) : world :=
  let '(errEventHandler, w) := alloc w in
  let w := once server "error" errEventHandler (ErrEventHandler p) w in
  let '(onListening, w) := alloc w in
  let w := server_listen server listenOptions onListening
             (OnListening server listenOptions errEventHandler p) w in
  set_listening true w.

Definition run_ready_cont (k : ready_cont) (err : value) (w : world) : world :=
  match k with
  | ListenCallbackFn server listenOptions wrap =>
      run_listenCallbackFn server listenOptions wrap err w
  | ListenPromiseThen server listenOptions p =>
      if negb (nullish err) then settle p (Rejected err) w
      else run_listenPromiseThen server listenOptions p w
  end.

(** ** When [server.listen] throws

    Whether [server.listen] returns or throws is the runtime's to decide.
    The definitions above are the two bodies for a call that returns; these
    are the same lines for a call that throws [thrown]. *)

(** Lines 219-236: the guards are as before; when they pass, [wrap] is
    registered for 'error' (line 232), [server.listen] throws (line 233),
    line 235 is not reached, and the exception leaves the function. *)
Definition run_listenCallbackFn_throws (server : nat) (listenOptions : ListenOptions)
    (wrap : nat) (err : value) (thrown : value) (w : world) : world :=
  if negb (nullish err) then call (cb listenOptions) [err] w
  else if listening w && closing w then
    call (cb listenOptions) [VErr FST_ERR_REOPENED_CLOSE_SERVER; VNull] w
  else if listening w then
    call (cb listenOptions) [VErr FST_ERR_REOPENED_SERVER; VNull] w
  else
    let w := once server "error" wrap (Wrap server listenOptions) w in
    let w := server_listen_throws server listenOptions w in
    record (Uncaught thrown) w.

(** Lines 253-277: [errEventHandler] is registered for 'error' (line 261);
    [server.listen] throws inside the executor of the promise [listen]
    (line 266), which rejects that promise; line 271 is not reached; and
    [Promise.race] settles with the rejection, so the promise returned is
    rejected with [thrown]. *)
Definition run_listenPromiseThen_throws (server : nat) (listenOptions : ListenOptions)
    (p : nat) (thrown : value) (w : world) : world :=
  let '(errEventHandler, w) := alloc w in
  let w := once server "error" errEventHandler (ErrEventHandler p) w in
  let '(onListening, w) := alloc w in
  let w := server_listen_throws server listenOptions w in
  settle p (Rejected thrown) w.

Definition run_ready_cont_throws (k : ready_cont) (err : value) (thrown : value)
    (w : world) : world :=
  match k with
  | ListenCallbackFn server listenOptions wrap =>
      run_listenCallbackFn_throws server listenOptions wrap err thrown w
  | ListenPromiseThen server listenOptions p =>
      if negb (nullish err) then settle p (Rejected err) w
      else run_listenPromiseThen_throws server listenOptions p thrown w
  end.

(** ** Running a registered listener *)
Definition run_handler (id : nat) (h : handler) (arg : value) (w : world)
  : world :=
  match h with
  | Wrap server listenOptions => run_wrap id server listenOptions arg w
  | ErrEventHandler p =>
      let w := set_listening false w in
      settle p (Rejected arg) w
  | OnListening server listenOptions errEventHandler p =>
      let w := removeListener server "error" errEventHandler w in
      match logServerAddress server (resolver_of listenOptions) w with
      | (Some address, w) => settle p (Fulfilled (VStr address)) w
      | (None, w) => w
      end
  | CloseSecondary secondaryServer => record (Close secondaryServer) w
  | EmitUpgrade _ => w
  | SessionTimeout _ => w
  end.

(** [server.emit(ev, arg)]: the listeners registered for [ev] at this moment
    run in order; a one-shot listener is removed just before it runs. *)
Definition emit (sid : nat) (ev : string) (arg : value) (w : world) : world :=
  fold_left
    (fun w l =>
       let w := if l_once l then removeListener sid ev (l_id l) w else w in
       run_handler (l_id l) (l_fn l) arg w)
    (listeners_for sid ev w) w.

Section Server.

(** [Number(s)] on a string is the runtime's StringToNumber; the code only
    depends on the class of its result. *)
Variable StringToNumber : string -> number.

(** [Number(v)] *)
Definition toNumber (v : value) : number :=
  match v with
  | VUndefined => NaN
  | VNull => Fin 0
  | VBool b => if b then Fin 1 else Fin 0
  | VNum n => n
  | VStr s => StringToNumber s
  | VFun _ | VErr _ | VObj _ => NaN
  end.

(** ** normalizePort (lines 409-412) *)
Definition normalizePort (firstArg : value) : value :=
  let port := toNumber firstArg in
  if ge0 port && negb (Number_isNaN port) && Number_isInteger (VNum port)
  then VNum port
  else int 0.

(** ** normalizeListenArgs (lines 373-407) *)
Definition normalizeListenArgs (args : list value) : obj :=
  if (length args =? 0)%nat then [("port", int 0); ("host", VStr "localhost")]
  else
    (* args.pop() when the last argument is a function *)
    let '(cb, args) :=
      if String.eqb (typeof (nth (length args - 1) args VUndefined)) "function"
      then (nth (length args - 1) args VUndefined, removelast args)
      else (VUndefined, args) in
    let options := [("cb", cb)] in
    let firstArg := nth 0 args VUndefined in
    let argsLength := length args in
    let lastArg := nth (argsLength - 1) args VUndefined in
    if String.eqb (typeof firstArg) "string" && Number_isNaN (toNumber firstArg)
    then
      let options := set "path" firstArg options in
      set "backlog" (if (1 <? argsLength)%nat then lastArg else VUndefined) options
    else
      let options :=
        set "port" (if (1 <=? argsLength)%nat && Number_isInteger firstArg
                    then firstArg else normalizePort firstArg) options in
      let options :=
        set "host" (if (2 <=? argsLength)%nat && truthy (nth 1 args VUndefined)
                    then nth 1 args VUndefined else VStr "localhost") options in
      set "backlog" (if (3 <=? argsLength)%nat then nth 2 args VUndefined
                     else VUndefined) options.

(** ** getServerInstance (lines 331-371) *)

(** [v > 0] *)
Definition gt0 (v : value) : bool :=
  match toNumber v with
  | Fin q => (0 <? Qnum q)%Z
  | PosInf => true
  | NaN | NegInf => false
  end.

(** The runtime is taken to provide 'http2'.  The object built by a custom
    [serverFactory] is taken to start without listeners of its own. *)
Definition getServerInstance (options : obj) (w : world) : nat * world :=
  let '(server, w) := alloc w in
  let s :=
    if truthy (get "serverFactory" options) then
      NetServer CustomTransport [] [] None 0
    else if truthy (get "http2" options) then
      NetServer
        (if truthy (get "https" options) then Http2Secure else Http2Plain) []
        [Listener "session" false server
           (SessionTimeout (get "http2SessionTimeout" options))]
        None 0
    else
      let settings := set "keepAliveTimeout" (get "keepAliveTimeout" options) [] in
      let settings := set "requestTimeout" (get "requestTimeout" options) settings in
      let settings :=
        if gt0 (get "maxRequestsPerSocket" options)
        then set "maxRequestsPerSocket" (get "maxRequestsPerSocket" options) settings
        else settings in
      NetServer (if truthy (get "https" options) then Https else Http)
        settings [] None 0 in
  let s :=
    if negb (truthy (get "serverFactory" options))
    then NetServer (kind s) (set "timeout" (get "connectionTimeout" options) (settings s))
           (listeners s) (address s) (unref_emits s)
    else s in
  (server, set_servers (<[server := s]> (servers w)) w).

(** ** multipleBindings (lines 135-201): the DNS callback *)

(** [primaryAddress.address] and [primaryAddress.port]; both are
    [undefined] on the string that a path-bound server reports. *)
Definition address_field (a : bound_address) : value :=
  match a with
  | Path _ => VUndefined
  | Inet a _ => VStr a
  end.

Definition port_field (a : bound_address) : value :=
  match a with
  | Path _ => VUndefined
  | Inet _ port => int (Z.of_nat port)
  end.

(** One turn of the loop, lines 149-180.  The call of [server.listen] for
    the secondary server is the one that returns: its options carry the
    port that the main server has bound to and an address that the resolver
    gave. *)
Definition bind_secondary (listenOptions : obj) (join : nat)
    (onListen : on_listen) (primaryAddress : bound_address) (adr : string)
    (w : world) : world :=
  if negb (is_str (address_field primaryAddress) adr) then
    (* binding++ *)
    let '(binding, binded) := default (0, 0) (counters w !! join) in
    let w := set_counters (<[join := (S binding, binded)]> (counters w)) w in
    (* the server created below *)
    let secondaryServer := fresh w in
    let secondaryOpts :=
      ListenOpts
        (assign (assign [] listenOptions)
           [("host", VStr adr); ("port", port_field primaryAddress)])
        (SecondaryCb join secondaryServer onListen) in
    let '(secondaryServer, w) := getServerInstance (kOptions w) w in
    let '(closeSecondary, w) := alloc w in
    let '(upgrade, w) := alloc w in
    let w := on secondaryServer "upgrade" upgrade (EmitUpgrade (mainServer w)) w in
    let w := on (mainServer w) "unref" closeSecondary (CloseSecondary secondaryServer) w in
    let w := on (mainServer w) "close" closeSecondary (CloseSecondary secondaryServer) w in
    let w := on (mainServer w) "error" closeSecondary (CloseSecondary secondaryServer) w in
    let '(fn, w) := listenCallback secondaryServer secondaryOpts w in
    run_ready_cont fn VUndefined w
  else w.

(** Lines 195-200: [mainServer.unref] is replaced by a function that calls
    the one it replaces and then emits 'unref'. *)
Definition wrap_unref (s : net_server) : net_server :=
  NetServer (kind s) (settings s) (listeners s) (address s) (S (unref_emits s)).

(** The callback given to [dns.lookup]; each resolved entry is represented
    by its [address] string. *)
Definition dns_callback (k : dns_cont) (dnsErr : value)
    (addresses : list string) (w : world) : world :=
  let 'DnsCallback listenOptions onListen := k in
  if truthy dnsErr then run_onListen onListen w
  else
    (* let binding = 0, binded = 0 *)
    let '(join, w) := alloc w in
    let w := set_counters (<[join := (0, 0)]> (counters w)) w in
    match server_address (mainServer w) w, addresses with
    | None, _ :: _ => record (Throw "TypeError") w
    | None, [] => run_onListen onListen w
    | Some primaryAddress, _ =>
        let w :=
          fold_left
            (fun w adr => bind_secondary listenOptions join onListen primaryAddress adr w)
            addresses w in
        if Nat.eqb (fst (default (0, 0) (counters w !! join))) 0
        then run_onListen onListen w
        else with_server (mainServer w) wrap_unref w
    end.

(** ** createServer and listen (lines 29-125) *)

(** A new instance: [this[kState]] starts not listening and not closing. *)
Definition createServer (options : obj) : world :=
  snd (getServerInstance options
         (World false false [] options 0 ∅ ∅ ∅ [] [] [] 0)).

(** [listening.then(address => new Promise(...))], lines 110-117. *)
Definition then_multipleBindings (p : nat) (listenOptions : obj) (w : world)
  : nat * world :=
  match p_state <$> promises w !! p with
  | Some (Rejected e) => new_promise (Rejected e) w
  | Some (Fulfilled address) =>
      let '(r, w) := new_promise Pending w in
      (r, multipleBindings listenOptions (OnListenResolve r address) w)
  | _ =>
      let '(r, w) := new_promise Pending w in
      (r, set_promises
            (alter (fun pr => Promise (p_state pr)
                                (Some (ThenMultipleBindings listenOptions r)))
               p (promises w)) w)
  end.

(** The preamble of [listen], lines 37-65: the call shapes are brought to
    one [listenOptions] object and the callback [cb]. *)
Definition listen_arguments (arguments : list value) (w : world)
  : obj * value * world :=
  let listenOptions := nth 0 arguments VUndefined in
  let args := tl arguments in
  let cb := nth (length args - 1) args VUndefined in
  let firstArgType := toStringTag (nth 0 arguments VUndefined) in
  if (length arguments =? 0)%nat then (normalizeListenArgs [], cb, w)
  else if negb (String.eqb firstArgType "[object Object]")
          && negb (String.eqb firstArgType "[object Function]") then
    let w := record (Warning "FSTDEP011") w in
    let listenOptions := normalizeListenArgs arguments in
    (listenOptions, get "cb" listenOptions, w)
  else if (1 <? length args)%nat then
    let w := record (Warning "FSTDEP011") w in
    let listenOptions := props_of listenOptions in
    let hostPath :=
      if truthy (get "path" listenOptions) then [get "path" listenOptions]
      else [coalesce (get "port" listenOptions) (int 0);
            coalesce (get "host" listenOptions) (VStr "localhost")] in
    (assign listenOptions (normalizeListenArgs (hostPath ++ args)), cb, w)
  else (set "cb" cb (props_of listenOptions), cb, w).

(** The variable [host] of [listen], lines 70-76. *)
Definition listen_host (listenOptions : obj) : value :=
  if nullish (get "path" listenOptions)
  then coalesce (get "host" listenOptions) (VStr "localhost")
  else get "host" listenOptions.

(** [listenOptions] as [listen] leaves it at line 97: [host] filled in when
    the property is missing, and [cb] wrapped when the host is 'localhost'. *)
Definition listen_options (listenOptions : obj) (cb : value) : ListenOptions :=
  let host := listen_host listenOptions in
  let listenOptions :=
    if negb (hasOwnProperty "host" listenOptions)
    then set "host" host listenOptions
    else listenOptions in
  if is_str host "localhost"
  then ListenOpts listenOptions (LocalhostCb cb listenOptions)
  else ListenOpts listenOptions (UserCb (get "cb" listenOptions)).

(** [listen], lines 35-124.  The result is the promise returned in the
    promise form, and nothing in the callback form. *)
Definition listen (arguments : list value) (w : world) : option nat * world :=
  let '(listenOptions, cb, w) := listen_arguments arguments w in
  let host := listen_host listenOptions in
  let listenOptions := listen_options listenOptions cb in
  if is_undefined cb then
    let '(listening, w) := listenPromise (mainServer w) listenOptions w in
    if is_str host "localhost" then
      let '(r, w) := then_multipleBindings listening (props listenOptions) w in
      (Some r, w)
    else (Some listening, w)
  else
    let '(fn, w) := listenCallback (mainServer w) listenOptions w in
    (None, set_readyQ (readyQ w ++ [fn]) w).

(** ** The environment *)

(** The operating system has bound the server: [address()] now answers. *)
Definition bind_address (addr : bound_address) (s : net_server) : net_server :=
  NetServer (kind s) (settings s) (listeners s) (Some addr) (unref_emits s).

Inductive event :=
| ListenCall (arguments : list value)
| Ready (n : nat) (err : value)
| ReadyThrows (n : nat) (err : value) (thrown : value)
| DnsAnswer (n : nat) (dnsErr : value) (addresses : list string)
| ListeningEvent (server : nat) (addr : bound_address)
| ErrorEvent (server : nat) (err : value)
| CloseEvent (server : nat)
| UnrefCall (server : nat).

(** One turn of the event loop:
    - the caller calls [listen];
    - the readiness gate calls back the [n]-th function it was given, and
      the call of [server.listen] that this function comes to, if it comes
      to one, returns;
    - the same, and that call of [server.listen] throws;
    - the resolver answers the [n]-th lookup;
    - a server has bound and emits 'listening', emits 'error', emits
      'close';
    - [server.unref()] is called, which emits 'unref' once for every time
      lines 195-200 have wrapped it. *)
Definition step (e : event) (w : world) : world :=
  match e with
  | ListenCall arguments => snd (listen arguments w)
  | Ready n err =>
      match readyQ w !! n with
      | Some k => run_ready_cont k err w
      | None => w
      end
  | ReadyThrows n err thrown =>
      match readyQ w !! n with
      | Some k => run_ready_cont_throws k err thrown w
      | None => w
      end
  | DnsAnswer n dnsErr addresses =>
      match dnsQ w !! n with
      | Some k => dns_callback k dnsErr addresses w
      | None => w
      end
  | ListeningEvent server addr =>
      let w := with_server server (bind_address addr) w in
      emit server "listening" VUndefined w
  | ErrorEvent server err => emit server "error" err w
  | CloseEvent server => emit server "close" VUndefined w
  | UnrefCall server =>
      Nat.iter (default 0 (unref_emits <$> servers w !! server))
        (emit server "unref" VUndefined) w
  end.

Definition run (es : list event) (w : world) : world := fold_left (fun w e => step e w) es w.

End Server.


(** ** Notions used in the statements *)

(** [v] is a number whose value is a non-negative integer. *)
Definition nonneg_integer (v : value) : Prop :=
  exists (q : Q) (z : Z), v = VNum (Fin q) /\ (0 <= z)%Z /\ (q == inject_Z z)%Q.

(** The property [k] of [o] is set: present, and not [undefined]. *)
Definition is_set (k : string) (o : obj) : Prop := get k o <> VUndefined.

(** Exactly one of {path} or {port, host} is set. *)
Definition exactly_one_target (o : obj) : Prop :=
  (is_set "path" o /\ ~ is_set "port" o /\ ~ is_set "host" o)
  \/ (~ is_set "path" o /\ is_set "port" o /\ is_set "host" o).

(** Dotted-decimal text: digits and dots only. *)
Definition ipv4_char (c : ascii) : bool :=
  let n := nat_of_ascii c in
  ((48 <=? n) && (n <=? 57))%nat || Ascii.eqb c "."%char.

Definition ipv4_literal (a : string) : bool :=
  forallb ipv4_char (list_ascii_of_string a).

(** The calls made to caller-supplied values, in order. *)
Definition invocations (w : world) : list (value * list value) :=
  omap (fun e => match e with Invoke f args => Some (f, args) | _ => None end)
       (trace w).

(** The calls of [server.listen], in order: the binds attempted, and the
    calls that threw. *)
Definition binds (w : world) : list (nat * ListenOptions) :=
  omap (fun e => match e with Listen s o => Some (s, o) | _ => None end)
       (trace w).

(** The lookups requested from the resolver, in order. *)
Definition lookups (w : world) : list value :=
  omap (fun e => match e with Lookup h => Some h | _ => None end) (trace w).

Definition promise_state (p : nat) (w : world) : option pstate :=
  p_state <$> promises w !! p.

(** [this[kState].closing] is written by the instance's close(), outside
    server.js. *)
Definition set_closing (b : bool) (w : world) : world :=
  World (listening w) b (kServerBindings w) (kOptions w) (mainServer w)
    (servers w) (counters w) (promises w) (readyQ w) (dnsQ w) (trace w)
    (fresh w).

Section Statements.

Variable StringToNumber : string -> number.

(** The call [listen(arguments)] made in [w] delivers the error [e] to the
    caller and attempts no bind.  In the promise form the promise returned
    is rejected with [e].  In the callback form the callback is called with
    [(e, null)] once the readiness gate has called back without an error of
    its own. *)
Definition rejected_without_bind (arguments : list value) (e : value)
    (w : world) : Prop :=
  let '(_, cb, _) := listen_arguments StringToNumber arguments w in
  match listen StringToNumber arguments w with
  | (Some p, w') =>
      promise_state p w' = Some (Rejected e)
      /\ binds w' = binds w /\ readyQ w' = readyQ w /\ servers w' = servers w
  | (None, w') =>
      forall err, nullish err = true ->
        let w'' := step StringToNumber (Ready (length (readyQ w)) err) w' in
        (exists f, (typeof cb = "function" -> f = cb)
                   /\ invocations w'' = invocations w ++ [(f, [e; VNull])])
        /\ binds w'' = binds w /\ servers w'' = servers w
  end.

End Statements.

Ltac prop_set :=
  unfold is_set, get, int; simpl;
  first [ discriminate | let H := fresh in intros H; apply H; reflexivity ].

(** The completion [onListen] has run once since [w0]: the callback got
    [(null, address)], or the promise is fulfilled with [address]. *)
Definition completed (k : on_listen) (w0 w : world) : Prop :=
  match k with
  | OnListenCallback cb address =>
      invocations w = invocations w0 ++ [(cb, [VNull; address])]
  | OnListenResolve p address =>
      invocations w = invocations w0
      /\ promise_state p w = Some (Fulfilled address)
  end.

(** [onListen] has not run since [w0]. *)
Definition not_completed (k : on_listen) (w0 w : world) : Prop :=
  invocations w = invocations w0
  /\ match k with
     | OnListenCallback _ _ => True
     | OnListenResolve p _ => promise_state p w = Some Pending
     end.

(** In the promise form, the promise that [onListen] resolves is pending
    and nothing is chained on it inside server.js. *)
Definition awaited (k : on_listen) (w : world) : Prop :=
  match k with
  | OnListenCallback _ _ => True
  | OnListenResolve p _ => promises w !! p = Some (Promise Pending None)
  end.

(** [adr.address !== primaryAddress.address] *)
Definition differs (primaryAddress : bound_address) (adr : string) : bool :=
  negb (is_str (address_field primaryAddress) adr).

(** The main server closes the secondary server [sec] on 'unref', 'close'
    and 'error'. *)
Definition wired (main sec : nat) (w : world) : Prop :=
  forall ev, In ev ["unref"; "close"; "error"] ->
    exists id, In (Listener ev false id (CloseSecondary sec))
                  (listeners_for main ev w).

(** The state of the loop of [multipleBindings] started in [wi], from the
    first resolved address that differs from the primary's on: the bind of
    the secondary server [sec1] is in flight, and every later secondary has
    been turned down by the guards of [listenCallback]. *)
Record inflight (wi : world) (join sec1 wrap1 : nat) (LO1 : ListenOptions)
    (w : world) : Prop := InFlight {
  if_listening : listening w = true;
  if_counters : exists d, counters w !! join = Some (S d, d);
  if_closing : closing w = closing wi;
  if_main : mainServer w = mainServer wi;
  if_options : kOptions w = kOptions wi;
  if_invocations : invocations w = invocations wi;
  if_bindings : kServerBindings w = kServerBindings wi;
  if_promises : promises w = promises wi;
  if_binds : binds w = binds wi ++ [(sec1, LO1)];
  if_error : listeners_for sec1 "error" w
             = [Listener "error" true wrap1 (Wrap sec1 LO1)];
  if_listen : listeners_for sec1 "listening" w
              = [Listener "listening" true wrap1 (Wrap sec1 LO1)];
  if_sec : is_Some (servers w !! sec1);
  if_main_server : is_Some (servers w !! mainServer wi);
  if_address : server_address (mainServer wi) w = server_address (mainServer wi) wi;
  if_fresh : (sec1 < fresh w)%nat /\ (mainServer wi < fresh w)%nat
             /\ sec1 <> mainServer wi;
  if_wired1 : wired (mainServer wi) sec1 w;
  if_wired : forall sec, servers wi !! sec = None -> is_Some (servers w !! sec) ->
             wired (mainServer wi) sec w
}.

(** The trace only grows. *)
Definition extends (w w' : world) : Prop := exists t, trace w' = trace w ++ t.

(** The step [e] taken in [w] closes the server [sec]: [sec.close()] is among
    the effects that the step adds. *)
Definition closes (StringToNumber : string -> number) (e : event) (sec : nat)
    (w : world) : Prop :=
  exists t, trace (step StringToNumber e w) = trace w ++ t /\ In (Close sec) t.

(** In [w], each of the three ways the server [main] ends closes the server
    [sec]: [main] emits 'close', emits 'error', or has [unref()] called. *)
Definition closed_with (StringToNumber : string -> number) (main sec : nat)
    (w : world) : Prop :=
  closes StringToNumber (CloseEvent main) sec w
  /\ (forall e, closes StringToNumber (ErrorEvent main e) sec w)
  /\ closes StringToNumber (UnrefCall main) sec w.

(** An instance that listens on 127.0.0.1:3000, for the examples. *)
Definition listening_instance : world :=
  run decimalStringToNumber
    [ListenCall [VObj [("port", int 3000); ("host", VStr "127.0.0.1")]; VFun 0];
     Ready 0 VUndefined;
     ListeningEvent 0 (Inet "127.0.0.1" 3000)]
    (createServer decimalStringToNumber []).

(** An instance whose main server is bound to 127.0.0.1:3000, the options
    of a listen on localhost, and the completion that tells the caller. *)
Definition bound_instance : world :=
  step decimalStringToNumber (ListeningEvent 0 (Inet "127.0.0.1" 3000))
    (createServer decimalStringToNumber []).

Definition localhost_options : obj :=
  [("port", int 3000); ("host", VStr "localhost")].

Definition tell_caller : on_listen :=
  OnListenCallback (VFun 0) (VStr "http://127.0.0.1:3000").

(** ** Call shapes, warnings and log lines *)

(** The positional arguments: what is left once a trailing function, the
    callback, is taken off. *)
Definition positional (args : list value) : list value :=
  if String.eqb (typeof (List.last args VUndefined)) "function"
  then removelast args else args.

(** The deprecation warnings emitted, in order. *)
Definition warnings (w : world) : list string :=
  omap (fun e => match e with Warning c => Some c | _ => None end) (trace w).

(** The call shapes of the deprecated variadic signature: a first argument
    that is neither an options object nor a function, or more than one
    argument after the first. *)
Definition variadic_call (arguments : list value) : bool :=
  match arguments with
  | [] => false
  | VObj _ :: rest | VFun _ :: rest => (1 <? length rest)%nat
  | _ :: _ => true
  end.

(** The call comes with a callback: a trailing function in the variadic
    signature, and any last argument that is not [undefined] after an
    options object. *)
Definition has_callback (arguments : list value) : Prop :=
  match arguments with
  | [] => False
  | VObj _ :: rest | VFun _ :: rest => List.last rest VUndefined <> VUndefined
  | _ :: _ => typeof (List.last arguments VUndefined) = "function"
  end.

(** The lines given to the logger, in order. *)
Definition logs (w : world) : list effect :=
  omap (fun e => match e with
                 | LogInfo _ | LogInfoVia _ _ => Some e
                 | _ => None
                 end) (trace w).

(** The line logged for [address]: the default text, or the call of the
    [listenTextResolver] of the options. *)
Definition listening_line (listenOptions : obj) (address : string) : effect :=
  if truthy (get "listenTextResolver" listenOptions)
  then LogInfoVia (get "listenTextResolver" listenOptions) address
  else LogInfo ("Server listening at " +:+ address).

(** The caller of [listen] has been told, once since [w0], that the server
    listens at [address]: the callback got [(null, address)], or the promise
    returned is fulfilled with [address]. *)
Definition told (result : option nat) (cb : value) (address : string)
    (w0 w : world) : Prop :=
  match result with
  | None => invocations w = invocations w0 ++ [(cb, [VNull; VStr address])]
  | Some p => promise_state p w = Some (Fulfilled (VStr address))
              /\ invocations w = invocations w0
  end.

(** The first argument is an options object, or a function. *)
Definition options_first (arguments : list value) : bool :=
  match arguments with
  | VObj _ :: _ | VFun _ :: _ => true
  | _ => false
  end.

(** Between [w] and [w'] the instance, its servers and what the caller and
    the operating system have seen are the same. *)
Definition same_instance (w w' : world) : Prop :=
  listening w' = listening w /\ closing w' = closing w
  /\ kServerBindings w' = kServerBindings w /\ kOptions w' = kOptions w
  /\ mainServer w' = mainServer w /\ servers w' = servers w
  /\ counters w' = counters w /\ dnsQ w' = dnsQ w
  /\ invocations w' = invocations w /\ binds w' = binds w
  /\ lookups w' = lookups w /\ (fresh w <= fresh w')%nat.


Ltac wcbn :=
  cbn [listening closing kServerBindings kOptions mainServer servers counters
       promises readyQ dnsQ trace fresh
       set_listening set_kServerBindings set_servers set_counters set_promises
       set_readyQ set_dnsQ set_trace set_fresh set_closing record with_server
       alloc fst snd].

Ltac wcbn_in H :=
  cbn [listening closing kServerBindings kOptions mainServer servers counters
       promises readyQ dnsQ trace fresh
       set_listening set_kServerBindings set_servers set_counters set_promises
       set_readyQ set_dnsQ set_trace set_fresh set_closing record with_server
       alloc fst snd] in H.

Ltac exists_server :=
  repeat (rewrite lookup_alter_is_Some); try assumption.


Ltac views :=
  unfold invocations, binds, lookups; wcbn;
  rewrite ?omap_app; cbn [omap list_omap]; rewrite ?app_nil_r.

Ltac exists_server2 :=
  repeat first [ rewrite lookup_alter_is_Some
               | rewrite lookup_insert_is_Some ];
  try assumption; try (left; reflexivity); try (right; split; [lia | assumption]).

(** * Properties *)

(** ** The HTTP version gate *)

Lemma is_true_spec (v : value) : is_true v = true <-> v = VBool true.
Proof.
  split.
  - destruct v as [| |[|]| | | | |]; simpl; intros H; try discriminate H; reflexivity.
  - intros ->. reflexivity.
Qed.

Lemma allowHTTP1_needs_object (v : value) (k : string) :
  get k (props_of v) = VBool true -> truthy v = true.
Proof.
  destruct v; simpl; try (unfold get; simpl; discriminate). reflexivity.
Qed.

Lemma http1_labels (v : string) :
  is_Some ((<["1.0" := true]> (<["1.1" := true]> (∅ : gmap string bool))) !! v)
  <-> v = "1.1" \/ v = "1.0".
Proof.
  rewrite !lookup_insert_is_Some, lookup_empty.
  split.
  - intros [H | [_ [H | [_ H]]]]; auto. destruct H as [? H]; discriminate H.
  - intros [-> | ->]; [right; split; [discriminate | left; reflexivity] | left; reflexivity].
Qed.

Lemma all_labels (v : string) :
  is_Some ((<["1.0" := true]> (<["1.1" := true]>
             (<["2.0" := true]> (∅ : gmap string bool)))) !! v)
  <-> v = "2.0" \/ v = "1.1" \/ v = "1.0".
Proof.
  rewrite !lookup_insert_is_Some, lookup_empty.
  split.
  - intros [H | [_ [H | [_ [H | [_ H]]]]]]; auto. destruct H as [? H]; discriminate H.
  - intros [-> | [-> | ->]].
    + right; split; [discriminate |]. right; split; [discriminate |]. left; reflexivity.
    + right; split; [discriminate | left; reflexivity].
    + left; reflexivity.
Qed.

Lemma http2_label (v : string) :
  is_Some ((<["2.0" := true]> (∅ : gmap string bool)) !! v) <-> v = "2.0".
Proof.
  rewrite lookup_insert_is_Some, lookup_empty.
  split.
  - intros [H | [_ H]]; auto. destruct H as [? H]; discriminate H.
  - intros ->. left; reflexivity.
Qed.

(** C2: the compiled predicate accepts a version label [v] exactly when a
    custom server factory is supplied, or http2 is on and [v] is "2.0", or
    http2 is on with https options whose [allowHTTP1] is [true] itself and
    [v] is "1.1" or "1.0", or http2 is off and [v] is "1.1" or "1.0". *)
Theorem compileValidateHTTPVersion_accepts_iff (options : obj) (v : string) :
  compileValidateHTTPVersion options (VStr v) = true <->
    truthy (get "serverFactory" options) = true
    \/ (truthy (get "http2" options) = true /\ v = "2.0")
    \/ (truthy (get "http2" options) = true
        /\ get "allowHTTP1" (props_of (get "https" options)) = VBool true
        /\ (v = "1.1" \/ v = "1.0"))
    \/ (truthy (get "http2" options) = false /\ (v = "1.1" \/ v = "1.0")).
Proof.
  unfold compileValidateHTTPVersion, Map_has.
  destruct (truthy (get "serverFactory" options)) eqn:Hf; simpl.
  { split; auto. }
  destruct (truthy (get "http2" options)) eqn:H2.
  - destruct (truthy (get "https" options)
              && is_true (get "allowHTTP1" (props_of (get "https" options))))
      eqn:Ha.
    + apply andb_prop in Ha as [_ Ha]. apply is_true_spec in Ha.
      rewrite bool_decide_eq_true, all_labels.
      split.
      * intros [-> | H]; [right; left; auto | right; right; left; auto].
      * intros [H | [[_ ->] | [[_ [_ H]] | [H _]]]]; try discriminate H; tauto.
    + rewrite bool_decide_eq_true, http2_label.
      split.
      * intros ->. right; left; auto.
      * intros [H | [[_ ->] | [[_ [Hallow _]] | [H _]]]]; try discriminate H; auto.
        rewrite (allowHTTP1_needs_object _ _ Hallow) in Ha. simpl in Ha.
        rewrite Hallow in Ha. discriminate Ha.
  - rewrite bool_decide_eq_true, http1_labels.
    split.
    + intros H. right; right; right; auto.
    + intros [H | [[H _] | [[H _] | [_ H]]]]; try discriminate H; auto.
Qed.

(** ** Normalizing the arguments of listen *)

Lemma nonneg_integer_check (q : Q) :
  Number_isInteger (VNum (Fin q)) = true -> ge0 (Fin q) = true ->
  nonneg_integer (VNum (Fin q)).
Proof.
  unfold Number_isInteger, ge0. intros Hint Hge.
  apply Pos.eqb_eq in Hint. apply Z.leb_le in Hge.
  pose proof (Qred_correct q) as Heq. unfold Qeq in Heq. rewrite Hint in Heq.
  exists q, (Qnum (Qred q)). split; [reflexivity |]. split.
  - assert (0 < Z.pos (Qden q))%Z by lia. nia.
  - unfold Qeq. simpl. lia.
Qed.

Lemma normalizePort_nonneg N (v : value) : nonneg_integer (normalizePort N v).
Proof.
  unfold normalizePort.
  destruct (ge0 (toNumber N v) && negb (Number_isNaN (toNumber N v))
            && Number_isInteger (VNum (toNumber N v))) eqn:H.
  - apply andb_prop in H as [H Hint]. apply andb_prop in H as [Hge _].
    destruct (toNumber N v) as [q | | |]; try discriminate Hint.
    apply nonneg_integer_check; assumption.
  - exists (inject_Z 0), 0%Z. split; [reflexivity |]. split; [lia | reflexivity].
Qed.

Lemma normalizePort_coerces N (v : value) :
  ~ nonneg_integer (VNum (toNumber N v)) -> normalizePort N v = int 0.
Proof.
  intros Hn. unfold normalizePort.
  destruct (ge0 (toNumber N v) && negb (Number_isNaN (toNumber N v))
            && Number_isInteger (VNum (toNumber N v))) eqn:H; [| reflexivity].
  exfalso. apply Hn.
  apply andb_prop in H as [H Hint]. apply andb_prop in H as [Hge _].
  destruct (toNumber N v) as [q | | |]; try discriminate Hint.
  apply nonneg_integer_check; assumption.
Qed.


Lemma typeof_string (v : value) :
  String.eqb (typeof v) "string" = true -> exists s, v = VStr s.
Proof. destruct v; simpl; intros H; try discriminate H. eauto. Qed.

Lemma isInteger_number (v : value) :
  Number_isInteger v = true -> exists q, v = VNum (Fin q).
Proof.
  destruct v as [| | |[q| | |]| | | |]; intros H; try discriminate H. eauto.
Qed.

Lemma truthy_defined (v : value) : truthy v = true -> v <> VUndefined.
Proof. intros H ->. discriminate H. Qed.

Lemma nonneg_integer_defined (v : value) : nonneg_integer v -> v <> VUndefined.
Proof. intros (q & z & -> & _). discriminate. Qed.

Lemma In_removelast {A} (x : A) (l : list A) : In x (removelast l) -> In x l.
Proof.
  induction l as [| a l IH]; simpl; [tauto |].
  destruct l as [| b l]; simpl in *; [tauto |].
  intros [-> | H]; [left; reflexivity | right; apply IH; exact H].
Qed.

(** The request built from the positional values [args] left after the
    trailing callback is taken off. *)
Lemma normalizeListenArgs_nonempty N (args : list value) :
  args <> [] ->
  exists cb args',
    ((args' = args /\ cb = VUndefined
      /\ typeof (nth (length args - 1) args VUndefined) <> "function")
     \/ (args' = removelast args /\ cb = nth (length args - 1) args VUndefined
         /\ typeof (nth (length args - 1) args VUndefined) = "function"))
    /\ normalizeListenArgs N args =
       let firstArg := nth 0 args' VUndefined in
       if String.eqb (typeof firstArg) "string" && Number_isNaN (toNumber N firstArg)
       then [("cb", cb); ("path", firstArg);
             ("backlog", if (1 <? length args')%nat
                         then nth (length args' - 1) args' VUndefined else VUndefined)]
       else [("cb", cb);
             ("port", if (1 <=? length args')%nat && Number_isInteger firstArg
                      then firstArg else normalizePort N firstArg);
             ("host", if (2 <=? length args')%nat && truthy (nth 1 args' VUndefined)
                      then nth 1 args' VUndefined else VStr "localhost");
             ("backlog", if (3 <=? length args')%nat then nth 2 args' VUndefined
                         else VUndefined)].
Proof.
  intros Hne. unfold normalizeListenArgs.
  destruct args as [| a args]; [congruence |].
  change (length (a :: args) =? 0)%nat with false. cbv iota.
  destruct (String.eqb (typeof (nth (length (a :: args) - 1) (a :: args) VUndefined))
              "function") eqn:Hfn.
  - exists (nth (length (a :: args) - 1) (a :: args) VUndefined), (removelast (a :: args)).
    split; [right; split; [reflexivity | split; [reflexivity | apply String.eqb_eq; exact Hfn]] |].
    cbv zeta.
    destruct (String.eqb _ "string" && _); reflexivity.
  - exists VUndefined, (a :: args).
    split; [left; split; [reflexivity | split; [reflexivity | apply String.eqb_neq; exact Hfn]] |].
    cbv zeta.
    destruct (String.eqb _ "string" && _); reflexivity.
Qed.


Lemma normalizeListenArgs_exactly_one N args : exactly_one_target (normalizeListenArgs N args).
Proof.
  destruct args as [| a0 args0] eqn:Hargs.
  { right. split; [prop_set |]. split; prop_set. }
  rewrite <- Hargs.
  destruct (normalizeListenArgs_nonempty N args) as (cb & args' & Hargs' & ->); [congruence |].
  cbv zeta.
  destruct (String.eqb (typeof (nth 0 args' VUndefined)) "string"
            && Number_isNaN (toNumber N (nth 0 args' VUndefined))) eqn:Hpath.
  - left. apply andb_prop in Hpath as [Hstr _].
    apply typeof_string in Hstr as [s Hs]. rewrite Hs.
    split; [prop_set |]. split; prop_set.
  - right. unfold is_set, get; simpl. split; [intros H; apply H; reflexivity |]. split.
    + destruct (_ && Number_isInteger _) eqn:Hint.
      * apply andb_prop in Hint as [_ Hint]. apply isInteger_number in Hint as [q ->]. discriminate.
      * apply nonneg_integer_defined, normalizePort_nonneg.
    + destruct (_ && truthy _) eqn:Hh.
      * apply andb_prop in Hh as [_ Hh]. apply truthy_defined, Hh.
      * discriminate.
Qed.

Lemma normalizePort_cases N (v : value) :
  nonneg_integer (VNum (toNumber N v)) \/ normalizePort N v = int 0.
Proof.
  unfold normalizePort.
  destruct (ge0 (toNumber N v) && negb (Number_isNaN (toNumber N v))
            && Number_isInteger (VNum (toNumber N v))) eqn:H; [left | right; reflexivity].
  apply andb_prop in H as [H Hint]. apply andb_prop in H as [Hge _].
  destruct (toNumber N v) as [q | | |]; try discriminate Hint.
  apply nonneg_integer_check; assumption.
Qed.

Lemma isInteger_first (l : list value) :
  Number_isInteger (nth 0 l VUndefined) = true -> (1 <=? length l)%nat = true.
Proof. destruct l; simpl; [discriminate | reflexivity]. Qed.

(** C7, as amended: for every argument list, exactly one of {path} or
    {port, host} is set in the normalized request; [backlog] is unset or one
    of the caller's arguments, taken as it is; and [port], when set, is the
    first argument itself when that is an integer number (kept as it is),
    and otherwise a non-negative integer, which is 0 unless the first
    argument converts to a non-negative integer. *)
Theorem normalizeListenArgs_request N (args : list value) :
  let o := normalizeListenArgs N args in
  let first := nth 0 args VUndefined in
  exactly_one_target o
  /\ (get "backlog" o = VUndefined \/ In (get "backlog" o) args)
  /\ (get "port" o = VUndefined
      \/ (Number_isInteger first = true /\ get "port" o = first)
      \/ (Number_isInteger first = false /\ nonneg_integer (get "port" o)
          /\ (nonneg_integer (VNum (toNumber N first)) \/ get "port" o = int 0))).
Proof.
  cbv zeta. split; [apply normalizeListenArgs_exactly_one |].
  destruct args as [| a0 args0] eqn:Hargs.
  { split; [left; reflexivity |]. right; right.
    split; [reflexivity |]. split; [| right; reflexivity].
    exists (inject_Z 0), 0%Z. split; [reflexivity |]. split; [lia | reflexivity]. }
  rewrite <- Hargs.
  destruct (normalizeListenArgs_nonempty N args) as (cb & args' & Hargs' & ->); [congruence |].
  cbv zeta.
  assert (Hsub : forall x, In x args' -> In x args).
  { destruct Hargs' as [[-> _] | [-> _]]; [tauto | intros x; apply In_removelast]. }
  destruct (String.eqb (typeof (nth 0 args' VUndefined)) "string"
            && Number_isNaN (toNumber N (nth 0 args' VUndefined))) eqn:Hpath.
  - split; [| left; reflexivity].
    match goal with |- context [("backlog", ?b)] => set (B := b) end.
    change (B = VUndefined \/ In B args). subst B.
    destruct (1 <? length args')%nat eqn:Hlen; [right | left; reflexivity].
    apply Hsub, nth_In. apply Nat.ltb_lt in Hlen. lia.
  - match goal with |- context [("backlog", ?b)] => set (B := b) end.
    match goal with |- context [("port", ?b)] => set (P := b) end.
    match goal with |- context [("host", ?b)] => set (H := b) end.
    change ((B = VUndefined \/ In B args)
            /\ (P = VUndefined
                \/ (Number_isInteger (nth 0 args VUndefined) = true /\ P = nth 0 args VUndefined)
                \/ (Number_isInteger (nth 0 args VUndefined) = false /\ nonneg_integer P
                    /\ (nonneg_integer (VNum (toNumber N (nth 0 args VUndefined)))
                        \/ P = int 0)))).
    subst B P. clear H.
    split.
    + destruct (3 <=? length args')%nat eqn:Hlen; [right | left; reflexivity].
      apply Hsub, nth_In. apply Nat.leb_le in Hlen. lia.
    + right.
      destruct Hargs' as [[-> _] | [-> [_ Hfn]]].
      * destruct (Number_isInteger (nth 0 args VUndefined)) eqn:Hint.
        -- left. rewrite (isInteger_first _ Hint). auto.
        -- right. rewrite andb_false_r.
           split; [reflexivity |]. split; [apply normalizePort_nonneg | apply normalizePort_cases].
      * rewrite Hargs in *. clear Hargs args.
        destruct args0 as [| a1 args1].
        -- simpl in Hfn. right. simpl.
           split; [destruct a0; try discriminate Hfn; reflexivity |].
           split; [apply normalizePort_nonneg |]. right. reflexivity.
        -- change (nth 0 (removelast (a0 :: a1 :: args1)) VUndefined) with a0.
           change (nth 0 (a0 :: a1 :: args1) VUndefined) with a0.
           destruct (Number_isInteger a0) eqn:Hint.
           ++ left. simpl. auto.
           ++ right. rewrite andb_false_r.
              split; [reflexivity |]. split; [apply normalizePort_nonneg | apply normalizePort_cases].
Qed.

(** C7, as stated, fails on [listen(-1, '127.0.0.1', -5)]: the port stays
    -1 and the backlog stays -5. *)
Lemma normalizeListenArgs_negative_port_backlog :
  let o := normalizeListenArgs decimalStringToNumber
             [int (-1); VStr "127.0.0.1"; int (-5)] in
  get "port" o = int (-1) /\ get "backlog" o = int (-5)
  /\ ~ nonneg_integer (get "port" o)
  /\ ~ (get "backlog" o = VUndefined \/ nonneg_integer (get "backlog" o)).
Proof.
  cbv zeta. split; [reflexivity |]. split; [reflexivity |].
  change (get "port" (normalizeListenArgs decimalStringToNumber
             [int (-1); VStr "127.0.0.1"; int (-5)])) with (int (-1)).
  change (get "backlog" (normalizeListenArgs decimalStringToNumber
             [int (-1); VStr "127.0.0.1"; int (-5)])) with (int (-5)).
  split.
  - intros (q & z & Hq & Hz & Heq). injection Hq as <-.
    unfold Qeq in Heq. simpl in Heq. lia.
  - intros [H | (q & z & Hq & Hz & Heq)]; [discriminate H |].
    injection Hq as <-. unfold Qeq in Heq. simpl in Heq. lia.
Qed.

(** ** Reporting the address *)

Lemma indexOf_from_found (c : ascii) (s : string) (i : Z) :
  (0 <= i)%Z ->
  (indexOf_from c s i = -1)%Z <-> ~ In c (list_ascii_of_string s).
Proof.
  revert i. induction s as [| c' s IH]; intros i Hi; simpl.
  - tauto.
  - destruct (Ascii.eqb c' c) eqn:Hc.
    + apply Ascii.eqb_eq in Hc. split; [lia | intros H; exfalso; apply H; left; exact Hc].
    + apply Ascii.eqb_neq in Hc. rewrite IH by lia. tauto.
Qed.

Lemma indexOf_absent (c : ascii) (s : string) :
  ~ In c (list_ascii_of_string s) -> (indexOf c s =? -1)%Z = true.
Proof. intros H. apply Z.eqb_eq, indexOf_from_found; [lia | exact H]. Qed.

Lemma indexOf_present (c : ascii) (s : string) :
  In c (list_ascii_of_string s) -> (indexOf c s =? -1)%Z = false.
Proof.
  intros H. apply Z.eqb_neq. intros Hn.
  apply indexOf_from_found in Hn; [tauto | lia].
Qed.

Lemma ipv4_literal_no_colon (a : string) :
  ipv4_literal a = true -> ~ In ":"%char (list_ascii_of_string a).
Proof.
  unfold ipv4_literal. rewrite forallb_forall. intros H Hin.
  apply H in Hin. discriminate Hin.
Qed.

(** C8: the address reported for a bound server is the path itself, with no
    scheme, for a pipe or socket path; scheme, address, colon and port for
    an IPv4 address; scheme, the address in brackets, colon and port for an
    address with a colon in it (IPv6); the scheme being "https://" when
    https options are configured and "http://" otherwise. *)
Theorem logServerAddress_text (sid : nat) (r : text_resolver) (w : world) :
  (forall p, server_address sid w = Some (Path p) ->
     fst (logServerAddress sid r w) = Some p)
  /\ (forall a port, server_address sid w = Some (Inet a port) ->
        ipv4_literal a = true ->
        fst (logServerAddress sid r w) =
          Some ((if truthy (get "https" (kOptions w)) then "https://" else "http://")
                +:+ a +:+ ":" +:+ pretty port))
  /\ (forall a port, server_address sid w = Some (Inet a port) ->
        In ":"%char (list_ascii_of_string a) ->
        fst (logServerAddress sid r w) =
          Some ((if truthy (get "https" (kOptions w)) then "https://" else "http://")
                +:+ "[" +:+ a +:+ "]:" +:+ pretty port)).
Proof.
  unfold logServerAddress. repeat split.
  - intros p ->. destruct r; reflexivity.
  - intros a port -> Hv4.
    rewrite (indexOf_absent _ _ (ipv4_literal_no_colon _ Hv4)).
    destruct (truthy (get "https" (kOptions w))); destruct r; reflexivity.
  - intros a port -> Hv6.
    rewrite (indexOf_present _ _ Hv6).
    destruct (truthy (get "https" (kOptions w))); destruct r; reflexivity.
Qed.

Lemma logServerAddress_text_witness :
  fst (logServerAddress 0 DefaultResolver
         (step decimalStringToNumber (ListeningEvent 0 (Inet "127.0.0.1" 3000)) (createServer decimalStringToNumber [])))
    = Some "http://127.0.0.1:3000"
  /\ fst (logServerAddress 0 DefaultResolver
         (step decimalStringToNumber (ListeningEvent 0 (Inet "::1" 3000)) (createServer decimalStringToNumber [])))
    = Some "http://[::1]:3000"
  /\ fst (logServerAddress 0 DefaultResolver
         (step decimalStringToNumber (ListeningEvent 0 (Path "/tmp/x.sock")) (createServer decimalStringToNumber [])))
    = Some "/tmp/x.sock"
  /\ fst (logServerAddress 0 DefaultResolver
         (step decimalStringToNumber (ListeningEvent 0 (Inet "127.0.0.1" 3000))
            (createServer decimalStringToNumber [("https", VObj [])])))
    = Some "https://127.0.0.1:3000".
Proof.
  split; [| split; [| split]].
  - exact (proj1 (proj2 (logServerAddress_text 0 DefaultResolver
             (step decimalStringToNumber (ListeningEvent 0 (Inet "127.0.0.1" 3000)) (createServer decimalStringToNumber []))))
             "127.0.0.1" 3000%nat ltac:(vm_compute; reflexivity) ltac:(vm_compute; reflexivity)).
  - exact (proj2 (proj2 (logServerAddress_text 0 DefaultResolver
             (step decimalStringToNumber (ListeningEvent 0 (Inet "::1" 3000)) (createServer decimalStringToNumber []))))
             "::1" 3000%nat ltac:(vm_compute; reflexivity) ltac:(simpl; tauto)).
  - exact (proj1 (logServerAddress_text 0 DefaultResolver
             (step decimalStringToNumber (ListeningEvent 0 (Path "/tmp/x.sock")) (createServer decimalStringToNumber [])))
             "/tmp/x.sock" ltac:(vm_compute; reflexivity)).
  - exact (proj1 (proj2 (logServerAddress_text 0 DefaultResolver
             (step decimalStringToNumber (ListeningEvent 0 (Inet "127.0.0.1" 3000))
                (createServer decimalStringToNumber [("https", VObj [])]))))
             "127.0.0.1" 3000%nat ltac:(vm_compute; reflexivity) ltac:(vm_compute; reflexivity)).
Defined.

(** * The listener state machine *)

(** ** Property lists *)

Lemma get_set_eq (k : string) (v : value) (o : obj) : get k (set k v o) = v.
Proof.
  unfold get. induction o as [| [k' v'] o IH]; simpl.
  - rewrite String.eqb_refl. reflexivity.
  - destruct (String.eqb k k') eqn:Hk; simpl; rewrite Hk; [reflexivity | exact IH].
Qed.

Lemma get_set_ne (k k' : string) (v : value) (o : obj) :
  k <> k' -> get k (set k' v o) = get k o.
Proof.
  intros Hne. unfold get. induction o as [| [k2 v2] o IH]; simpl.
  - apply String.eqb_neq in Hne. rewrite Hne. reflexivity.
  - destruct (String.eqb k' k2) eqn:Hk; simpl.
    + apply String.eqb_eq in Hk. subst k2.
      apply String.eqb_neq in Hne. rewrite Hne. reflexivity.
    + destruct (String.eqb k k2); [reflexivity | exact IH].
Qed.

(** ** The views of the trace *)

Lemma invocations_record (e : effect) (w : world) :
  invocations (record e w) =
  invocations w ++ match e with Invoke f args => [(f, args)] | _ => [] end.
Proof.
  unfold invocations, record. simpl. rewrite omap_app. simpl.
  destruct e; reflexivity.
Qed.

Lemma binds_record (e : effect) (w : world) :
  binds (record e w) =
  binds w ++ match e with Listen s o => [(s, o)] | _ => [] end.
Proof.
  unfold binds, record. simpl. rewrite omap_app. simpl.
  destruct e; reflexivity.
Qed.

Lemma server_address_add (sid sid' : nat) (l : listener) (w : world) :
  server_address sid' (with_server sid (add_listener l) w) = server_address sid' w.
Proof.
  unfold server_address, with_server. cbn [servers set_servers].
  rewrite lookup_alter. case_decide; [subst sid' |]; [| reflexivity].
  destruct (servers w !! sid); reflexivity.
Qed.

Lemma server_address_frame (sid : nat) (w w' : world) :
  servers w' = servers w -> server_address sid w' = server_address sid w.
Proof. unfold server_address. intros ->. reflexivity. Qed.

Lemma lookup_add_listener_address (m : gmap nat net_server) (i j : nat) (l : listener) :
  alter (add_listener l) i m !! j ≫= address = m !! j ≫= address.
Proof.
  rewrite lookup_alter. case_decide; [subst j |]; [| reflexivity].
  destruct (m !! i); reflexivity.
Qed.

Lemma binds_trace_app (w : world) (t : list effect) :
  omap (fun e => match e with Listen s o => Some (s, o) | _ => None end) (trace w ++ t)
  = binds w ++ omap (fun e => match e with Listen s o => Some (s, o) | _ => None end) t.
Proof. apply omap_app. Qed.

Lemma invocations_trace_app (w : world) (t : list effect) :
  omap (fun e => match e with Invoke f args => Some (f, args) | _ => None end) (trace w ++ t)
  = invocations w ++ omap (fun e => match e with Invoke f args => Some (f, args) | _ => None end) t.
Proof. apply omap_app. Qed.

(** ** Listener lists *)

Lemma filter_remove_first (ev : string) (id : nat) (ls : list listener) :
  List.filter (fun l => String.eqb (l_event l) ev) (remove_first ev id ls)
  = remove_first ev id (List.filter (fun l => String.eqb (l_event l) ev) ls).
Proof.
  induction ls as [| l ls IH]; [reflexivity |].
  cbn [remove_first List.filter]. unfold same_listener.
  destruct (String.eqb (l_event l) ev) eqn:Hev; cbn [andb].
  - destruct (Nat.eqb (l_id l) id) eqn:Hid.
    + cbn [remove_first]. unfold same_listener. rewrite Hev, Hid. reflexivity.
    + cbn [remove_first List.filter]. unfold same_listener.
      rewrite Hev, Hid. cbn [andb]. f_equal. exact IH.
  - cbn [List.filter]. rewrite Hev. exact IH.
Qed.

Lemma filter_remove_first_ne (ev ev' : string) (id : nat) (ls : list listener) :
  ev <> ev' ->
  List.filter (fun l => String.eqb (l_event l) ev') (remove_first ev id ls)
  = List.filter (fun l => String.eqb (l_event l) ev') ls.
Proof.
  intros Hne. induction ls as [| l ls IH]; [reflexivity |].
  cbn [remove_first]. unfold same_listener.
  destruct (String.eqb (l_event l) ev) eqn:Hev; cbn [andb].
  - destruct (Nat.eqb (l_id l) id).
    + cbn [List.filter]. apply String.eqb_eq in Hev.
      apply String.eqb_neq in Hne. rewrite Hev, Hne. reflexivity.
    + cbn [List.filter]. rewrite IH. reflexivity.
  - cbn [List.filter]. rewrite IH. reflexivity.
Qed.

Lemma filter_rev' {A} (f : A -> bool) (l : list A) :
  List.filter f (rev l) = rev (List.filter f l).
Proof.
  induction l as [| a l IH]; [reflexivity |].
  simpl. rewrite List.filter_app, IH. simpl.
  destruct (f a); [reflexivity | apply app_nil_r].
Qed.


Lemma listeners_in_drop (m : gmap nat net_server) (sid sid' : nat) (ev ev' : string)
    (id : nat) :
  listeners_in (alter (drop_listener ev id) sid m) sid' ev'
  = if Nat.eqb sid sid' && String.eqb ev ev'
    then rev (remove_first ev id (rev (listeners_in m sid' ev')))
    else listeners_in m sid' ev'.
Proof.
  unfold listeners_in. rewrite lookup_alter. case_decide as Hs.
  - subst sid'. rewrite Nat.eqb_refl. cbn [andb].
    destruct (m !! sid) as [s |]; cbn.
    + destruct (String.eqb ev ev') eqn:Hev.
      * apply String.eqb_eq in Hev. subst ev'.
        rewrite filter_rev', filter_remove_first, filter_rev'. reflexivity.
      * apply String.eqb_neq in Hev.
        rewrite filter_rev', filter_remove_first_ne, filter_rev', rev_involutive by exact Hev.
        reflexivity.
    + destruct (String.eqb ev ev'); reflexivity.
  - apply Nat.eqb_neq in Hs. rewrite Hs. reflexivity.
Qed.

Lemma listeners_in_add (m : gmap nat net_server) (sid sid' : nat) (ev : string)
    (l : listener) :
  is_Some (m !! sid) ->
  listeners_in (alter (add_listener l) sid m) sid' ev
  = listeners_in m sid' ev
    ++ (if Nat.eqb sid sid' && String.eqb (l_event l) ev then [l] else []).
Proof.
  intros [s Hs]. unfold listeners_in.
  rewrite lookup_alter. case_decide as Hd.
  - subst sid'. rewrite Nat.eqb_refl, Hs. cbn. rewrite List.filter_app. cbn.
    destruct (String.eqb (l_event l) ev); reflexivity.
  - apply Nat.eqb_neq in Hd. rewrite Hd. cbn. rewrite app_nil_r. reflexivity.
Qed.

Lemma listeners_in_bind (m : gmap nat net_server) (sid sid' : nat) (ev : string)
    (addr : bound_address) :
  listeners_in (alter (bind_address addr) sid m) sid' ev = listeners_in m sid' ev.
Proof.
  unfold listeners_in. rewrite lookup_alter. case_decide as Hd; [subst sid' |]; [| reflexivity].
  destruct (m !! sid); reflexivity.
Qed.

Lemma emit_no_listener (sid : nat) (ev : string) (arg : value) (w : world) :
  listeners_for sid ev w = [] -> emit sid ev arg w = w.
Proof. unfold emit. intros ->. reflexivity. Qed.

(** ** What the callbacks leave alone *)

Lemma settle_servers (p : nat) (st : pstate) (w : world) :
  servers (settle p st w) = servers w.
Proof.
  unfold settle. destruct (promises w !! p) as [[[| |] k] |]; try reflexivity.
  destruct k as [[lo r] |]; destruct st; reflexivity.
Qed.

Lemma run_onListen_servers (k : on_listen) (w : world) :
  servers (run_onListen k w) = servers w.
Proof. destruct k; cbn [run_onListen]; [| rewrite settle_servers]; reflexivity. Qed.

Lemma call_servers (f : callback) (args : list value) (w : world) :
  servers (call f args w) = servers w.
Proof.
  destruct f; cbn [call]; try reflexivity.
  - destruct (truthy (nth 0 args VUndefined)); reflexivity.
  - destruct (default (0, 0) (counters w !! join)) as [binding binded].
    destruct (negb (truthy (nth 0 args VUndefined)));
      destruct (Nat.eqb (S binded) binding); rewrite ?run_onListen_servers; reflexivity.
Qed.

Lemma logServerAddress_servers (sid : nat) (r : text_resolver) (w : world) :
  servers (snd (logServerAddress sid r w)) = servers w.
Proof.
  unfold logServerAddress. destruct (server_address sid w) as [a |]; [| reflexivity].
  destruct r; reflexivity.
Qed.

Lemma emit_single (sid : nat) (ev : string) (arg : value) (l : listener) (w : world) :
  listeners_for sid ev w = [l] ->
  emit sid ev arg w
  = run_handler (l_id l) (l_fn l) arg
      (if l_once l then removeListener sid ev (l_id l) w else w).
Proof. unfold emit. intros ->. reflexivity. Qed.

Lemma run_wrap_servers (id sid : nat) (LO : ListenOptions) (arg : value) (w : world) :
  servers (run_wrap id sid LO arg w) = servers (removeListener sid "error" id w).
Proof.
  unfold run_wrap. destruct (negb (truthy arg)).
  - pose proof (logServerAddress_servers sid (resolver_of LO)
                  (removeListener sid "error" id w)) as H.
    destruct (logServerAddress sid (resolver_of LO) (removeListener sid "error" id w))
      as [[a |] w']; cbn [snd] in H; rewrite ?call_servers; exact H.
  - rewrite call_servers. reflexivity.
Qed.

Lemma settle_invocations (p : nat) (st : pstate) (w : world) :
  invocations (settle p st w) = invocations w.
Proof.
  unfold settle. destruct (promises w !! p) as [[[| |] k] |]; try reflexivity.
  destruct k as [[lo r] |]; destruct st; try reflexivity.
  unfold multipleBindings. wcbn. unfold invocations. wcbn.
  rewrite omap_app. apply app_nil_r.
Qed.

Lemma settle_rejected_listening (p : nat) (e : value) (w : world) :
  listening (settle p (Rejected e) w) = listening w.
Proof.
  unfold settle. destruct (promises w !! p) as [[[| |] k] |]; try reflexivity.
  destruct k as [[lo r] |]; reflexivity.
Qed.

Lemma settle_rejected_trace (p : nat) (e : value) (w : world) :
  trace (settle p (Rejected e) w) = trace w.
Proof.
  unfold settle. destruct (promises w !! p) as [[[| |] k] |]; try reflexivity.
  destruct k as [[lo r] |]; reflexivity.
Qed.

Lemma settle_rejected_frame (p : nat) (e : value) (w : world) :
  closing (settle p (Rejected e) w) = closing w
  /\ mainServer (settle p (Rejected e) w) = mainServer w
  /\ readyQ (settle p (Rejected e) w) = readyQ w.
Proof.
  unfold settle. destruct (promises w !! p) as [[[| |] k] |]; try (repeat split; reflexivity).
  destruct k as [[lo r] |]; repeat split; reflexivity.
Qed.


Lemma lookup_drop_listener_address (m : gmap nat net_server) (i j : nat)
    (ev : string) (id : nat) :
  alter (drop_listener ev id) i m !! j ≫= address = m !! j ≫= address.
Proof.
  rewrite lookup_alter. case_decide; [subst j |]; [| reflexivity].
  destruct (m !! i); reflexivity.
Qed.

Lemma lookup_bind_address (m : gmap nat net_server) (i : nat) (a : bound_address) :
  is_Some (m !! i) -> alter (bind_address a) i m !! i ≫= address = Some a.
Proof. intros [s Hs]. rewrite lookup_alter_eq, Hs. reflexivity. Qed.

Lemma logServerAddress_bound (sid : nat) (r : text_resolver) (a : bound_address)
    (w : world) :
  server_address sid w = Some a ->
  exists text line,
    logServerAddress sid r w = (Some text, record line w)
    /\ ((exists t, line = LogInfo t) \/ (exists f t, line = LogInfoVia f t)).
Proof.
  intros Ha. unfold logServerAddress. rewrite Ha.
  destruct r; do 2 eexists; (split; [reflexivity |]); eauto.
Qed.

Section Lifecycle.

Variable N : string -> number.

Lemma listen_arguments_world (arguments : list value) (w : world) :
  (snd (listen_arguments N arguments w) = w
   \/ snd (listen_arguments N arguments w) = record (Warning "FSTDEP011") w)
  /\ (typeof (snd (fst (listen_arguments N arguments w))) = "function" ->
      get "cb" (fst (fst (listen_arguments N arguments w)))
      = snd (fst (listen_arguments N arguments w))).
Proof.
  unfold listen_arguments.
  destruct (length arguments =? 0)%nat eqn:Hlen.
  { simpl. split; [left; reflexivity |].
    destruct arguments; [simpl; discriminate | discriminate Hlen]. }
  destruct (negb (String.eqb (toStringTag (nth 0 arguments VUndefined)) "[object Object]")
            && negb (String.eqb (toStringTag (nth 0 arguments VUndefined)) "[object Function]")).
  { simpl. split; [right; reflexivity | reflexivity]. }
  destruct (1 <? length (tl arguments))%nat eqn:Hargs.
  2:{ simpl. split; [left; reflexivity |]. intros _. apply get_set_eq. }
  cbn [fst snd]. split; [right; reflexivity |].
  intros Hfn.
  set (hostPath := if truthy _ then _ else _).
  assert (Hne : tl arguments <> []).
  { destruct (tl arguments); [discriminate Hargs | discriminate]. }
  assert (Hlast : nth (length (hostPath ++ tl arguments) - 1) (hostPath ++ tl arguments) VUndefined
                  = nth (length (tl arguments) - 1) (tl arguments) VUndefined).
  { rewrite length_app.
    rewrite app_nth2 by (destruct (tl arguments); [congruence | simpl; lia]).
    f_equal. destruct (tl arguments); [congruence | simpl; lia]. }
  destruct (normalizeListenArgs_nonempty N (hostPath ++ tl arguments))
    as (cb & args' & Hcases & ->).
  { intros Happ. apply app_eq_nil in Happ as [_ Happ]. congruence. }
  rewrite Hlast in Hcases.
  destruct Hcases as [(_ & _ & Hno) | (_ & -> & _)]; [congruence |].
  cbv zeta. destruct (String.eqb _ "string" && _); unfold assign; simpl;
    repeat (rewrite get_set_ne by discriminate); apply get_set_eq.
Qed.

Lemma listen_options_cb (lo : obj) (cb0 : value) :
  (exists lo', cb (listen_options lo cb0) = LocalhostCb cb0 lo')
  \/ cb (listen_options lo cb0) = UserCb (get "cb" lo).
Proof.
  unfold listen_options.
  destruct (is_str (listen_host lo) "localhost"); simpl; [left; eauto | right].
  destruct (negb (hasOwnProperty "host" lo)); [| reflexivity].
  rewrite get_set_ne by discriminate. reflexivity.
Qed.

Lemma listen_while_listening (arguments : list value) (w : world) :
  listening w = true ->
  rejected_without_bind N arguments
    (VErr (if closing w then FST_ERR_REOPENED_CLOSE_SERVER
           else FST_ERR_REOPENED_SERVER)) w.
Proof.
  intros Hl. unfold rejected_without_bind, listen.
  pose proof (listen_arguments_world arguments w) as [Hw Hcb].
  destruct (listen_arguments N arguments w) as [[lo cb0] w1].
  cbn [fst snd] in Hw, Hcb.
  assert (Hframe : listening w1 = true /\ closing w1 = closing w
                   /\ binds w1 = binds w /\ invocations w1 = invocations w
                   /\ readyQ w1 = readyQ w /\ servers w1 = servers w).
  { destruct Hw as [-> | ->]; [tauto |].
    rewrite binds_record, invocations_record, !app_nil_r. tauto. }
  destruct Hframe as (Hl1 & Hc1 & Hb1 & Hi1 & Hq1 & Hs1).
  assert (Hpromise :
    match
      (let '(listening, w0) := listenPromise (mainServer w1) (listen_options lo cb0) w1 in
       if is_str (listen_host lo) "localhost"
       then let '(r, w2) := then_multipleBindings listening (props (listen_options lo cb0)) w0 in (Some r, w2)
       else (Some listening, w0))
    with
    | (Some p, w') =>
        promise_state p w' = Some (Rejected (VErr (if closing w then FST_ERR_REOPENED_CLOSE_SERVER
           else FST_ERR_REOPENED_SERVER)))
        /\ binds w' = binds w /\ readyQ w' = readyQ w /\ servers w' = servers w
    | (None, w') => False end).
  { unfold listenPromise. rewrite Hl1, Hc1. simpl.
    destruct (closing w); simpl;
    destruct (is_str (listen_host lo) "localhost"); simpl;
      unfold then_multipleBindings, new_promise, promise_state; simpl;
      rewrite ?lookup_insert_eq; simpl; rewrite ?lookup_insert_eq; simpl; auto. }
  assert (Hcallback : cb0 <> VUndefined ->
    forall err, nullish err = true ->
    let w' := set_readyQ (readyQ (snd (listenCallback (mainServer w1) (listen_options lo cb0) w1))
                ++ [fst (listenCallback (mainServer w1) (listen_options lo cb0) w1)])
                (snd (listenCallback (mainServer w1) (listen_options lo cb0) w1)) in
    (exists f, (typeof cb0 = "function" -> f = cb0)
       /\ invocations (step N (Ready (length (readyQ w)) err) w') =
          invocations w ++ [(f, [VErr (if closing w then FST_ERR_REOPENED_CLOSE_SERVER
                                      else FST_ERR_REOPENED_SERVER); VNull])])
    /\ binds (step N (Ready (length (readyQ w)) err) w') = binds w
    /\ servers (step N (Ready (length (readyQ w)) err) w') = servers w).
  { intros _ err Herr. unfold listenCallback, alloc. cbn [fst snd].
    unfold step. cbn [readyQ set_readyQ set_fresh].
    rewrite Hq1, list_lookup_middle by reflexivity.
    unfold run_ready_cont, run_listenCallbackFn.
    rewrite Herr. cbn [negb listening closing set_readyQ set_fresh].
    rewrite Hl1, Hc1.
    assert (Hcall : forall e, 
      let w2 := call (cb (listen_options lo cb0)) [VErr e; VNull]
                  (set_readyQ (readyQ w ++ [ListenCallbackFn (mainServer w1) (listen_options lo cb0) (fresh w1)])
                     (set_fresh (S (fresh w1)) w1)) in
      (exists f, (typeof cb0 = "function" -> f = cb0)
                 /\ invocations w2 = invocations w ++ [(f, [VErr e; VNull])])
      /\ binds w2 = binds w /\ servers w2 = servers w).
    { intros e.
      destruct (listen_options_cb lo cb0) as [[lo' ->] | ->]; cbn [call nth truthy];
        cbv zeta; rewrite invocations_record, binds_record, app_nil_r;
        (split; [eexists; split; [| unfold invocations; cbn [trace set_readyQ set_fresh]; fold (invocations w1); rewrite Hi1; reflexivity] |
          split; [unfold binds; cbn [trace set_readyQ set_fresh]; exact Hb1 | cbn [servers record set_trace set_readyQ set_fresh]; exact Hs1]]).
      - reflexivity.
      - intros Hf. apply Hcb, Hf. }
    destruct (closing w); cbn [andb]; apply Hcall. }
  destruct (is_undefined cb0) eqn:Hundef;
    [| exact (Hcallback ltac:(intros ->; discriminate Hundef))].
  revert Hpromise.
  match goal with |- (let (o, w') := ?X in _) -> _ => destruct X as [[p |] w'] end;
    [tauto | contradiction].
Qed.
Lemma listen_initiates_bind (arguments : list value) (w : world) :
  listening w = false ->
  exists k,
    readyQ (snd (listen N arguments w)) = readyQ w ++ [k]
    /\ forall err, nullish err = true ->
       let w2 := step N (Ready (length (readyQ w)) err) (snd (listen N arguments w)) in
       listening w2 = true /\ closing w2 = closing w
       /\ (exists lo, binds w2 = binds w ++ [(mainServer w, lo)])
       /\ server_address (mainServer w) w2 = server_address (mainServer w) w
       /\ invocations w2 = invocations w.
Proof.
  intros Hl. unfold listen.
  pose proof (listen_arguments_world arguments w) as [Hw _].
  destruct (listen_arguments N arguments w) as [[lo cb] w1].
  cbn [fst snd] in Hw.
  assert (Hframe : listening w1 = false /\ closing w1 = closing w
                   /\ binds w1 = binds w /\ invocations w1 = invocations w
                   /\ readyQ w1 = readyQ w /\ servers w1 = servers w
                   /\ mainServer w1 = mainServer w).
  { destruct Hw as [-> | ->]; [tauto |].
    rewrite binds_record, invocations_record, !app_nil_r. tauto. }
  destruct Hframe as (Hl1 & Hc1 & Hb1 & Hi1 & Hq1 & Hs1 & Hm1).
  set (LO := listen_options lo cb).
  assert (Hpromise : exists k,
    readyQ (snd (let '(listening, w0) := listenPromise (mainServer w1) LO w1 in
       if is_str (listen_host lo) "localhost"
       then let '(r, w2) := then_multipleBindings listening (props LO) w0 in (Some r, w2)
       else (Some listening, w0))) = readyQ w ++ [k]
    /\ forall err, nullish err = true ->
       let w2 := step N (Ready (length (readyQ w)) err) (snd (let '(listening, w0) := listenPromise (mainServer w1) LO w1 in
       if is_str (listen_host lo) "localhost"
       then let '(r, w2) := then_multipleBindings listening (props LO) w0 in (Some r, w2)
       else (Some listening, w0))) in
       listening w2 = true /\ closing w2 = closing w
       /\ (exists lo, binds w2 = binds w ++ [(mainServer w, lo)])
       /\ server_address (mainServer w) w2 = server_address (mainServer w) w
       /\ invocations w2 = invocations w).
  { unfold listenPromise. rewrite Hl1. cbn [andb].
    exists (ListenPromiseThen (mainServer w1) LO (fresh w1)).
    destruct (is_str (listen_host lo) "localhost").
    - unfold then_multipleBindings, new_promise, alloc. cbn.
      rewrite lookup_insert_eq. cbn. rewrite Hq1. split; [reflexivity |].
      intros err Herr. unfold step. cbn [readyQ]. 
      rewrite list_lookup_middle by reflexivity.
      unfold run_ready_cont. rewrite Herr. cbn [negb].
      unfold run_listenPromiseThen, alloc, server_listen, once. cbn.
      rewrite binds_trace_app, invocations_trace_app, Hb1, Hi1, Hm1, Hc1. cbn.
      rewrite app_nil_r.
      unfold server_address, with_server. cbn.
      rewrite !lookup_add_listener_address, Hs1. eauto 10.
    - unfold new_promise, alloc. cbn. rewrite Hq1. split; [reflexivity |].
      intros err Herr. unfold step. cbn [readyQ]. 
      rewrite list_lookup_middle by reflexivity.
      unfold run_ready_cont. rewrite Herr. cbn [negb].
      unfold run_listenPromiseThen, alloc, server_listen, once. cbn.
      rewrite binds_trace_app, invocations_trace_app, Hb1, Hi1, Hm1, Hc1. cbn.
      rewrite app_nil_r.
      unfold server_address, with_server. cbn.
      rewrite !lookup_add_listener_address, Hs1. eauto 10. }
  assert (Hcallback : exists k,
    readyQ (snd (let '(fn, w0) := listenCallback (mainServer w1) LO w1 in
                 (@None nat, set_readyQ (readyQ w0 ++ [fn]) w0))) = readyQ w ++ [k]
    /\ forall err, nullish err = true ->
       let w2 := step N (Ready (length (readyQ w)) err)
                   (snd (let '(fn, w0) := listenCallback (mainServer w1) LO w1 in
                         (@None nat, set_readyQ (readyQ w0 ++ [fn]) w0))) in
       listening w2 = true /\ closing w2 = closing w
       /\ (exists lo, binds w2 = binds w ++ [(mainServer w, lo)])
       /\ server_address (mainServer w) w2 = server_address (mainServer w) w
       /\ invocations w2 = invocations w).
  { unfold listenCallback, alloc. cbn. rewrite Hq1.
    eexists. split; [reflexivity |].
    intros err Herr. unfold step. cbn [readyQ set_readyQ].
    rewrite list_lookup_middle by reflexivity.
    unfold run_ready_cont, run_listenCallbackFn. rewrite Herr.
    cbn [negb listening closing set_readyQ set_fresh]. rewrite Hl1. cbn [andb].
    unfold server_listen, once. cbn.
    rewrite binds_trace_app, invocations_trace_app, Hb1, Hi1, Hm1, Hc1. cbn.
    rewrite app_nil_r.
    unfold server_address, with_server. cbn.
    rewrite !lookup_add_listener_address, Hs1. eauto 10. }
  destruct (is_undefined cb); [exact Hpromise | exact Hcallback].
Qed.

(** [listen], and [server.listen] throws once the instance is ready. *)
Lemma listen_bind_throws (arguments : list value) (w : world) (err thrown : value) :
  listening w = false -> nullish err = true ->
  let wt := step N (ReadyThrows (length (readyQ w)) err thrown)
              (snd (listen N arguments w)) in
  listening wt = false /\ closing wt = closing w /\ mainServer wt = mainServer w
  /\ (exists lo, binds wt = binds w ++ [(mainServer w, lo)])
  /\ server_address (mainServer w) wt = server_address (mainServer w) w
  /\ invocations wt = invocations w.
Proof.
  intros Hl Herr. cbv zeta. unfold listen.
  pose proof (listen_arguments_world arguments w) as [Hw _].
  destruct (listen_arguments N arguments w) as [[lo cb] w1].
  cbn [fst snd] in Hw.
  assert (Hframe : listening w1 = false /\ closing w1 = closing w
                   /\ binds w1 = binds w /\ invocations w1 = invocations w
                   /\ readyQ w1 = readyQ w /\ servers w1 = servers w
                   /\ mainServer w1 = mainServer w).
  { destruct Hw as [-> | ->]; [tauto |].
    rewrite binds_record, invocations_record, !app_nil_r. tauto. }
  destruct Hframe as (Hl1 & Hc1 & Hb1 & Hi1 & Hq1 & Hs1 & Hm1).
  set (LO := listen_options lo cb).
  unfold step.
  destruct (is_undefined cb).
  - unfold listenPromise. rewrite Hl1. cbn [andb].
    assert (Hgo : forall W p,
              listening W = false -> closing W = closing w -> mainServer W = mainServer w ->
              binds W = binds w -> invocations W = invocations w ->
              servers W = servers w ->
              let wt := run_ready_cont_throws (ListenPromiseThen (mainServer w1) LO p) err thrown W in
              listening wt = false /\ closing wt = closing w /\ mainServer wt = mainServer w
              /\ (exists lo, binds wt = binds w ++ [(mainServer w, lo)])
              /\ server_address (mainServer w) wt = server_address (mainServer w) w
              /\ invocations wt = invocations w).
    { intros W p HlW HcW HmW HbW HiW HsW. cbv zeta.
      unfold run_ready_cont_throws. rewrite Herr. cbn [negb].
      unfold run_listenPromiseThen_throws, server_listen_throws, once.
      cbn [alloc fst snd].
      match goal with |- context [settle p _ ?W0] => set (W' := W0) end.
      destruct (settle_rejected_frame p thrown W') as (-> & -> & _).
      rewrite settle_rejected_listening, settle_invocations.
      unfold binds, server_address. rewrite settle_rejected_trace, settle_servers.
      subst W'. wcbn. rewrite binds_trace_app, HbW, Hm1. cbn [omap list_omap].
      rewrite lookup_add_listener_address, HsW.
      unfold invocations. wcbn. rewrite invocations_trace_app. cbn [omap list_omap].
      rewrite app_nil_r, HiW. eauto 10. }
    destruct (is_str (listen_host lo) "localhost").
    + unfold then_multipleBindings, new_promise, alloc. cbn.
      rewrite lookup_insert_eq. cbn. rewrite Hq1.
      rewrite list_lookup_middle by reflexivity.
      apply Hgo; cbn; assumption.
    + unfold new_promise, alloc. cbn. rewrite Hq1.
      rewrite list_lookup_middle by reflexivity.
      apply Hgo; cbn; assumption.
  - unfold listenCallback, alloc. cbn. rewrite Hq1.
    rewrite list_lookup_middle by reflexivity.
    unfold run_ready_cont_throws, run_listenCallbackFn_throws. rewrite Herr.
    cbn [negb listening closing set_readyQ set_fresh]. rewrite Hl1. cbn [andb].
    unfold server_listen_throws, once.
    split; [exact Hl1 |]. split; [exact Hc1 |]. split; [exact Hm1 |].
    split; [exists LO; views; fold (binds w1); rewrite Hb1, Hm1; reflexivity |].
    split; [unfold server_address; wcbn; rewrite lookup_add_listener_address, Hs1;
            reflexivity |].
    views. fold (invocations w1). exact Hi1.
Qed.











(** C1, as amended: a call of [listen], of any shape, made while the state
    is Listening is rejected without a bind being attempted, with
    FST_ERR_REOPENED_CLOSE_SERVER when the state is also Closing and with
    FST_ERR_REOPENED_SERVER when it is not; in the callback form this is what
    the callback receives when the readiness gate reports no error of its
    own. *)
Theorem listen_guards (arguments : list value) (w : world) :
  listening w = true ->
  (closing w = true ->
   rejected_without_bind N arguments (VErr FST_ERR_REOPENED_CLOSE_SERVER) w)
  /\ (closing w = false ->
      rejected_without_bind N arguments (VErr FST_ERR_REOPENED_SERVER) w).
Proof.
  intros Hl. pose proof (listen_while_listening arguments w Hl) as H.
  split; intros Hc; rewrite Hc in H; exact H.
Qed.

(** C10, as amended: when the call of [server.listen] that initiates the
    bind returns, the listening flag is set in the same step, while the
    server has no bound address yet; and whatever the closing flag [c] is by
    then, a second call of [listen] attempts no bind and is rejected, with
    FST_ERR_REOPENED_SERVER when not closing and with
    FST_ERR_REOPENED_CLOSE_SERVER when closing.  When that call of
    [server.listen] throws, no bind is in flight and the flag is not set: a
    second call of [listen] is not rejected, and goes on to a bind of its
    own. *)
Theorem second_listen_while_binding (first second : list value) (w : world)
    (err : value) (c : bool) :
  listening w = false -> nullish err = true ->
  (let w2 := step N (Ready (length (readyQ w)) err) (snd (listen N first w)) in
   listening w2 = true
   /\ (exists lo, binds w2 = binds w ++ [(mainServer w, lo)])
   /\ server_address (mainServer w) w2 = server_address (mainServer w) w
   /\ rejected_without_bind N second
        (VErr (if c then FST_ERR_REOPENED_CLOSE_SERVER else FST_ERR_REOPENED_SERVER))
        (set_closing c w2))
  /\ (forall thrown,
        let wt := step N (ReadyThrows (length (readyQ w)) err thrown)
                    (snd (listen N first w)) in
        listening wt = false
        /\ (exists lo, binds wt = binds w ++ [(mainServer w, lo)])
        /\ server_address (mainServer w) wt = server_address (mainServer w) w
        /\ forall err', nullish err' = true ->
             let w4 := step N (Ready (length (readyQ wt)) err')
                         (snd (listen N second (set_closing c wt))) in
             listening w4 = true
             /\ invocations w4 = invocations w
             /\ exists lo', binds w4 = binds wt ++ [(mainServer w, lo')]).
Proof.
  intros Hl Herr. cbv zeta. split.
  - destruct (listen_initiates_bind first w Hl) as (k & Hq & H).
    destruct (H err Herr) as (H1 & _ & H3 & H4 & _).
    repeat split; try assumption.
    apply (listen_while_listening second (set_closing c _)). exact H1.
  - intros thrown.
    destruct (listen_bind_throws first w err thrown Hl Herr)
      as (T1 & T2 & T3 & T4 & T5 & T6).
    split; [exact T1 |]. split; [exact T4 |]. split; [exact T5 |].
    intros err' Herr'.
    set (wt := step N (ReadyThrows (length (readyQ w)) err thrown) (snd (listen N first w))) in *.
    destruct (listen_initiates_bind second (set_closing c wt) T1) as (k & _ & H).
    destruct (H err' Herr') as (H1 & _ & H3 & _ & H5).
    split; [exact H1 |]. split; [rewrite <- T6; exact H5 |].
    rewrite <- T3. exact H3.
Qed.

Lemma callback_bind_succeeds (m wrap : nat) (LO : ListenOptions) (f : value)
    (err : value) (addr : bound_address) (w : world) :
  listening w = false -> nullish err = true ->
  is_Some (servers w !! m) ->
  listeners_for m "listening" w = [] ->
  cb LO = UserCb f ->
  let w2 := run_listenCallbackFn m LO wrap err w in
  let w3 := emit m "listening" VUndefined (with_server m (bind_address addr) w2) in
  binds w2 = binds w ++ [(m, LO)]
  /\ exists text,
       invocations w3 = invocations w ++ [(f, [VNull; VStr text])]
       /\ lookups w3 = lookups w /\ dnsQ w3 = dnsQ w
       /\ binds w3 = binds w ++ [(m, LO)].
Proof.
  intros Hl Herr Hs Hnl Hcb. cbv zeta.
  unfold run_listenCallbackFn. rewrite Herr, Hl. cbn [negb andb].
  set (w2 := set_listening true _).
  assert (Hl2 : listeners_for m "listening" (with_server m (bind_address addr) w2)
                = [Listener "listening" true wrap (Wrap m LO)]).
  { subst w2. unfold server_listen, once, listeners_for in *. wcbn.
    rewrite listeners_in_bind, !listeners_in_add by exists_server.
    rewrite Hnl, Nat.eqb_refl. reflexivity. }
  assert (Hv2 : invocations w2 = invocations w /\ lookups w2 = lookups w
                /\ dnsQ w2 = dnsQ w /\ binds w2 = binds w ++ [(m, LO)]).
  { subst w2. unfold server_listen, once. views. auto. }
  assert (Hs2 : is_Some (servers w2 !! m)).
  { subst w2. unfold server_listen, once. wcbn. exists_server. }
  destruct Hv2 as (Hi2 & Hk2 & Hd2 & Hb2).
  clearbody w2. split; [exact Hb2 |].
  rewrite (emit_single _ _ _ _ _ Hl2). cbn [l_once l_id l_fn run_handler].
  unfold run_wrap. cbn [truthy negb].
  match goal with |- context [logServerAddress m ?r ?W] =>
    destruct (logServerAddress_bound m r addr W) as (text & line & -> & Hline) end.
  { unfold server_address, removeListener. wcbn.
    rewrite !lookup_drop_listener_address. apply lookup_bind_address, Hs2. }
  rewrite Hcb. cbn [call].
  exists text.
  destruct Hline as [[t ->] | [g [t ->]]]; unfold removeListener; views;
    fold (invocations w2) (lookups w2) (binds w2); rewrite Hi2, Hk2, Hd2, Hb2; auto.
Qed.

Lemma promise_bind_succeeds (m p : nat) (LO : ListenOptions)
    (err : value) (addr : bound_address) (w : world) :
  listening w = false -> nullish err = true ->
  is_Some (servers w !! m) ->
  listeners_for m "listening" w = [] ->
  promises w !! p = Some (Promise Pending None) ->
  let w2 := run_ready_cont (ListenPromiseThen m LO p) err w in
  let w3 := emit m "listening" VUndefined (with_server m (bind_address addr) w2) in
  binds w2 = binds w ++ [(m, LO)]
  /\ exists text,
       promise_state p w3 = Some (Fulfilled (VStr text))
       /\ invocations w3 = invocations w
       /\ lookups w3 = lookups w /\ dnsQ w3 = dnsQ w
       /\ binds w3 = binds w ++ [(m, LO)].
Proof.
  intros Hl Herr Hs Hnl Hp. cbv zeta.
  unfold run_ready_cont. rewrite Herr. cbn [negb].
  unfold run_listenPromiseThen. wcbn.
  set (w2 := set_listening true _).
  set (eh := fresh w) in *.
  assert (Hl2 : listeners_for m "listening" (with_server m (bind_address addr) w2)
                = [Listener "listening" true (S eh) (OnListening m LO eh p)]).
  { subst w2. unfold server_listen, once, listeners_for in *. wcbn.
    rewrite listeners_in_bind, !listeners_in_add by exists_server.
    rewrite Hnl, Nat.eqb_refl. reflexivity. }
  assert (Hv2 : invocations w2 = invocations w /\ lookups w2 = lookups w
                /\ dnsQ w2 = dnsQ w /\ binds w2 = binds w ++ [(m, LO)]).
  { subst w2. unfold server_listen, once. views. auto. }
  assert (Hs2 : is_Some (servers w2 !! m)).
  { subst w2. unfold server_listen, once. wcbn. exists_server. }
  assert (Hp2 : promises w2 = promises w) by reflexivity.
  destruct Hv2 as (Hi2 & Hk2 & Hd2 & Hb2).
  clearbody w2. split; [exact Hb2 |].
  rewrite (emit_single _ _ _ _ _ Hl2). cbn [l_once l_id l_fn run_handler].
  match goal with |- context [logServerAddress m ?r ?W] =>
    destruct (logServerAddress_bound m r addr W) as (text & line & -> & Hline) end.
  { unfold server_address, removeListener. wcbn.
    rewrite !lookup_drop_listener_address. apply lookup_bind_address, Hs2. }
  exists text. unfold settle, promise_state, removeListener. wcbn. rewrite Hp2, Hp.
  unfold set_pstate. wcbn. rewrite lookup_alter_eq, Hp2, Hp.
  destruct Hline as [[t ->] | [g [t ->]]]; views;
    fold (invocations w2) (lookups w2) (binds w2); rewrite Hi2, Hk2, Hd2, Hb2; auto.
Qed.


Lemma listen_options_path (lo : obj) (cb0 : value) :
  nullish (get "path" lo) = false -> get "host" lo = VUndefined ->
  is_str (listen_host lo) "localhost" = false
  /\ get "host" (props (listen_options lo cb0)) = VUndefined
  /\ cb (listen_options lo cb0) = UserCb (get "cb" lo).
Proof.
  intros Hpath Hhost.
  assert (Hh : listen_host lo = VUndefined).
  { unfold listen_host. rewrite Hpath. exact Hhost. }
  unfold listen_options. rewrite Hh. cbn [is_str].
  split; [reflexivity |].
  destruct (negb (hasOwnProperty "host" lo)); cbn [props cb].
  - rewrite get_set_eq, get_set_ne by discriminate. auto.
  - auto.
Qed.

(** C9: when the request that [listen] works on has a path and no host, the
    host stays [undefined] in the options given to [server.listen]; that
    bind is the only one attempted, no lookup is requested from the
    resolver, and the completion goes straight to the caller. *)
Theorem path_listen_skips_localhost (arguments : list value) (w : world)
    (err : value) (addr : bound_address) :
  let lo := fst (fst (listen_arguments N arguments w)) in
  let cb := snd (fst (listen_arguments N arguments w)) in
  let LO := listen_options lo cb in
  nullish (get "path" lo) = false ->
  get "host" lo = VUndefined ->
  listening w = false -> nullish err = true ->
  is_Some (servers w !! mainServer w) ->
  listeners_for (mainServer w) "listening" w = [] ->
  let w2 := step N (Ready (length (readyQ w)) err) (snd (listen N arguments w)) in
  let w3 := step N (ListeningEvent (mainServer w) addr) w2 in
  get "host" (props LO) = VUndefined
  /\ binds w3 = binds w ++ [(mainServer w, LO)]
  /\ lookups w3 = lookups w /\ dnsQ w3 = dnsQ w
  /\ exists text,
       match fst (listen N arguments w) with
       | None => exists f, (typeof cb = "function" -> f = cb)
                           /\ invocations w3 = invocations w ++ [(f, [VNull; VStr text])]
       | Some p => promise_state p w3 = Some (Fulfilled (VStr text))
                   /\ invocations w3 = invocations w
       end.
Proof.
  cbv zeta. intros Hpath Hhost Hl Herr Hs Hnl. unfold listen.
  pose proof (listen_arguments_world arguments w) as [Hw Hcb].
  destruct (listen_arguments N arguments w) as [[lo cb] w1].
  cbn [fst snd] in Hw, Hcb, Hpath, Hhost |- *.
  assert (Hframe : listening w1 = false /\ invocations w1 = invocations w
                   /\ readyQ w1 = readyQ w /\ servers w1 = servers w
                   /\ mainServer w1 = mainServer w /\ binds w1 = binds w
                   /\ lookups w1 = lookups w /\ dnsQ w1 = dnsQ w).
  { destruct Hw as [-> | ->]; [tauto |]. views. tauto. }
  destruct Hframe as (Hl1 & Hi1 & Hq1 & Hs1 & Hm1 & Hb1 & Hk1 & Hd1).
  clear Hw. unfold listeners_for in Hnl.
  rewrite <- Hs1 in Hs, Hnl. rewrite <- Hm1 in *. rewrite <- Hq1, <- Hi1, <- Hb1, <- Hk1, <- Hd1.
  clear Hl Hi1 Hq1 Hs1 Hm1 Hb1 Hk1 Hd1 w.
  destruct (listen_options_path lo cb Hpath Hhost) as (Hlocal & Hhost' & Hshape).
  split; [exact Hhost' |].
  set (LO := listen_options lo cb) in *.
  set (m := mainServer w1) in *.
  unfold step. rewrite Hlocal.
  destruct (is_undefined cb) eqn:Hundef.
  - unfold listenPromise. rewrite Hl1. cbn [andb].
    unfold new_promise. wcbn.
    rewrite list_lookup_middle by reflexivity.
    match goal with |- context [run_ready_cont _ err ?W] => set (W1 := W) end.
    destruct (promise_bind_succeeds m (fresh w1) LO err addr W1)
      as (_ & text & H1 & H2 & H3 & H4 & H5); try assumption; try reflexivity.
    { subst W1. wcbn. rewrite lookup_insert_eq. reflexivity. }
    repeat split; try assumption. exists text. split; assumption.
  - unfold listenCallback. wcbn.
    rewrite list_lookup_middle by reflexivity. cbn [run_ready_cont].
    match goal with |- context [run_listenCallbackFn _ _ _ err ?W] => set (W1 := W) end.
    destruct (callback_bind_succeeds m (fresh w1) LO (get "cb" lo) err addr W1)
      as (_ & text & H1 & H2 & H3 & H4); try assumption; try reflexivity.
    repeat split; try assumption. exists text, (get "cb" lo).
    split; [intros Hf; apply Hcb, Hf | exact H1].
Qed.


End Lifecycle.

(** * Dual-stack binding *)

Lemma listeners_in_insert (m : gmap nat net_server) (i j : nat) (s : net_server)
    (ev : string) :
  listeners_in (<[i := s]> m) j ev
  = if Nat.eqb i j
    then List.filter (fun l => String.eqb (l_event l) ev) (listeners s)
    else listeners_in m j ev.
Proof.
  unfold listeners_in. rewrite lookup_insert. case_decide as Hd.
  - subst j. rewrite Nat.eqb_refl. reflexivity.
  - apply Nat.eqb_neq in Hd. rewrite Hd. reflexivity.
Qed.

Lemma filter_session (ls : list listener) (ev : string) :
  Forall (fun l => l_event l = "session") ls -> ev <> "session" ->
  List.filter (fun l => String.eqb (l_event l) ev) ls = [].
Proof.
  intros Hall Hev. induction Hall as [| l ls Hl _ IH]; [reflexivity |].
  cbn. rewrite Hl. destruct (String.eqb "session" ev) eqn:He; [| exact IH].
  apply String.eqb_eq in He. congruence.
Qed.

Lemma lookup_insert_address (m : gmap nat net_server) (i j : nat) (s : net_server) :
  i <> j -> <[i := s]> m !! j ≫= address = m !! j ≫= address.
Proof. intros H. rewrite lookup_insert_ne by exact H. reflexivity. Qed.

Lemma listeners_in_unref (m : gmap nat net_server) (sid sid' : nat) (ev : string) :
  listeners_in (alter wrap_unref sid m) sid' ev = listeners_in m sid' ev.
Proof.
  unfold listeners_in. rewrite lookup_alter. case_decide as Hd; [subst sid' |]; [| reflexivity].
  destruct (m !! sid); reflexivity.
Qed.

Lemma lookup_unref_address (m : gmap nat net_server) (i j : nat) :
  alter wrap_unref i m !! j ≫= address = m !! j ≫= address.
Proof.
  rewrite lookup_alter. case_decide; [subst j |]; [| reflexivity].
  destruct (m !! i); reflexivity.
Qed.

Lemma inflight_unref wi join sec1 wrap1 LO1 w :
  inflight wi join sec1 wrap1 LO1 w ->
  inflight wi join sec1 wrap1 LO1 (with_server (mainServer wi) wrap_unref w).
Proof.
  intros [Hl Hc Hcl Hmain Hopt Hinv Hkb Hpr Hb He Hli Hsec Hms Haddr Hlt Hw1 Hw].
  constructor; wcbn; try assumption.
  - unfold listeners_for in *. wcbn. rewrite listeners_in_unref. exact He.
  - unfold listeners_for in *. wcbn. rewrite listeners_in_unref. exact Hli.
  - rewrite lookup_alter_is_Some. exact Hsec.
  - rewrite lookup_alter_is_Some. exact Hms.
  - unfold server_address in *. wcbn. rewrite lookup_unref_address. exact Haddr.
  - intros ev Hev. destruct (Hw1 ev Hev) as [id Hin].
    exists id. unfold listeners_for in *. wcbn. rewrite listeners_in_unref. exact Hin.
  - intros sec Hnone Hsome. rewrite lookup_alter_is_Some in Hsome.
    intros ev Hev. destruct (Hw sec Hnone Hsome ev Hev) as [id Hin].
    exists id. unfold listeners_for in *. wcbn. rewrite listeners_in_unref. exact Hin.
Qed.

Lemma inflight_rebase wi w0 join sec1 wrap1 LO1 w :
  closing wi = closing w0 -> mainServer wi = mainServer w0 ->
  kOptions wi = kOptions w0 -> invocations wi = invocations w0 ->
  kServerBindings wi = kServerBindings w0 -> promises wi = promises w0 ->
  binds wi = binds w0 -> servers wi = servers w0 ->
  inflight wi join sec1 wrap1 LO1 w -> inflight w0 join sec1 wrap1 LO1 w.
Proof.
  intros H1 H2 H3 H4 H5 H6 H7 H8
    [Hl Hc Hcl Hmain Hopt Hinv Hkb Hpr Hb He Hli Hsec Hms Haddr Hlt Hw1 Hw].
  unfold server_address in Haddr. rewrite H8 in Haddr.
  rewrite H2 in *. rewrite H8 in Hw.
  constructor; try congruence; assumption.
Qed.

Lemma run_onListen_completes (k : on_listen) (w0 w : world) :
  awaited k w0 -> promises w = promises w0 -> invocations w = invocations w0 ->
  completed k w0 (run_onListen k w) /\ listening (run_onListen k w) = true
  /\ kServerBindings (run_onListen k w) = kServerBindings w
  /\ binds (run_onListen k w) = binds w
  /\ servers (run_onListen k w) = servers w.
Proof.
  intros Ha Hp Hi. destruct k as [f address | p address]; cbn [run_onListen completed awaited] in *.
  - views. fold (invocations w). rewrite Hi. auto.
  - unfold settle, promise_state. wcbn. rewrite Hp, Ha. unfold set_pstate. wcbn.
    rewrite lookup_alter_eq, Hp, Ha. fold (invocations w). auto.
Qed.

(** ** The trace only grows *)

Lemma extends_refl (w : world) : extends w w.
Proof. exists []. symmetry. apply app_nil_r. Qed.

Lemma extends_trans (w1 w2 w3 : world) : extends w1 w2 -> extends w2 w3 -> extends w1 w3.
Proof. intros [t1 H1] [t2 H2]. exists (t1 ++ t2). rewrite H2, H1, app_assoc. reflexivity. Qed.

Lemma extends_record (e : effect) (w : world) : extends w (record e w).
Proof. exists [e]. reflexivity. Qed.

Lemma extends_In (e : effect) (w w' : world) :
  extends w w' -> In e (trace w) -> In e (trace w').
Proof. intros [t ->] H. apply in_or_app. left. exact H. Qed.

Lemma extends_same (w w' : world) : trace w' = trace w -> extends w w'.
Proof. intros H. exists []. rewrite H. symmetry. apply app_nil_r. Qed.

Lemma settle_extends (p : nat) (st : pstate) (w : world) : extends w (settle p st w).
Proof.
  unfold settle. destruct (promises w !! p) as [[[| |] k] |]; try apply extends_refl.
  destruct k as [[lo r] |]; destruct st; try (apply extends_same; reflexivity).
  unfold multipleBindings. eexists. wcbn. reflexivity.
Qed.

Lemma run_onListen_extends (k : on_listen) (w : world) : extends w (run_onListen k w).
Proof.
  destruct k; cbn [run_onListen].
  - eexists. wcbn. reflexivity.
  - eapply extends_trans; [| apply settle_extends]. apply extends_same. reflexivity.
Qed.

Lemma call_extends (f : callback) (args : list value) (w : world) :
  extends w (call f args w).
Proof.
  destruct f; cbn [call].
  - apply extends_record.
  - destruct (truthy (nth 0 args VUndefined)); [apply extends_record |].
    unfold multipleBindings. eexists. wcbn. reflexivity.
  - destruct (default (0, 0) (counters w !! join)) as [binding binded].
    destruct (negb (truthy (nth 0 args VUndefined)));
      destruct (Nat.eqb (S binded) binding);
      try (eapply extends_trans; [| apply run_onListen_extends]);
      apply extends_same; reflexivity.
Qed.

Lemma logServerAddress_extends (sid : nat) (r : text_resolver) (w : world) :
  extends w (snd (logServerAddress sid r w)).
Proof.
  unfold logServerAddress. destruct (server_address sid w); [| apply extends_record].
  destruct r; apply extends_record.
Qed.

Lemma run_handler_extends (id : nat) (h : handler) (arg : value) (w : world) :
  extends w (run_handler id h arg w).
Proof.
  destruct h; cbn [run_handler]; try apply extends_refl.
  - unfold run_wrap. destruct (negb (truthy arg)).
    + pose proof (logServerAddress_extends server (resolver_of listenOptions)
                    (removeListener server "error" id w)) as H.
      destruct (logServerAddress server (resolver_of listenOptions)
                  (removeListener server "error" id w)) as [[a |] w']; cbn [snd] in H.
      * eapply extends_trans; [exact H | apply call_extends].
      * exact H.
    + eapply extends_trans; [| apply call_extends]. apply extends_same. reflexivity.
  - eapply extends_trans; [| apply settle_extends]. apply extends_same. reflexivity.
  - pose proof (logServerAddress_extends server (resolver_of listenOptions)
                  (removeListener server "error" errEventHandler w)) as H.
    destruct (logServerAddress server (resolver_of listenOptions)
                (removeListener server "error" errEventHandler w)) as [[a |] w'];
      cbn [snd] in H.
    + eapply extends_trans; [exact H | apply settle_extends].
    + exact H.
  - apply extends_record.
Qed.

Lemma emit_fold_extends (sid : nat) (ev : string) (arg : value) (ls : list listener)
    (w : world) :
  extends w
    (fold_left
       (fun w l =>
          let w := if l_once l then removeListener sid ev (l_id l) w else w in
          run_handler (l_id l) (l_fn l) arg w) ls w).
Proof.
  revert w. induction ls as [| l ls IH]; intros w; [apply extends_refl |].
  cbn [fold_left]. eapply extends_trans; [| apply IH].
  eapply extends_trans; [| apply run_handler_extends].
  destruct (l_once l); apply extends_same; reflexivity.
Qed.

Lemma emit_extends (sid : nat) (ev : string) (arg : value) (w : world) :
  extends w (emit sid ev arg w).
Proof. apply emit_fold_extends. Qed.

Lemma emit_fold_adds_close (sid : nat) (ev : string) (arg : value) (sec id : nat)
    (once : bool) (ls : list listener) (w : world) :
  In (Listener ev once id (CloseSecondary sec)) ls ->
  exists t,
    trace (fold_left
       (fun w l =>
          let w := if l_once l then removeListener sid ev (l_id l) w else w in
          run_handler (l_id l) (l_fn l) arg w) ls w) = trace w ++ t
    /\ In (Close sec) t.
Proof.
  revert w. induction ls as [| l ls IH]; intros w; [intros [] |].
  intros [-> | Hin]; cbn [fold_left].
  - match goal with |- context [fold_left ?f ls ?W] =>
      destruct (emit_fold_extends sid ev arg ls W) as [t2 Ht2] end.
    exists (Close sec :: t2). split; [| left; reflexivity].
    cbv zeta in Ht2 |- *. rewrite Ht2. cbn [l_fn l_id l_once run_handler].
    destruct once; wcbn; rewrite <- app_assoc; reflexivity.
  - match goal with |- context [fold_left ?f ls ?W] =>
      destruct (IH W Hin) as (t' & Ht' & Hin');
      assert (Hext : extends w W) end.
    { eapply extends_trans; [| apply run_handler_extends].
      destruct (l_once l); apply extends_same; reflexivity. }
    destruct Hext as [t1 Ht1].
    exists (t1 ++ t'). split; [| apply in_or_app; right; exact Hin'].
    cbv zeta in Ht', Ht1 |- *. rewrite Ht', Ht1, app_assoc. reflexivity.
Qed.

Lemma iter_emit_extends (main : nat) (ev : string) (arg : value) (n : nat) (w : world) :
  extends w (Nat.iter n (emit main ev arg) w).
Proof.
  induction n as [| n IH]; [apply extends_refl |].
  cbn [Nat.iter nat_rect]. eapply extends_trans; [exact IH | apply emit_extends].
Qed.

Lemma wired_frame (main sec : nat) (w w' : world) :
  servers w' !! main = servers w !! main -> wired main sec w -> wired main sec w'.
Proof.
  intros Hs Hw ev Hev. destruct (Hw ev Hev) as [id Hin]. exists id.
  unfold listeners_for, listeners_in in *. rewrite Hs. exact Hin.
Qed.

Section DualStack.

Variable N : string -> number.

Lemma getServerInstance_fresh (options : obj) (w : world) :
  exists s,
    getServerInstance N options w
    = (fresh w, set_servers (<[fresh w := s]> (servers w)) (set_fresh (S (fresh w)) w))
    /\ address s = None /\ unref_emits s = 0%nat
    /\ Forall (fun l => l_event l = "session") (listeners s).
Proof.
  unfold getServerInstance. wcbn.
  destruct (truthy (get "serverFactory" options)); cbn [negb].
  - eexists. split; [reflexivity |]. cbn. auto.
  - destruct (truthy (get "http2" options)).
    + eexists. split; [reflexivity |]. cbn. auto.
    + eexists. split; [reflexivity |]. cbn. auto.
Qed.

Lemma bind_secondary_same lo join k primary adr w :
  differs primary adr = false -> bind_secondary N lo join k primary adr w = w.
Proof. unfold differs, bind_secondary. intros ->. reflexivity. Qed.

(** The first resolved address that differs from the primary's. *)
Lemma bind_secondary_first lo join k primary adr w :
  differs primary adr = true ->
  listening w = false -> counters w !! join = Some (0, 0)%nat ->
  is_Some (servers w !! mainServer w) -> (mainServer w < fresh w)%nat ->
  inflight w join (fresh w) (S (S (S (fresh w))))
    (ListenOpts (assign (assign [] lo)
                   [("host", VStr adr); ("port", port_field primary)])
       (SecondaryCb join (fresh w) k))
    (bind_secondary N lo join k primary adr w).
Proof.
  unfold differs. intros Hd Hl Hc Hm Hlt. unfold bind_secondary. rewrite Hd, Hc.
  cbn [default from_option id].
  match goal with |- context [getServerInstance N ?o ?W] =>
    destruct (getServerInstance_fresh o W) as (s & -> & Ha & Hu & Hls) end.
  unfold listenCallback, on. wcbn. cbn [run_ready_cont].
  unfold run_listenCallbackFn. cbn [nullish negb]. wcbn. rewrite Hl. cbn [andb].
  set (sec := fresh w) in *. set (main := mainServer w) in *.
  assert (Hne : main <> sec) by lia.
  unfold server_listen, once.
  constructor; wcbn; fold main.
  - reflexivity.
  - exists 0%nat. apply lookup_insert_eq.
  - reflexivity.
  - reflexivity.
  - reflexivity.
  - views. reflexivity.
  - reflexivity.
  - reflexivity.
  - views. reflexivity.
  - unfold listeners_for. wcbn.
    rewrite !listeners_in_add, listeners_in_insert by exists_server2.
    rewrite Nat.eqb_refl, (proj2 (Nat.eqb_neq main sec)) by exact Hne.
    rewrite (filter_session _ _ Hls) by discriminate. reflexivity.
  - unfold listeners_for. wcbn.
    rewrite !listeners_in_add, listeners_in_insert by exists_server2.
    rewrite Nat.eqb_refl, (proj2 (Nat.eqb_neq main sec)) by exact Hne.
    rewrite (filter_session _ _ Hls) by discriminate. reflexivity.
  - exists_server2.
  - exists_server2.
  - unfold server_address. wcbn.
    rewrite !lookup_add_listener_address, lookup_insert_address by lia. reflexivity.
  - lia.
  - intros ev Hev. exists (S sec). unfold listeners_for. wcbn.
    rewrite !listeners_in_add by exists_server2.
    rewrite Nat.eqb_refl, (proj2 (Nat.eqb_neq sec main)) by lia. cbn [andb].
    rewrite !in_app_iff.
    destruct Hev as [<- | [<- | [<- | []]]]; cbn; tauto.
  - intros sec' Hnone Hsome. revert Hsome. exists_server2.
    intros [<- | [_ Hsome]]; [| rewrite Hnone in Hsome; destruct Hsome; discriminate].
    intros ev Hev. exists (S sec). unfold listeners_for. wcbn.
    rewrite !listeners_in_add by exists_server2.
    rewrite Nat.eqb_refl, (proj2 (Nat.eqb_neq sec main)) by lia. cbn [andb].
    rewrite !in_app_iff.
    destruct Hev as [<- | [<- | [<- | []]]]; cbn; tauto.
Qed.


Lemma eqb_succ (d : nat) : Nat.eqb (S d) (S (S d)) = false.
Proof. apply Nat.eqb_neq. lia. Qed.

(** Every later resolved address. *)
Lemma bind_secondary_next lo join k primary adr wi sec1 wrap1 LO1 w :
  inflight wi join sec1 wrap1 LO1 w ->
  inflight wi join sec1 wrap1 LO1 (bind_secondary N lo join k primary adr w).
Proof.
  intros Hinf. destruct (differs primary adr) eqn:Hd;
    [| rewrite bind_secondary_same by exact Hd; exact Hinf].
  destruct Hinf as [Hl [d Hc] Hcl Hmain Hopt Hinv Hkb Hpr Hb He Hli Hsec Hms Haddr
                      (Hlt1 & Hlt2 & Hne) Hw1 Hw].
  unfold differs in Hd. unfold bind_secondary. rewrite Hd, Hc.
  cbn [default from_option id].
  match goal with |- context [getServerInstance N ?o ?W] =>
    destruct (getServerInstance_fresh o W) as (s & -> & Ha & Hu & Hls) end.
  unfold listenCallback, on. wcbn. cbn [run_ready_cont].
  unfold run_listenCallbackFn. cbn [nullish negb]. wcbn. rewrite Hl. cbn [andb].
  set (sec := fresh w) in *. rewrite Hmain in *. set (main := mainServer wi) in *.
  assert (Hcall : forall e W, counters W !! join = Some (S (S d), d) ->
            call (SecondaryCb join sec k) [VErr e; VNull] W
            = set_counters (<[join := (S (S d), S d)]> (counters W)) W).
  { intros e W HW. cbn [call]. rewrite HW. cbn [default from_option id nth truthy negb].
    rewrite eqb_succ. reflexivity. }
  match goal with |- context [call _ _ ?W] => set (W0 := W) end.
  assert (Hgoal : forall e,
    inflight wi join sec1 wrap1 LO1 (call (SecondaryCb join sec k) [VErr e; VNull] W0)).
  { intros e. subst W0. rewrite Hcall by (wcbn; apply lookup_insert_eq).
    constructor; wcbn; fold main.
    - exact Hl.
    - exists (S d). apply lookup_insert_eq.
    - exact Hcl.
    - exact Hmain.
    - exact Hopt.
    - views. exact Hinv.
    - exact Hkb.
    - exact Hpr.
    - views. exact Hb.
    - unfold listeners_for in *. wcbn.
      rewrite !listeners_in_add, listeners_in_insert by exists_server2.
      rewrite (proj2 (Nat.eqb_neq main sec1)), (proj2 (Nat.eqb_neq sec sec1)) by lia.
      cbn [andb]. rewrite !app_nil_r. exact He.
    - unfold listeners_for in *. wcbn.
      rewrite !listeners_in_add, listeners_in_insert by exists_server2.
      rewrite (proj2 (Nat.eqb_neq main sec1)), (proj2 (Nat.eqb_neq sec sec1)) by lia.
      cbn [andb]. rewrite !app_nil_r. exact Hli.
    - exists_server2.
    - exists_server2.
    - unfold server_address in *. wcbn.
      rewrite !lookup_add_listener_address, lookup_insert_address by lia. exact Haddr.
    - lia.
    - intros ev Hev. destruct (Hw1 ev Hev) as [id Hin].
      exists id. unfold listeners_for in *. wcbn.
      rewrite !listeners_in_add, listeners_in_insert by exists_server2.
      rewrite (proj2 (Nat.eqb_neq sec main)) by lia.
      rewrite !in_app_iff. tauto.
    - intros sec' Hnone Hsome. revert Hsome. exists_server2.
      intros Hsome ev Hev.
      destruct Hsome as [<- | [Hne' Hsome]].
      + exists (S sec). unfold listeners_for. wcbn.
        rewrite !listeners_in_add by exists_server2.
        rewrite Nat.eqb_refl, (proj2 (Nat.eqb_neq sec main)) by lia. cbn [andb].
        rewrite !in_app_iff.
        destruct Hev as [<- | [<- | [<- | []]]]; cbn; tauto.
      + destruct (Hw sec' Hnone Hsome ev Hev) as [id Hin].
        exists id. unfold listeners_for in *. wcbn.
        rewrite !listeners_in_add, listeners_in_insert by exists_server2.
        rewrite (proj2 (Nat.eqb_neq sec main)) by lia.
        rewrite !in_app_iff. tauto. }
  destruct (closing w); cbn [andb]; apply Hgoal.
Qed.


Lemma loop_inflight lo join k primary addresses wi sec1 wrap1 LO1 w :
  inflight wi join sec1 wrap1 LO1 w ->
  inflight wi join sec1 wrap1 LO1
    (fold_left (fun w adr => bind_secondary N lo join k primary adr w) addresses w).
Proof.
  revert w. induction addresses as [| adr addresses IH]; intros w Hinf; [exact Hinf |].
  cbn [fold_left]. apply IH, bind_secondary_next, Hinf.
Qed.

Lemma loop_none lo join k primary addresses w :
  Forall (fun adr => differs primary adr = false) addresses ->
  fold_left (fun w adr => bind_secondary N lo join k primary adr w) addresses w = w.
Proof.
  induction 1 as [| adr addresses Hd _ IH]; [reflexivity |].
  cbn [fold_left]. rewrite bind_secondary_same by exact Hd. exact IH.
Qed.

(** When some resolved address differs from the primary's, the loop binds
    one secondary server, to the first such address. *)
Lemma loop_some lo join k primary addresses w :
  Exists (fun adr => differs primary adr = true) addresses ->
  listening w = false -> counters w !! join = Some (0, 0)%nat ->
  is_Some (servers w !! mainServer w) -> (mainServer w < fresh w)%nat ->
  exists pre adr post,
    addresses = pre ++ adr :: post
    /\ Forall (fun adr => differs primary adr = false) pre
    /\ differs primary adr = true
    /\ inflight w join (fresh w) (S (S (S (fresh w))))
         (ListenOpts (assign (assign [] lo)
                        [("host", VStr adr); ("port", port_field primary)])
            (SecondaryCb join (fresh w) k))
         (fold_left (fun w adr => bind_secondary N lo join k primary adr w) addresses w).
Proof.
  intros Hex Hl Hc Hm Hlt.
  induction addresses as [| a addresses IH]; [inversion Hex |].
  destruct (differs primary a) eqn:Hd.
  - exists [], a, addresses. split; [reflexivity |]. split; [constructor |].
    split; [exact Hd |]. cbn [fold_left].
    apply loop_inflight, bind_secondary_first; assumption.
  - destruct IH as (pre & adr & post & -> & Hpre & Hadr & Hinf).
    { inversion Hex as [? ? H | ? ? H]; subst; [congruence | exact H]. }
    exists (a :: pre), adr, post. split; [reflexivity |].
    split; [constructor; assumption |]. split; [exact Hadr |].
    cbn [fold_left]. rewrite bind_secondary_same by exact Hd. exact Hinf.
Qed.


Lemma eqb_same (d : nat) : Nat.eqb (S d) (S d) = true.
Proof. apply Nat.eqb_refl. Qed.

(** The secondary bind in flight succeeds. *)
Lemma secondary_succeeds w0 join sec1 wrap1 pr k w addr :
  inflight w0 join sec1 wrap1 (ListenOpts pr (SecondaryCb join sec1 k)) w ->
  awaited k w0 ->
  let w2 := step N (ListeningEvent sec1 addr) w in
  completed k w0 w2 /\ listening w2 = true
  /\ kServerBindings w2 = kServerBindings w0 ++ [sec1]
  /\ binds w2 = binds w
  /\ listeners_for sec1 "error" w2 = [].
Proof.
  intros [Hl [d Hc] Hcl Hmain Hopt Hinv Hkb Hpr Hb He Hli Hsec Hms Haddr Hlt Hw1 Hw] Ha.
  cbv zeta. unfold step.
  set (LO1 := ListenOpts pr (SecondaryCb join sec1 k)) in *.
  assert (Hl2 : listeners_for sec1 "listening" (with_server sec1 (bind_address addr) w)
                = [Listener "listening" true wrap1 (Wrap sec1 LO1)]).
  { unfold listeners_for in *. wcbn. rewrite listeners_in_bind. exact Hli. }
  rewrite (emit_single _ _ _ _ _ Hl2). cbn [l_once l_id l_fn run_handler].
  unfold run_wrap. cbn [truthy negb].
  match goal with |- context [logServerAddress sec1 ?r ?W] =>
    destruct (logServerAddress_bound sec1 r addr W) as (text & line & -> & Hline) end.
  { unfold server_address, removeListener. wcbn.
    rewrite !lookup_drop_listener_address. apply lookup_bind_address, Hsec. }
  cbn [cb LO1 call nth truthy negb].
  match goal with |- context [counters ?W !! join] =>
    assert (HcW : counters W !! join = Some (S d, d))
      by (destruct Hline as [[t ->] | [g [t ->]]]; unfold removeListener; wcbn; exact Hc);
    rewrite HcW end.
  cbn [default from_option id]. rewrite eqb_same.
  match goal with |- context [run_onListen k ?W] =>
    destruct (run_onListen_completes k w0 W Ha) as (H1 & H2 & H3 & H4 & H5) end.
  { destruct Hline as [[t ->] | [g [t ->]]]; unfold removeListener; wcbn; exact Hpr. }
  { destruct Hline as [[t ->] | [g [t ->]]]; unfold removeListener; views; exact Hinv. }
  split; [exact H1 |]. split; [exact H2 |].
  split; [rewrite H3; destruct Hline as [[t ->] | [g [t ->]]]; unfold removeListener; wcbn;
          rewrite Hkb; reflexivity |].
  split; [rewrite H4; destruct Hline as [[t ->] | [g [t ->]]]; unfold removeListener; views;
          reflexivity |].
  unfold listeners_for in *. rewrite H5.
  destruct Hline as [[t ->] | [g [t ->]]]; unfold removeListener; wcbn;
    rewrite !listeners_in_drop, listeners_in_bind, He, Nat.eqb_refl; cbn;
    rewrite Nat.eqb_refl; reflexivity.
Qed.

(** The secondary bind in flight fails. *)
Lemma secondary_fails w0 join sec1 wrap1 pr k w e :
  inflight w0 join sec1 wrap1 (ListenOpts pr (SecondaryCb join sec1 k)) w ->
  awaited k w0 -> truthy e = true ->
  let w2 := step N (ErrorEvent sec1 e) w in
  completed k w0 w2 /\ listening w2 = true
  /\ kServerBindings w2 = kServerBindings w0
  /\ binds w2 = binds w
  /\ listeners_for sec1 "error" w2 = [].
Proof.
  intros [Hl [d Hc] Hcl Hmain Hopt Hinv Hkb Hpr Hb He Hli Hsec Hms Haddr Hlt Hw1 Hw] Ha Ht.
  cbv zeta. unfold step.
  set (LO1 := ListenOpts pr (SecondaryCb join sec1 k)) in *.
  rewrite (emit_single _ _ _ _ _ He). cbn [l_once l_id l_fn run_handler].
  unfold run_wrap. rewrite Ht. cbn [negb].
  cbn [cb LO1 call nth]. rewrite Ht. cbn [negb].
  unfold removeListener. wcbn. rewrite Hc.
  cbn [default from_option id]. rewrite eqb_same.
  match goal with |- context [run_onListen k ?W] =>
    destruct (run_onListen_completes k w0 W Ha) as (H1 & H2 & H3 & H4 & H5) end.
  { wcbn. exact Hpr. }
  { views. exact Hinv. }
  split; [exact H1 |]. split; [exact H2 |].
  split; [rewrite H3; wcbn; exact Hkb |].
  split; [rewrite H4; views; reflexivity |].
  unfold listeners_for in *. rewrite H5. wcbn.
  rewrite !listeners_in_drop, He, Nat.eqb_refl. cbn. rewrite Nat.eqb_refl. reflexivity.
Qed.


(** The resolver's answer to the lookup of [multipleBindings], when some
    resolved address differs from the primary's. *)
Lemma dns_answer_binds w0 lo k dnsErr addresses primary :
  truthy dnsErr = false ->
  server_address (mainServer w0) w0 = Some primary ->
  (mainServer w0 < fresh w0)%nat ->
  Exists (fun adr => differs primary adr = true) addresses ->
  let w1 := step N (DnsAnswer (length (dnsQ w0)) dnsErr addresses)
              (multipleBindings lo k w0) in
  exists pre adr post,
    addresses = pre ++ adr :: post
    /\ Forall (fun adr => differs primary adr = false) pre
    /\ differs primary adr = true
    /\ inflight w0 (fresh w0) (S (fresh w0)) (S (S (S (S (fresh w0)))))
         (ListenOpts (assign (assign [] lo)
                        [("host", VStr adr); ("port", port_field primary)])
            (SecondaryCb (fresh w0) (S (fresh w0)) k)) w1
    /\ (exists n, unref_emits <$> servers w1 !! mainServer w0 = Some (S n)).
Proof.
  intros Hd Hp Hlt Hex. cbv zeta.
  assert (Hm : is_Some (servers w0 !! mainServer w0)).
  { unfold server_address in Hp. destruct (servers w0 !! mainServer w0); [eauto | discriminate]. }
  unfold step, multipleBindings. wcbn.
  rewrite list_lookup_middle by reflexivity.
  unfold dns_callback. rewrite Hd. wcbn.
  match goal with |- context [server_address ?m ?W] =>
    change (server_address m W) with (server_address (mainServer w0) w0) end.
  rewrite Hp.
  match goal with |- context [fold_left _ addresses ?W] => set (wi := W) end.
  destruct (loop_some lo (fresh w0) k primary addresses wi Hex)
    as (pre & adr & post & Hadr & Hpre & Hdiff & Hinf);
    try (subst wi; wcbn; first [reflexivity | assumption | lia | apply lookup_insert_eq]).
  exists pre, adr, post. split; [exact Hadr |]. split; [exact Hpre |].
  split; [exact Hdiff |].
  set (w' := fold_left _ addresses wi) in *.
  destruct (if_counters _ _ _ _ _ _ Hinf) as [d Hc].
  rewrite Hc. cbn [default from_option id fst Nat.eqb].
  rewrite (if_main _ _ _ _ _ _ Hinf).
  change (mainServer wi) with (mainServer w0).
  split.
  - apply (inflight_rebase wi w0); try reflexivity.
    + subst wi. views. reflexivity.
    + subst wi. views. reflexivity.
    + apply (inflight_unref wi). exact Hinf.
  - destruct (if_main_server _ _ _ _ _ _ Hinf) as [s Hs].
    change (mainServer wi) with (mainServer w0) in Hs.
    exists (unref_emits s). wcbn. rewrite lookup_alter_eq, Hs. reflexivity.
Qed.

(** The resolver's answer when no resolved address differs from the
    primary's, or when the lookup failed: [onListen] runs at once. *)
Lemma dns_answer_completes w0 lo k dnsErr addresses :
  awaited k w0 ->
  (truthy dnsErr = true
   \/ exists primary, server_address (mainServer w0) w0 = Some primary
        /\ Forall (fun adr => differs primary adr = false) addresses) ->
  let w1 := step N (DnsAnswer (length (dnsQ w0)) dnsErr addresses)
              (multipleBindings lo k w0) in
  completed k w0 w1 /\ listening w1 = true
  /\ kServerBindings w1 = kServerBindings w0
  /\ binds w1 = binds w0 /\ servers w1 = servers w0.
Proof.
  intros Ha Hcase. cbv zeta.
  unfold step, multipleBindings. wcbn.
  rewrite list_lookup_middle by reflexivity.
  unfold dns_callback.
  destruct (truthy dnsErr) eqn:Hd.
  - match goal with |- context [run_onListen k ?W] =>
      destruct (run_onListen_completes k w0 W Ha) as (H1 & H2 & H3 & H4 & H5) end;
      [reflexivity | views; reflexivity |].
    rewrite H3, H4, H5. views. auto.
  - destruct Hcase as [Hcase | (primary & Hp & Hall)]; [discriminate Hcase |].
    wcbn.
    match goal with |- context [server_address ?m ?W] =>
      change (server_address m W) with (server_address (mainServer w0) w0) end.
    rewrite Hp, loop_none by exact Hall.
    wcbn. rewrite lookup_insert_eq. cbn [default from_option id fst Nat.eqb].
    match goal with |- context [run_onListen k ?W] =>
      destruct (run_onListen_completes k w0 W Ha) as (H1 & H2 & H3 & H4 & H5) end;
      [reflexivity | views; reflexivity |].
    rewrite H3, H4, H5. views. auto.
Qed.

Lemma inflight_not_completed w0 join sec1 wrap1 LO1 k w :
  inflight w0 join sec1 wrap1 LO1 w -> awaited k w0 -> not_completed k w0 w.
Proof.
  intros Hinf Ha. split; [apply (if_invocations _ _ _ _ _ _ Hinf) |].
  destruct k as [f a | p a]; [exact I |].
  unfold promise_state. rewrite (if_promises _ _ _ _ _ _ Hinf).
  cbn [awaited] in Ha. rewrite Ha. reflexivity.
Qed.

(** C3: for every list of resolved addresses, [onListen] runs exactly once.
    When no address differs from the primary's it runs at once and no bind
    is attempted.  Otherwise one secondary bind is attempted; [onListen] has
    not run while that bind is in flight, runs when it completes, be it by
    'listening' or by 'error', and does not run again on a later 'error'. *)
Theorem dual_stack_completes_once w0 lo k dnsErr addresses primary :
  truthy dnsErr = false ->
  server_address (mainServer w0) w0 = Some primary ->
  (mainServer w0 < fresh w0)%nat ->
  awaited k w0 ->
  let w1 := step N (DnsAnswer (length (dnsQ w0)) dnsErr addresses)
              (multipleBindings lo k w0) in
  (Forall (fun adr => differs primary adr = false) addresses ->
   completed k w0 w1 /\ binds w1 = binds w0)
  /\ (Exists (fun adr => differs primary adr = true) addresses ->
      not_completed k w0 w1
      /\ exists sec LO,
           binds w1 = binds w0 ++ [(sec, LO)]
           /\ (forall addr,
                 let w2 := step N (ListeningEvent sec addr) w1 in
                 completed k w0 w2 /\ binds w2 = binds w1
                 /\ forall e, step N (ErrorEvent sec e) w2 = w2)
           /\ (forall e, truthy e = true ->
                 let w2 := step N (ErrorEvent sec e) w1 in
                 completed k w0 w2 /\ binds w2 = binds w1
                 /\ forall e', step N (ErrorEvent sec e') w2 = w2)).
Proof.
  intros Hd Hp Hlt Ha. cbv zeta. split.
  - intros Hall.
    destruct (dns_answer_completes w0 lo k dnsErr addresses Ha) as (H1 & _ & _ & H4 & _);
      [right; eauto | auto].
  - intros Hex.
    destruct (dns_answer_binds w0 lo k dnsErr addresses primary Hd Hp Hlt Hex)
      as (pre & adr & post & _ & _ & _ & Hinf & _).
    split; [eapply inflight_not_completed; eauto |].
    do 2 eexists. split; [apply (if_binds _ _ _ _ _ _ Hinf) |]. split.
    + intros addr.
      destruct (secondary_succeeds _ _ _ _ _ _ _ addr Hinf Ha) as (H1 & _ & _ & H4 & H5).
      split; [exact H1 |]. split; [exact H4 |].
      intros e. apply emit_no_listener, H5.
    + intros e He.
      destruct (secondary_fails _ _ _ _ _ _ _ e Hinf Ha He) as (H1 & _ & _ & H4 & H5).
      split; [exact H1 |]. split; [exact H4 |].
      intros e'. apply emit_no_listener, H5.
Qed.

(** C4: a failed lookup lets [onListen] run at once, with the bindings and
    the servers as they were; a failed secondary bind lets [onListen] run as
    well and leaves the secondary server out of [kServerBindings], where a
    successful one is added.  [onListen] takes no error: the caller is told
    of a success. *)
Theorem dual_stack_failures_absorbed w0 lo k dnsErr addresses :
  awaited k w0 ->
  let w1 := step N (DnsAnswer (length (dnsQ w0)) dnsErr addresses)
              (multipleBindings lo k w0) in
  (truthy dnsErr = true ->
   completed k w0 w1 /\ listening w1 = true
   /\ kServerBindings w1 = kServerBindings w0
   /\ binds w1 = binds w0 /\ servers w1 = servers w0)
  /\ (forall primary,
        truthy dnsErr = false ->
        server_address (mainServer w0) w0 = Some primary ->
        (mainServer w0 < fresh w0)%nat ->
        Exists (fun adr => differs primary adr = true) addresses ->
        exists sec LO,
          binds w1 = binds w0 ++ [(sec, LO)]
          /\ (forall e, truthy e = true ->
                let w2 := step N (ErrorEvent sec e) w1 in
                completed k w0 w2 /\ listening w2 = true
                /\ kServerBindings w2 = kServerBindings w0)
          /\ (forall addr,
                let w2 := step N (ListeningEvent sec addr) w1 in
                completed k w0 w2 /\ listening w2 = true
                /\ kServerBindings w2 = kServerBindings w0 ++ [sec])).
Proof.
  intros Ha. cbv zeta. split.
  - intros Hd. apply dns_answer_completes; [exact Ha | left; exact Hd].
  - intros primary Hd Hp Hlt Hex.
    destruct (dns_answer_binds w0 lo k dnsErr addresses primary Hd Hp Hlt Hex)
      as (pre & adr & post & _ & _ & _ & Hinf & _).
    do 2 eexists. split; [apply (if_binds _ _ _ _ _ _ Hinf) |]. split.
    + intros e He.
      destruct (secondary_fails _ _ _ _ _ _ _ e Hinf Ha He) as (H1 & H2 & H3 & _).
      auto.
    + intros addr.
      destruct (secondary_succeeds _ _ _ _ _ _ _ addr Hinf Ha) as (H1 & H2 & H3 & _).
      auto.
Qed.


(** Each of the three ways the main server ends closes a secondary server
    that it is wired to. *)
Lemma wired_closed_with (main sec : nat) (n : nat) (w : world) :
  wired main sec w ->
  unref_emits <$> servers w !! main = Some (S n) ->
  closed_with N main sec w.
Proof.
  intros Hw Hu.
  assert (Hemit : forall ev arg, In ev ["unref"; "close"; "error"] ->
            exists t, trace (emit main ev arg w) = trace w ++ t /\ In (Close sec) t).
  { intros ev arg Hev. destruct (Hw ev Hev) as [id Hin].
    unfold emit. eapply emit_fold_adds_close, Hin. }
  unfold closed_with, closes, step. rewrite Hu. cbn [default from_option id].
  split; [apply Hemit; cbn; tauto |]. split; [intros e; apply Hemit; cbn; tauto |].
  rewrite Nat.iter_succ_r.
  destruct (Hemit "unref" VUndefined ltac:(cbn; tauto)) as (t & Ht & Hin).
  destruct (iter_emit_extends main "unref" VUndefined n (emit main "unref" VUndefined w))
    as [t2 Ht2].
  exists (t ++ t2). split; [| apply in_or_app; left; exact Hin].
  rewrite Ht2, Ht, app_assoc. reflexivity.
Qed.

(** The events of the secondary server whose bind is in flight leave the
    other servers as they are. *)
Lemma secondary_event_servers w0 join sec1 wrap1 LO1 w m :
  inflight w0 join sec1 wrap1 LO1 w -> m <> sec1 ->
  (forall addr, servers (step N (ListeningEvent sec1 addr) w) !! m = servers w !! m)
  /\ (forall e, servers (step N (ErrorEvent sec1 e) w) !! m = servers w !! m).
Proof.
  intros [Hl Hc Hcl Hmain Hopt Hinv Hkb Hpr Hb He Hli Hsec Hms Haddr Hlt Hw1 Hw] Hm.
  split.
  - intros addr. unfold step.
    assert (Hl2 : listeners_for sec1 "listening" (with_server sec1 (bind_address addr) w)
                  = [Listener "listening" true wrap1 (Wrap sec1 LO1)]).
    { unfold listeners_for in *. wcbn. rewrite listeners_in_bind. exact Hli. }
    rewrite (emit_single _ _ _ _ _ Hl2). cbn [l_once l_id l_fn run_handler].
    rewrite run_wrap_servers. unfold removeListener. wcbn.
    rewrite !lookup_alter_ne by congruence. reflexivity.
  - intros e. unfold step.
    rewrite (emit_single _ _ _ _ _ He). cbn [l_once l_id l_fn run_handler].
    rewrite run_wrap_servers. unfold removeListener. wcbn.
    rewrite !lookup_alter_ne by congruence. reflexivity.
Qed.

(** Once the secondary server has bound, [address()] answers. *)
Lemma secondary_bound_address w0 join sec1 wrap1 LO1 w addr :
  inflight w0 join sec1 wrap1 LO1 w ->
  server_address sec1 (step N (ListeningEvent sec1 addr) w) = Some addr.
Proof.
  intros [Hl Hc Hcl Hmain Hopt Hinv Hkb Hpr Hb He Hli Hsec Hms Haddr Hlt Hw1 Hw].
  unfold step.
  assert (Hl2 : listeners_for sec1 "listening" (with_server sec1 (bind_address addr) w)
                = [Listener "listening" true wrap1 (Wrap sec1 LO1)]).
  { unfold listeners_for in *. wcbn. rewrite listeners_in_bind. exact Hli. }
  rewrite (emit_single _ _ _ _ _ Hl2). cbn [l_once l_id l_fn run_handler].
  unfold server_address. rewrite run_wrap_servers. unfold removeListener. wcbn.
  rewrite !lookup_drop_listener_address. apply lookup_bind_address, Hsec.
Qed.

(** A server that the main server is wired to while the secondary bind is
    in flight is closed with the main server, then and once that bind has
    completed, be it by 'listening' or by 'error'. *)
Lemma secondary_closed_with w0 join sec1 wrap1 LO1 w sec (n : nat) :
  inflight w0 join sec1 wrap1 LO1 w ->
  wired (mainServer w0) sec w ->
  unref_emits <$> servers w !! mainServer w0 = Some (S n) ->
  closed_with N (mainServer w0) sec w
  /\ (forall addr,
        closed_with N (mainServer w0) sec (step N (ListeningEvent sec1 addr) w))
  /\ (forall e, closed_with N (mainServer w0) sec (step N (ErrorEvent sec1 e) w)).
Proof.
  intros Hinf Hw Hu.
  assert (Hne : mainServer w0 <> sec1).
  { destruct (if_fresh _ _ _ _ _ _ Hinf) as (_ & _ & H). congruence. }
  destruct (secondary_event_servers w0 join sec1 wrap1 LO1 w (mainServer w0) Hinf Hne)
    as [Hlis Herr].
  split; [apply (wired_closed_with _ _ n); assumption |].
  split.
  - intros addr. apply (wired_closed_with _ _ n).
    + apply (wired_frame _ _ w); [apply Hlis | exact Hw].
    + rewrite Hlis. exact Hu.
  - intros e. apply (wired_closed_with _ _ n).
    + apply (wired_frame _ _ w); [apply Herr | exact Hw].
    + rewrite Herr. exact Hu.
Qed.

Lemma differs_inet (p adr : string) (port : nat) :
  differs (Inet p port) adr = negb (String.eqb p adr).
Proof. reflexivity. Qed.

Lemma get_secondary_host (lo : obj) (adr : string) (port : value) :
  get "host" (assign (assign [] lo) [("host", VStr adr); ("port", port)]) = VStr adr
  /\ get "port" (assign (assign [] lo) [("host", VStr adr); ("port", port)]) = port.
Proof.
  unfold assign at 1 3. cbn [fold_left fst snd].
  rewrite get_set_ne, !get_set_eq by discriminate. auto.
Qed.

(** C6: when the resolver returns two distinct addresses, one of which is
    the primary's, one secondary bind is attempted, to the other address and
    the primary's port; the secondary server is closed with the main server
    while its bind is in flight, and once it has bound it is tracked, its
    [address()] answers, and it is closed with the main server still.
    Whatever the resolver returns, every server created by
    [multipleBindings] is closed with the main server, while the secondary
    bind is in flight and once that bind has completed, by 'listening' or by
    'error'.  Closed with the main server: [close()] is called on it in the
    step in which the main server emits 'close', emits 'error', or has
    [unref()] called. *)
Theorem secondaries_follow_primary w0 lo k dnsErr :
  truthy dnsErr = false ->
  (mainServer w0 < fresh w0)%nat ->
  awaited k w0 ->
  (forall a b p other port,
     a <> b -> (p = a /\ other = b) \/ (p = b /\ other = a) ->
     server_address (mainServer w0) w0 = Some (Inet p port) ->
     let w1 := step N (DnsAnswer (length (dnsQ w0)) dnsErr [a; b])
                 (multipleBindings lo k w0) in
     exists sec LO,
       binds w1 = binds w0 ++ [(sec, LO)]
       /\ get "host" (props LO) = VStr other
       /\ get "port" (props LO) = int (Z.of_nat port)
       /\ closed_with N (mainServer w0) sec w1
       /\ (forall addr,
             let w2 := step N (ListeningEvent sec addr) w1 in
             kServerBindings w2 = kServerBindings w0 ++ [sec]
             /\ server_address sec w2 = Some addr
             /\ closed_with N (mainServer w0) sec w2))
  /\ (forall addresses primary sec,
        server_address (mainServer w0) w0 = Some primary ->
        let w1 := step N (DnsAnswer (length (dnsQ w0)) dnsErr addresses)
                    (multipleBindings lo k w0) in
        servers w0 !! sec = None -> is_Some (servers w1 !! sec) ->
        closed_with N (mainServer w0) sec w1
        /\ (forall sec1 LO1, binds w1 = binds w0 ++ [(sec1, LO1)] ->
              (forall addr,
                 closed_with N (mainServer w0) sec (step N (ListeningEvent sec1 addr) w1))
              /\ (forall e,
                    closed_with N (mainServer w0) sec (step N (ErrorEvent sec1 e) w1)))).
Proof.
  intros Hd Hlt Ha. split.
  - intros a b p other port Hab Hcase Hp. cbv zeta.
    assert (Hex : Exists (fun adr => differs (Inet p port) adr = true) [a; b]).
    { destruct Hcase as [[-> ->] | [-> ->]].
      - apply Exists_cons_tl, Exists_cons_hd. rewrite differs_inet.
        apply negb_true_iff, String.eqb_neq. exact Hab.
      - apply Exists_cons_hd. rewrite differs_inet.
        apply negb_true_iff, String.eqb_neq. congruence. }
    destruct (dns_answer_binds w0 lo k dnsErr [a; b] (Inet p port) Hd Hp Hlt Hex)
      as (pre & adr & post & Hsplit & Hpre & Hadr & Hinf & [n Hu]).
    assert (Hother : adr = other).
    { rewrite differs_inet in Hadr. apply negb_true_iff, String.eqb_neq in Hadr.
      assert (Hpre' : forall x, In x pre -> x = p).
      { intros x Hx. rewrite List.Forall_forall in Hpre. specialize (Hpre x Hx).
        rewrite differs_inet in Hpre. apply negb_false_iff, String.eqb_eq in Hpre.
        congruence. }
      destruct pre as [| x1 [| x2 pre]]; cbn in Hsplit.
      - injection Hsplit as <- _. destruct Hcase as [[-> ->] | [-> ->]]; congruence.
      - injection Hsplit as <- <- _.
        specialize (Hpre' a (or_introl eq_refl)).
        destruct Hcase as [[-> ->] | [-> ->]]; congruence.
      - injection Hsplit as <- <- Hnil. destruct pre; discriminate Hnil. }
    subst adr.
    destruct (secondary_closed_with _ _ _ _ _ _ _ n Hinf (if_wired1 _ _ _ _ _ _ Hinf) Hu)
      as (C1 & C2 & _).
    do 2 eexists. split; [apply (if_binds _ _ _ _ _ _ Hinf) |].
    cbn [props]. destruct (get_secondary_host lo other (port_field (Inet p port))) as [Hh Hpt].
    split; [exact Hh |]. split; [exact Hpt |].
    split; [exact C1 |].
    intros addr.
    destruct (secondary_succeeds _ _ _ _ _ _ _ addr Hinf Ha) as (_ & _ & H3 & _).
    split; [exact H3 |]. split; [| apply C2].
    apply (secondary_bound_address _ _ _ _ _ _ _ Hinf).
  - intros addresses primary sec Hp. cbv zeta. intros Hnone Hsome.
    assert (Hdec : forall adr, {differs primary adr = true} + {differs primary adr <> true}).
    { intros adr. destruct (differs primary adr); [left; reflexivity | right; discriminate]. }
    destruct (List.Exists_dec (fun adr => differs primary adr = true) addresses Hdec)
      as [Hex | Hnex].
    + destruct (dns_answer_binds w0 lo k dnsErr addresses primary Hd Hp Hlt Hex)
        as (pre & adr & post & _ & _ & _ & Hinf & [n Hu]).
      destruct (secondary_closed_with _ _ _ _ _ _ sec n Hinf) as (C1 & C2 & C3);
        [apply (if_wired _ _ _ _ _ _ Hinf); assumption | exact Hu |].
      split; [exact C1 |].
      intros sec1 LO1 Hb. rewrite (if_binds _ _ _ _ _ _ Hinf) in Hb.
      apply app_inj_tail in Hb as [_ Hb]. injection Hb as <- _.
      split; assumption.
    + exfalso.
      assert (Hall : Forall (fun adr => differs primary adr = false) addresses).
      { rewrite List.Forall_forall. intros adr Hin.
        destruct (differs primary adr) eqn:Hdf; [| reflexivity].
        exfalso. apply Hnex. rewrite List.Exists_exists. eauto. }
      destruct (dns_answer_completes w0 lo k dnsErr addresses Ha) as (_ & _ & _ & _ & H5);
        [right; eauto |].
      rewrite H5, Hnone in Hsome. destruct Hsome as [? Hsome]. discriminate Hsome.
Qed.

End DualStack.


(** ** Examples *)

Lemma listen_guards_witness :
  rejected_without_bind decimalStringToNumber
    [VObj [("port", int 3000)]; VFun 1] (VErr FST_ERR_REOPENED_CLOSE_SERVER)
    (set_closing true listening_instance)
  /\ rejected_without_bind decimalStringToNumber
    [VObj [("port", int 3000)]] (VErr FST_ERR_REOPENED_SERVER)
    listening_instance.
Proof.
  split.
  - apply (proj1 (listen_guards decimalStringToNumber _
                    (set_closing true listening_instance) ltac:(vm_compute; reflexivity)));
      vm_compute; reflexivity.
  - apply (proj2 (listen_guards decimalStringToNumber _
                    listening_instance ltac:(vm_compute; reflexivity)));
      vm_compute; reflexivity.
Defined.

(** C1, as stated, fails in the callback form when the readiness gate
    reports an error: on an instance that is Listening and Closing, the
    callback receives that error, not FST_ERR_REOPENED_CLOSE_SERVER. *)
Lemma listen_callback_readiness_error :
  let w := set_closing true listening_instance in
  let w' := run decimalStringToNumber
              [ListenCall [VObj [("port", int 3000); ("host", VStr "127.0.0.1")]; VFun 1];
               Ready 1 (VErr (ExternalError "AVV_ERR_READY_TIMEOUT"))] w in
  listening w = true /\ closing w = true
  /\ invocations w = [(VFun 0, [VNull; VStr "http://127.0.0.1:3000"])]
  /\ invocations w'
     = [(VFun 0, [VNull; VStr "http://127.0.0.1:3000"]);
        (VFun 1, [VErr (ExternalError "AVV_ERR_READY_TIMEOUT")])]
  /\ binds w' = binds w.
Proof. vm_compute. repeat split; reflexivity. Qed.

Lemma second_listen_while_binding_witness :
  let w := createServer decimalStringToNumber [] in
  let w2 := step decimalStringToNumber (Ready 0 VUndefined)
              (snd (listen decimalStringToNumber [VObj [("port", int 3000)]; VFun 0] w)) in
  let wt := step decimalStringToNumber
              (ReadyThrows 0 VUndefined (VErr (ExternalError "ERR_SOCKET_BAD_PORT")))
              (snd (listen decimalStringToNumber [VObj [("port", int 70000)]; VFun 0] w)) in
  (listening w2 = true
   /\ rejected_without_bind decimalStringToNumber [VObj [("port", int 3000)]]
        (VErr FST_ERR_REOPENED_SERVER) (set_closing false w2))
  /\ listening wt = false.
Proof.
  pose proof (second_listen_while_binding decimalStringToNumber
                [VObj [("port", int 3000)]; VFun 0] [VObj [("port", int 3000)]]
                (createServer decimalStringToNumber []) VUndefined false
                ltac:(vm_compute; reflexivity) ltac:(vm_compute; reflexivity)) as H.
  pose proof (second_listen_while_binding decimalStringToNumber
                [VObj [("port", int 70000)]; VFun 0] [VObj [("port", int 3000)]]
                (createServer decimalStringToNumber []) VUndefined false
                ltac:(vm_compute; reflexivity) ltac:(vm_compute; reflexivity)) as H'.
  cbv zeta in H, H'. destruct H as ((H1 & _ & _ & H4) & _).
  destruct H' as (_ & H').
  destruct (H' (VErr (ExternalError "ERR_SOCKET_BAD_PORT"))) as (T1 & _).
  split; [split; [exact H1 | exact H4] | exact T1].
Defined.

(** C10, as stated, fails when the instance is closed while the first bind
    is in flight: the second call is rejected with
    FST_ERR_REOPENED_CLOSE_SERVER, not with FST_ERR_REOPENED_SERVER. *)
Lemma second_listen_while_closing :
  let w2 := set_closing true
              (run decimalStringToNumber [ListenCall []; Ready 0 VUndefined]
                 (createServer decimalStringToNumber [])) in
  listening w2 = true /\ length (binds w2) = 1%nat /\ server_address 0 w2 = None
  /\ match listen decimalStringToNumber [] w2 with
     | (Some p, w3) =>
         promise_state p w3 = Some (Rejected (VErr FST_ERR_REOPENED_CLOSE_SERVER))
         /\ promise_state p w3 <> Some (Rejected (VErr FST_ERR_REOPENED_SERVER))
         /\ binds w3 = binds w2
     | (None, _) => False
     end.
Proof. vm_compute. repeat split; try reflexivity. discriminate. Qed.



Lemma path_listen_skips_localhost_witness :
  let w := createServer decimalStringToNumber [] in
  let w3 := run decimalStringToNumber
              [ListenCall [VStr "/tmp/x.sock"; VFun 0];
               Ready 0 VUndefined;
               ListeningEvent 0 (Path "/tmp/x.sock")] w in
  lookups w3 = [] /\ dnsQ w3 = [].
Proof.
  pose proof (path_listen_skips_localhost decimalStringToNumber
                [VStr "/tmp/x.sock"; VFun 0]
                (createServer decimalStringToNumber []) VUndefined (Path "/tmp/x.sock")
                ltac:(vm_compute; reflexivity) ltac:(vm_compute; reflexivity)
                ltac:(vm_compute; reflexivity) ltac:(vm_compute; reflexivity)
                ltac:(vm_compute; eauto) ltac:(vm_compute; reflexivity)) as H.
  cbv zeta in H. destruct H as (_ & _ & H3 & H4 & _).
  split; [exact H3 | exact H4].
Defined.

Lemma dual_stack_completes_once_witness :
  let w1 := step decimalStringToNumber (DnsAnswer 0 VNull ["127.0.0.1"; "::1"])
              (multipleBindings localhost_options tell_caller bound_instance) in
  not_completed tell_caller bound_instance w1
  /\ exists sec LO,
       binds w1 = binds bound_instance ++ [(sec, LO)]
       /\ (forall addr,
             let w2 := step decimalStringToNumber (ListeningEvent sec addr) w1 in
             completed tell_caller bound_instance w2 /\ binds w2 = binds w1
             /\ forall e, step decimalStringToNumber (ErrorEvent sec e) w2 = w2)
       /\ (forall e, truthy e = true ->
             let w2 := step decimalStringToNumber (ErrorEvent sec e) w1 in
             completed tell_caller bound_instance w2 /\ binds w2 = binds w1
             /\ forall e', step decimalStringToNumber (ErrorEvent sec e') w2 = w2).
Proof.
  apply (proj2 (dual_stack_completes_once decimalStringToNumber bound_instance
                  localhost_options tell_caller VNull ["127.0.0.1"; "::1"]
                  (Inet "127.0.0.1" 3000)
                  ltac:(reflexivity) ltac:(vm_compute; reflexivity)
                  ltac:(vm_compute; lia) ltac:(exact I))).
  apply Exists_cons_tl, Exists_cons_hd. vm_compute. reflexivity.
Defined.

Lemma dual_stack_failures_absorbed_witness :
  let w1 := step decimalStringToNumber
              (DnsAnswer 0 (VErr (ExternalError "ENOTFOUND")) [])
              (multipleBindings localhost_options tell_caller bound_instance) in
  completed tell_caller bound_instance w1 /\ listening w1 = true
  /\ kServerBindings w1 = kServerBindings bound_instance
  /\ binds w1 = binds bound_instance /\ servers w1 = servers bound_instance.
Proof.
  apply (proj1 (dual_stack_failures_absorbed decimalStringToNumber bound_instance
                  localhost_options tell_caller (VErr (ExternalError "ENOTFOUND")) []
                  ltac:(exact I))).
  reflexivity.
Defined.

Lemma secondaries_follow_primary_witness :
  let w1 := step decimalStringToNumber (DnsAnswer 0 VNull ["127.0.0.1"; "::1"])
              (multipleBindings localhost_options tell_caller bound_instance) in
  exists sec LO,
    binds w1 = binds bound_instance ++ [(sec, LO)]
    /\ get "host" (props LO) = VStr "::1"
    /\ get "port" (props LO) = int 3000
    /\ closed_with decimalStringToNumber 0 sec w1
    /\ (forall addr,
          let w2 := step decimalStringToNumber (ListeningEvent sec addr) w1 in
          kServerBindings w2 = kServerBindings bound_instance ++ [sec]
          /\ server_address sec w2 = Some addr
          /\ closed_with decimalStringToNumber 0 sec w2).
Proof.
  apply (proj1 (secondaries_follow_primary decimalStringToNumber bound_instance
                  localhost_options tell_caller VNull
                  ltac:(reflexivity) ltac:(vm_compute; lia) ltac:(exact I))
           "127.0.0.1" "::1" "127.0.0.1" "::1" 3000%nat).
  - discriminate.
  - left. split; reflexivity.
  - vm_compute. reflexivity.
Defined.

(** * Further properties *)

(** ** Normalizing the arguments *)

Lemma nth_last {A} (l : list A) (d : A) : nth (length l - 1) l d = List.last l d.
Proof.
  induction l as [| a l IH]; [reflexivity |].
  destruct l as [| b l]; [reflexivity |].
  change (List.last (a :: b :: l) d) with (List.last (b :: l) d).
  rewrite <- IH. simpl. rewrite Nat.sub_0_r. reflexivity.
Qed.

Lemma nonneg_integer_passes (q : Q) :
  nonneg_integer (VNum (Fin q)) ->
  ge0 (Fin q) = true /\ Number_isInteger (VNum (Fin q)) = true.
Proof.
  intros (q' & z & Hq & Hz & Heq). injection Hq as <-.
  split.
  - unfold ge0. apply Z.leb_le. unfold Qeq in Heq. simpl in Heq.
    assert (0 < Z.pos (Qden q))%Z by lia. nia.
  - unfold Number_isInteger. apply Pos.eqb_eq.
    rewrite (Qred_complete _ _ Heq).
    pose proof (gcd_Qred (inject_Z z)) as Hg.
    pose proof (Qred_correct (inject_Z z)) as Hc.
    destruct (Qred (inject_Z z)) as [n d].
    unfold Qeq in Hc. simpl in Hc, Hg |- *. rewrite Z.mul_1_r in Hc. subst n.
    rewrite Z.mul_comm, Z.gcd_comm, Z.gcd_mul_diag_l in Hg by lia. lia.
Qed.

Section Normalisation.

Variable N : string -> number.

(** X1: the values that [normalizePort] leaves as they are are exactly the
    numbers that are non-negative integers, and [normalizePort] is
    idempotent. *)
Theorem normalizePort_fixed_points (v : value) :
  (normalizePort N v = v <-> nonneg_integer v)
  /\ normalizePort N (normalizePort N v) = normalizePort N v.
Proof.
  assert (Hfix : forall u, nonneg_integer u -> normalizePort N u = u).
  { intros u Hu. pose proof Hu as (q & z & -> & _).
    destruct (nonneg_integer_passes q Hu) as [Hge Hint].
    unfold normalizePort. cbn [toNumber]. rewrite Hge, Hint. reflexivity. }
  split.
  - split; [| apply Hfix].
    intros H. rewrite <- H. apply normalizePort_nonneg.
  - apply Hfix, normalizePort_nonneg.
Qed.

Lemma last_cons_ne {A} (a : A) (l : list A) (d : A) :
  l <> [] -> List.last (a :: l) d = List.last l d.
Proof. destruct l; [congruence | reflexivity]. Qed.

(** X2: a trailing function is taken off as the callback, and the request is
    otherwise the one the remaining arguments give. *)
Theorem normalizeListenArgs_trailing_callback (args : list value) (f : nat) :
  typeof (List.last args VUndefined) <> "function" ->
  let o := normalizeListenArgs N (args ++ [VFun f]) in
  get "cb" o = VFun f
  /\ get "cb" (normalizeListenArgs N args) = VUndefined
  /\ forall k, k <> "cb" -> get k o = get k (normalizeListenArgs N args).
Proof.
  intros Hlast. cbv zeta.
  destruct args as [| a args].
  { split; [reflexivity |]. split; [reflexivity |].
    intros k Hk. apply String.eqb_neq in Hk.
    unfold get. simpl. rewrite Hk.
    destruct (String.eqb k "port"); [reflexivity |].
    destruct (String.eqb k "host"); [reflexivity |].
    destruct (String.eqb k "backlog"); reflexivity. }
  destruct (normalizeListenArgs_nonempty N ((a :: args) ++ [VFun f]))
    as (cb1 & args1 & H1 & ->); [destruct args; discriminate |].
  destruct (normalizeListenArgs_nonempty N (a :: args))
    as (cb2 & args2 & H2 & ->); [discriminate |].
  rewrite !nth_last in H1, H2. rewrite last_last in H1.
  destruct H1 as [(_ & _ & H1) | (-> & -> & _)]; [exfalso; apply H1; reflexivity |].
  destruct H2 as [(-> & -> & _) | (_ & _ & H2)]; [| contradiction].
  rewrite removelast_last. cbv zeta.
  destruct (String.eqb (typeof (nth 0 (a :: args) VUndefined)) "string"
            && Number_isNaN (toNumber N (nth 0 (a :: args) VUndefined)));
    (split; [reflexivity |]; split; [reflexivity |];
     intros k Hk; apply String.eqb_neq in Hk;
     unfold get; cbn [lookup_prop]; rewrite Hk; reflexivity).
Qed.

(** X3: when the first argument is a string that does not read as a number,
    it is the path, as it is; no port and no host are set, and the backlog is
    the last of the positional arguments after it, if there is one. *)
Theorem normalizeListenArgs_path (s : string) (rest : list value) :
  N s = NaN ->
  let o := normalizeListenArgs N (VStr s :: rest) in
  get "path" o = VStr s /\ get "port" o = VUndefined /\ get "host" o = VUndefined
  /\ get "backlog" o = List.last (positional rest) VUndefined.
Proof.
  intros Hs. cbv zeta.
  destruct (normalizeListenArgs_nonempty N (VStr s :: rest))
    as (cb1 & args1 & H1 & ->); [discriminate |].
  rewrite !nth_last in H1. cbv zeta.
  assert (Hargs : exists rest', args1 = VStr s :: rest' /\ rest' = positional rest).
  { unfold positional. destruct rest as [| b rest].
    - simpl in *. destruct H1 as [(-> & _) | (_ & _ & H)]; [eauto | discriminate H].
    - rewrite last_cons_ne in H1 by discriminate.
      destruct H1 as [(-> & _ & H) | (-> & _ & H)].
      + apply String.eqb_neq in H. rewrite H. eauto.
      + rewrite H.
        exists (removelast (b :: rest)). split; reflexivity. }
  destruct Hargs as (rest' & -> & <-).
  cbn [nth typeof toNumber]. rewrite Hs. cbn [String.eqb Ascii.eqb Bool.eqb andb Number_isNaN].
  repeat split.
  unfold get. cbn [lookup_prop String.eqb Ascii.eqb Bool.eqb].
  destruct rest' as [| b rest']; [reflexivity |].
  change (1 <? length (VStr s :: b :: rest'))%nat with true. cbv iota.
  rewrite <- nth_last. simpl. rewrite Nat.sub_0_r. reflexivity.
Qed.

(** X4: in every normalized request, either the path is a string that does
    not read as a number, or there is no path, the host is truthy and the
    port is a number. *)
Theorem normalizeListenArgs_target (args : list value) :
  let o := normalizeListenArgs N args in
  (exists s, get "path" o = VStr s /\ N s = NaN)
  \/ (get "path" o = VUndefined /\ truthy (get "host" o) = true
      /\ typeof (get "port" o) = "number").
Proof.
  cbv zeta. destruct args as [| a0 args0] eqn:Hargs.
  { right. repeat split. }
  rewrite <- Hargs.
  destruct (normalizeListenArgs_nonempty N args) as (cb1 & args' & _ & ->); [congruence |].
  cbv zeta.
  destruct (String.eqb (typeof (nth 0 args' VUndefined)) "string"
            && Number_isNaN (toNumber N (nth 0 args' VUndefined))) eqn:Hpath.
  - left. apply andb_prop in Hpath as [Hstr Hnan].
    apply typeof_string in Hstr as [s Hs]. rewrite Hs in *. exists s.
    split; [reflexivity |]. cbn [toNumber] in Hnan.
    destruct (N s); try discriminate Hnan. reflexivity.
  - right. split; [reflexivity |]. unfold get. cbn [lookup_prop String.eqb Ascii.eqb Bool.eqb].
    split.
    + destruct (_ && truthy _) eqn:Hh; [| reflexivity].
      apply andb_prop in Hh as [_ Hh]. exact Hh.
    + destruct (_ && Number_isInteger _) eqn:Hint.
      * apply andb_prop in Hint as [_ Hint]. apply isInteger_number in Hint as [q ->].
        reflexivity.
      * destruct (normalizePort_nonneg N (nth 0 args' VUndefined)) as (q & z & -> & _).
        reflexivity.
Qed.

End Normalisation.

Lemma normalizeListenArgs_trailing_callback_witness :
  let o := normalizeListenArgs decimalStringToNumber
             [int 3000; VStr "127.0.0.1"; VFun 0] in
  get "cb" o = VFun 0
  /\ get "port" o
     = get "port" (normalizeListenArgs decimalStringToNumber [int 3000; VStr "127.0.0.1"]).
Proof.
  pose proof (normalizeListenArgs_trailing_callback decimalStringToNumber
                [int 3000; VStr "127.0.0.1"] 0 ltac:(discriminate)) as H.
  cbv zeta in H. destruct H as (H1 & _ & H3).
  split; [exact H1 | exact (H3 "port" ltac:(discriminate))].
Defined.

Lemma normalizeListenArgs_path_witness :
  let o := normalizeListenArgs decimalStringToNumber
             [VStr "/tmp/x.sock"; int 511; VFun 0] in
  get "path" o = VStr "/tmp/x.sock" /\ get "host" o = VUndefined
  /\ get "backlog" o = int 511.
Proof.
  pose proof (normalizeListenArgs_path decimalStringToNumber "/tmp/x.sock"
                [int 511; VFun 0] ltac:(vm_compute; reflexivity)) as H.
  cbv zeta in H. destruct H as (H1 & _ & H3 & H4).
  split; [exact H1 | split; [exact H3 | exact H4]].
Defined.

(** ** The version gate and the servers *)

(** X5: a version value that is not a string is accepted only when the check
    is bypassed, that is, when a custom server factory is supplied. *)
Theorem compileValidateHTTPVersion_other_values (options : obj) (v : value) :
  (forall s, v <> VStr s) ->
  compileValidateHTTPVersion options v = truthy (get "serverFactory" options).
Proof.
  intros Hv. unfold compileValidateHTTPVersion.
  destruct (truthy (get "serverFactory" options)); [reflexivity |].
  destruct v; try reflexivity. exfalso. exact (Hv _ eq_refl).
Qed.

Lemma compileValidateHTTPVersion_other_values_witness :
  compileValidateHTTPVersion [("http2", VBool true)] (int 2) = false.
Proof.
  exact (compileValidateHTTPVersion_other_values [("http2", VBool true)] (int 2)
           ltac:(intros s; discriminate)).
Defined.

Lemma accepts_labels (m : gmap string bool) (P : string -> Prop) (v : value) :
  (forall s, is_Some (m !! s) <-> P s) ->
  (false || Map_has m v = true) <-> exists s, v = VStr s /\ P s.
Proof.
  intros Hm. cbn [orb]. destruct v; cbn [Map_has];
    try (split; [discriminate | intros (s & H & _); discriminate H]).
  rewrite bool_decide_eq_true, Hm. split; [eauto |].
  intros (s' & H & HP). injection H as ->. exact HP.
Qed.

Section Transport.

Variable N : string -> number.

(** X6: the versions that the compiled check accepts fit the server that
    [getServerInstance] builds from the same options: everything for a
    server of a custom factory, "1.1" and "1.0" alone for an HTTP/1 server,
    "2.0" alone for a plain HTTP/2 server, and "2.0", with "1.1" and "1.0"
    when [https.allowHTTP1] is [true], for a secure HTTP/2 server. *)
Theorem transport_decides_versions (options : obj) (w : world) :
  let r := getServerInstance N options w in
  exists s, servers (snd r) !! fst r = Some s
    /\ match kind s with
       | CustomTransport => forall v, compileValidateHTTPVersion options v = true
       | Http | Https =>
           forall v, compileValidateHTTPVersion options v = true
                     <-> v = VStr "1.1" \/ v = VStr "1.0"
       | Http2Plain =>
           forall v, compileValidateHTTPVersion options v = true <-> v = VStr "2.0"
       | Http2Secure =>
           forall v, compileValidateHTTPVersion options v = true
                     <-> v = VStr "2.0"
                         \/ (get "allowHTTP1" (props_of (get "https" options)) = VBool true
                             /\ (v = VStr "1.1" \/ v = VStr "1.0"))
       end.
Proof.
  cbv zeta. unfold getServerInstance, compileValidateHTTPVersion.
  cbn [alloc fst snd servers set_servers set_fresh].
  rewrite lookup_insert_eq. eexists. split; [reflexivity |].
  destruct (truthy (get "serverFactory" options)) eqn:Hf; cbn [negb kind].
  { intros v. reflexivity. }
  destruct (truthy (get "http2" options)) eqn:H2; cbn [kind].
  - destruct (truthy (get "https" options)) eqn:Hs; cbn [kind andb].
    + destruct (is_true (get "allowHTTP1" (props_of (get "https" options)))) eqn:Ha.
      * apply is_true_spec in Ha. intros v.
        rewrite (accepts_labels _ _ v all_labels).
        split.
        -- intros (s & -> & [-> | [-> | ->]]); auto.
        -- intros [-> | [_ [-> | ->]]]; eauto 6.
      * intros v. rewrite (accepts_labels _ _ v http2_label).
        split.
        -- intros (s & -> & ->). auto.
        -- intros [-> | [Hallow _]]; [eauto |].
           rewrite Hallow in Ha. discriminate Ha.
    + intros v. rewrite (accepts_labels _ _ v http2_label).
      split; [intros (s & -> & ->); reflexivity | intros ->; eauto].
  - assert (H1 : forall v, false || Map_has (<["1.0" := true]> (<["1.1" := true]> ∅)) v = true
                 <-> v = VStr "1.1" \/ v = VStr "1.0").
    { intros v. rewrite (accepts_labels _ _ v http1_labels).
      split; [intros (s & -> & [-> | ->]); auto | intros [-> | ->]; eauto]. }
    destruct (truthy (get "https" options)); exact H1.
Qed.

(** X7: [getServerInstance] adds one server, not yet bound, and leaves the
    others alone.  [maxRequestsPerSocket] is set on it only for an HTTP/1
    server and only when the option is greater than zero, and is then the
    option itself; [connectionTimeout] becomes the timeout of every server
    that is not the work of a custom factory, and nothing is set on a server
    that is. *)
Theorem getServerInstance_limits (options : obj) (w : world) :
  let r := getServerInstance N options w in
  exists s, servers (snd r) !! fst r = Some s
    /\ (forall sid, sid <> fst r -> servers (snd r) !! sid = servers w !! sid)
    /\ address s = None
    /\ (is_set "maxRequestsPerSocket" (settings s)
        <-> (kind s = Http \/ kind s = Https)
            /\ gt0 N (get "maxRequestsPerSocket" options) = true)
    /\ (is_set "maxRequestsPerSocket" (settings s) ->
        get "maxRequestsPerSocket" (settings s) = get "maxRequestsPerSocket" options)
    /\ (kind s <> CustomTransport ->
        get "timeout" (settings s) = get "connectionTimeout" options)
    /\ (kind s = CustomTransport -> settings s = [] /\ listeners s = []).
Proof.
  cbv zeta. unfold getServerInstance.
  cbn [alloc fst snd servers set_servers set_fresh].
  rewrite lookup_insert_eq. eexists. split; [reflexivity |].
  split; [intros sid Hsid; apply lookup_insert_ne; congruence |].
  assert (Hgt : gt0 N (get "maxRequestsPerSocket" options) = true ->
                get "maxRequestsPerSocket" options <> VUndefined).
  { intros Hg Hu. rewrite Hu in Hg. discriminate Hg. }
  destruct (truthy (get "serverFactory" options)); cbn [negb kind settings address listeners].
  { split; [reflexivity |]. split.
    - split; [intros H; exfalso; apply H; reflexivity | intros [[H | H] _]; discriminate H].
    - split; [intros H; exfalso; apply H; reflexivity |].
      split; [intros H; exfalso; apply H; reflexivity | auto]. }
  destruct (truthy (get "http2" options)); cbn [kind settings address listeners].
  - split; [reflexivity |]. split.
    + split; [intros H; exfalso; apply H; reflexivity |].
      intros [[H | H] _]; destruct (truthy (get "https" options)); discriminate H.
    + split; [intros H; exfalso; apply H; reflexivity |].
      split; [intros _; reflexivity |].
      destruct (truthy (get "https" options)); intros H; discriminate H.
  - split; [reflexivity |].
    destruct (gt0 N (get "maxRequestsPerSocket" options)) eqn:Hg.
    + split.
      * split; [intros _; split; [destruct (truthy (get "https" options)); auto | reflexivity] |].
        intros _. apply Hgt. reflexivity.
      * split; [intros _; reflexivity |].
        split; [intros _; reflexivity |].
        destruct (truthy (get "https" options)); intros H; discriminate H.
    + split.
      * split; [intros H; exfalso; apply H; reflexivity | intros [_ H]; discriminate H].
      * split; [intros H; exfalso; apply H; reflexivity |].
        split; [intros _; reflexivity |].
        destruct (truthy (get "https" options)); intros H; discriminate H.
Qed.

End Transport.

(** ** Calls of listen *)


Lemma same_instance_refl (w : world) : same_instance w w.
Proof. unfold same_instance. repeat split; reflexivity || lia. Qed.

Lemma same_instance_trans (w1 w2 w3 : world) :
  same_instance w1 w2 -> same_instance w2 w3 -> same_instance w1 w3.
Proof.
  unfold same_instance.
  intros (A1 & A2 & A3 & A4 & A5 & A6 & A7 & A8 & A9 & A10 & A11 & A12)
         (B1 & B2 & B3 & B4 & B5 & B6 & B7 & B8 & B9 & B10 & B11 & B12).
  repeat split; try congruence. lia.
Qed.

Lemma ready_step N (k : ready_cont) (q : list ready_cont) (err : value) (w : world) :
  readyQ w = q ++ [k] -> step N (Ready (length q) err) w = run_ready_cont k err w.
Proof. intros H. unfold step. rewrite H, list_lookup_middle by reflexivity. reflexivity. Qed.

Lemma ready_throws_step N (k : ready_cont) (q : list ready_cont) (err thrown : value)
    (w : world) :
  readyQ w = q ++ [k] ->
  step N (ReadyThrows (length q) err thrown) w = run_ready_cont_throws k err thrown w.
Proof. intros H. unfold step. rewrite H, list_lookup_middle by reflexivity. reflexivity. Qed.

Lemma lookup_prop_absent (k : string) (o : obj) :
  ~ In k (map fst o) -> lookup_prop k o = None.
Proof.
  induction o as [| [k' v] o IH]; [reflexivity |].
  cbn [map fst In lookup_prop]. intros Hn.
  destruct (String.eqb k k') eqn:Hk.
  - apply String.eqb_eq in Hk. exfalso. apply Hn. left. congruence.
  - apply IH. tauto.
Qed.

(** [Object.assign(target, source)], read property by property. *)
Lemma get_assign (k : string) (target source : obj) :
  List.NoDup (map fst source) ->
  get k (assign target source)
  = match lookup_prop k source with
    | Some v => v
    | None => get k target
    end.
Proof.
  unfold assign. revert target.
  induction source as [| [k' v] source IH]; intros target Hnd; [reflexivity |].
  inversion Hnd as [| ? ? Hnotin Hnd']; subst.
  cbn [fold_left fst snd lookup_prop]. rewrite (IH _ Hnd').
  destruct (String.eqb k k') eqn:Hk.
  - apply String.eqb_eq in Hk. subst k'.
    rewrite (lookup_prop_absent _ _ Hnotin). apply get_set_eq.
  - apply String.eqb_neq in Hk.
    destruct (lookup_prop k source); [reflexivity | apply get_set_ne, Hk].
Qed.

Lemma truthy_not_nullish (v : value) : truthy v = true -> nullish v = false.
Proof. destruct v; cbn; congruence. Qed.

(** The address reported depends on the bound address of the server and on
    the options of the instance alone. *)
Lemma logServerAddress_same (sid : nat) (r r' : text_resolver) (w w' : world) :
  server_address sid w' = server_address sid w -> kOptions w' = kOptions w ->
  fst (logServerAddress sid r' w') = fst (logServerAddress sid r w).
Proof.
  intros Ha Ho. unfold logServerAddress. rewrite Ha, Ho.
  destruct (server_address sid w) as [a |]; [| reflexivity].
  destruct r, r'; reflexivity.
Qed.

(** The callback form, the bind succeeds, and [listenOptions.cb] is the
    caller's. *)
Lemma callback_bind_bound (m wrap : nat) (LO : ListenOptions) (f : value)
    (err : value) (addr : bound_address) (w : world) :
  listening w = false -> nullish err = true ->
  is_Some (servers w !! m) ->
  listeners_for m "listening" w = [] ->
  cb LO = UserCb f ->
  let w2 := run_listenCallbackFn m LO wrap err w in
  let w3 := emit m "listening" VUndefined (with_server m (bind_address addr) w2) in
  exists text,
    invocations w3 = invocations w ++ [(f, [VNull; VStr text])]
    /\ fst (logServerAddress m DefaultResolver w3) = Some text
    /\ lookups w3 = lookups w /\ dnsQ w3 = dnsQ w
    /\ binds w3 = binds w ++ [(m, LO)]
    /\ listening w3 = true /\ closing w3 = closing w
    /\ kServerBindings w3 = kServerBindings w
    /\ server_address m w3 = Some addr.
Proof.
  intros Hl Herr Hs Hnl Hcb. cbv zeta.
  unfold run_listenCallbackFn. rewrite Herr, Hl. cbn [negb andb].
  set (w2 := set_listening true _).
  assert (Hl2 : listeners_for m "listening" (with_server m (bind_address addr) w2)
                = [Listener "listening" true wrap (Wrap m LO)]).
  { subst w2. unfold server_listen, once, listeners_for in *. wcbn.
    rewrite listeners_in_bind, !listeners_in_add by exists_server.
    rewrite Hnl, Nat.eqb_refl. reflexivity. }
  assert (Hv2 : invocations w2 = invocations w /\ lookups w2 = lookups w
                /\ dnsQ w2 = dnsQ w /\ binds w2 = binds w ++ [(m, LO)]
                /\ listening w2 = true /\ closing w2 = closing w
                /\ kServerBindings w2 = kServerBindings w).
  { subst w2. unfold server_listen, once. views. auto 10. }
  assert (Hs2 : is_Some (servers w2 !! m)).
  { subst w2. unfold server_listen, once. wcbn. exists_server. }
  destruct Hv2 as (Hi2 & Hk2 & Hd2 & Hb2 & Hli2 & Hc2 & Hkb2).
  clearbody w2.
  rewrite (emit_single _ _ _ _ _ Hl2). cbn [l_once l_id l_fn run_handler].
  unfold run_wrap. cbn [truthy negb].
  set (W := removeListener m "error" wrap _).
  assert (HaW : server_address m W = Some addr).
  { subst W. unfold server_address, removeListener. wcbn.
    rewrite !lookup_drop_listener_address. apply lookup_bind_address, Hs2. }
  pose proof (logServerAddress_same m (resolver_of LO) DefaultResolver W) as Hsame.
  destruct (logServerAddress_bound m (resolver_of LO) addr W HaW) as (text & line & Hlog & Hline).
  rewrite Hlog in Hsame |- *. cbn [fst] in Hsame.
  rewrite Hcb. cbn [call].
  exists text.
  split; [| split; [apply Hsame |]].
  - destruct Hline as [[t ->] | [g [t ->]]]; subst W; unfold removeListener; views;
      fold (invocations w2); rewrite Hi2; reflexivity.
  - reflexivity.
  - reflexivity.
  - destruct Hline as [[t ->] | [g [t ->]]]; subst W; unfold removeListener; views;
      fold (lookups w2) (binds w2); rewrite Hk2, Hb2; unfold server_address in *; auto 10.
Qed.

(** The promise form, the bind succeeds, and nothing is chained on the
    promise inside server.js. *)
Lemma promise_bind_bound (m p : nat) (LO : ListenOptions)
    (err : value) (addr : bound_address) (w : world) :
  listening w = false -> nullish err = true ->
  is_Some (servers w !! m) ->
  listeners_for m "listening" w = [] ->
  promises w !! p = Some (Promise Pending None) ->
  let w2 := run_ready_cont (ListenPromiseThen m LO p) err w in
  let w3 := emit m "listening" VUndefined (with_server m (bind_address addr) w2) in
  exists text,
    promise_state p w3 = Some (Fulfilled (VStr text))
    /\ invocations w3 = invocations w
    /\ fst (logServerAddress m DefaultResolver w3) = Some text
    /\ lookups w3 = lookups w /\ dnsQ w3 = dnsQ w
    /\ binds w3 = binds w ++ [(m, LO)]
    /\ listening w3 = true /\ closing w3 = closing w
    /\ kServerBindings w3 = kServerBindings w
    /\ server_address m w3 = Some addr.
Proof.
  intros Hl Herr Hs Hnl Hp. cbv zeta.
  unfold run_ready_cont. rewrite Herr. cbn [negb].
  unfold run_listenPromiseThen. wcbn.
  set (w2 := set_listening true _).
  set (eh := fresh w) in *.
  assert (Hl2 : listeners_for m "listening" (with_server m (bind_address addr) w2)
                = [Listener "listening" true (S eh) (OnListening m LO eh p)]).
  { subst w2. unfold server_listen, once, listeners_for in *. wcbn.
    rewrite listeners_in_bind, !listeners_in_add by exists_server.
    rewrite Hnl, Nat.eqb_refl. reflexivity. }
  assert (Hv2 : invocations w2 = invocations w /\ lookups w2 = lookups w
                /\ dnsQ w2 = dnsQ w /\ binds w2 = binds w ++ [(m, LO)]
                /\ listening w2 = true /\ closing w2 = closing w
                /\ kServerBindings w2 = kServerBindings w).
  { subst w2. unfold server_listen, once. views. auto 10. }
  assert (Hs2 : is_Some (servers w2 !! m)).
  { subst w2. unfold server_listen, once. wcbn. exists_server. }
  assert (Hp2 : promises w2 = promises w) by reflexivity.
  destruct Hv2 as (Hi2 & Hk2 & Hd2 & Hb2 & Hli2 & Hc2 & Hkb2).
  clearbody w2.
  rewrite (emit_single _ _ _ _ _ Hl2). cbn [l_once l_id l_fn run_handler].
  set (W := removeListener m "error" eh _).
  assert (HaW : server_address m W = Some addr).
  { subst W. unfold server_address, removeListener. wcbn.
    rewrite !lookup_drop_listener_address. apply lookup_bind_address, Hs2. }
  pose proof (logServerAddress_same m (resolver_of LO) DefaultResolver W) as Hsame.
  destruct (logServerAddress_bound m (resolver_of LO) addr W HaW) as (text & line & Hlog & Hline).
  rewrite Hlog in Hsame |- *. cbn [fst] in Hsame.
  exists text.
  assert (HpW : promises W !! p = Some (Promise Pending None)).
  { subst W. unfold removeListener. wcbn. rewrite Hp2. exact Hp. }
  cbv beta iota. unfold settle, promise_state. wcbn. rewrite HpW.
  unfold set_pstate. wcbn. rewrite lookup_alter_eq, HpW.
  split; [reflexivity |]. split; [| split; [apply Hsame; reflexivity |]].
  - destruct Hline as [[t ->] | [g [t ->]]]; subst W; unfold removeListener; views;
      fold (invocations w2); rewrite Hi2; reflexivity.
  - destruct Hline as [[t ->] | [g [t ->]]]; subst W; unfold removeListener; views;
      fold (lookups w2) (binds w2); rewrite Hk2, Hb2; unfold server_address in *; auto 10.
Qed.

(** The readiness gate reports an error, callback form. *)
Lemma callback_readiness_error (m wrap : nat) (LO : ListenOptions) (f : value)
    (err : value) (w : world) :
  truthy err = true ->
  (cb LO = UserCb f \/ exists lo, cb LO = LocalhostCb f lo) ->
  let w2 := run_ready_cont (ListenCallbackFn m LO wrap) err w in
  (exists rest, invocations w2 = invocations w ++ [(f, err :: rest)])
  /\ binds w2 = binds w /\ lookups w2 = lookups w /\ dnsQ w2 = dnsQ w
  /\ listening w2 = listening w /\ servers w2 = servers w.
Proof.
  intros Herr Hcb. cbv zeta. cbn [run_ready_cont]. unfold run_listenCallbackFn.
  rewrite (truthy_not_nullish _ Herr). cbn [negb].
  destruct Hcb as [-> | [lo ->]]; cbn [call nth]; rewrite ?Herr;
    (split; [eexists; views; reflexivity | views; auto]).
Qed.

(** The readiness gate reports an error, promise form. *)
Lemma promise_readiness_error (m p q : nat) (LO : ListenOptions)
    (k : option reaction) (err : value) (w : world) :
  truthy err = true ->
  promises w !! p = Some (Promise Pending k) ->
  ((k = None /\ q = p)
   \/ (exists lo, k = Some (ThenMultipleBindings lo q)) /\ q <> p
      /\ promises w !! q = Some (Promise Pending None)) ->
  let w2 := run_ready_cont (ListenPromiseThen m LO p) err w in
  promise_state q w2 = Some (Rejected err)
  /\ invocations w2 = invocations w
  /\ binds w2 = binds w /\ lookups w2 = lookups w /\ dnsQ w2 = dnsQ w
  /\ listening w2 = listening w /\ servers w2 = servers w.
Proof.
  intros Herr Hp Hk. cbv zeta. cbn [run_ready_cont].
  rewrite (truthy_not_nullish _ Herr). cbn [negb].
  unfold settle, promise_state. rewrite Hp.
  destruct Hk as [[-> ->] | [[lo ->] [Hqp Hq]]]; unfold set_pstate; wcbn.
  - rewrite lookup_alter_eq, Hp. auto 10.
  - rewrite lookup_alter_eq, lookup_alter_ne, Hq by congruence. auto 10.
Qed.

Lemma lookup_prop_set_ne (k k' : string) (v : value) (o : obj) :
  k <> k' -> lookup_prop k (set k' v o) = lookup_prop k o.
Proof.
  intros Hne. induction o as [| [k2 v2] o IH]; simpl.
  - apply String.eqb_neq in Hne. rewrite Hne. reflexivity.
  - destruct (String.eqb k' k2) eqn:Hk; simpl.
    + apply String.eqb_eq in Hk. subst k2.
      apply String.eqb_neq in Hne. rewrite Hne. reflexivity.
    + destruct (String.eqb k k2); [reflexivity | exact IH].
Qed.

(** The bind is initiated, in either form. *)
Lemma bind_started (m : nat) (LO : ListenOptions) (k : ready_cont) (err : value)
    (w : world) :
  listening w = false -> nullish err = true ->
  ((exists wrap, k = ListenCallbackFn m LO wrap)
   \/ (exists p, k = ListenPromiseThen m LO p)) ->
  let w2 := run_ready_cont k err w in
  binds w2 = binds w ++ [(m, LO)] /\ listening w2 = true
  /\ invocations w2 = invocations w /\ lookups w2 = lookups w.
Proof.
  intros Hl Herr [[wrap ->] | [p ->]]; cbv zeta; cbn [run_ready_cont].
  - unfold run_listenCallbackFn. rewrite Herr, Hl. cbn [negb andb].
    unfold server_listen, once. views. auto.
  - rewrite Herr. cbn [negb]. unfold run_listenPromiseThen, server_listen, once.
    views. auto.
Qed.

(** [server.listen] is called and throws, in either form. *)
Lemma bind_thrown (m : nat) (LO : ListenOptions) (k : ready_cont) (err thrown : value)
    (w : world) :
  listening w = false -> nullish err = true ->
  ((exists wrap, k = ListenCallbackFn m LO wrap)
   \/ (exists p, k = ListenPromiseThen m LO p)) ->
  let w2 := run_ready_cont_throws k err thrown w in
  binds w2 = binds w ++ [(m, LO)] /\ listening w2 = false
  /\ invocations w2 = invocations w /\ lookups w2 = lookups w
  /\ readyQ w2 = readyQ w /\ closing w2 = closing w.
Proof.
  intros Hl Herr [[wrap ->] | [p ->]]; cbv zeta; cbn [run_ready_cont_throws].
  - unfold run_listenCallbackFn_throws. rewrite Herr, Hl. cbn [negb andb].
    unfold server_listen_throws, once. views. auto 10.
  - rewrite Herr. cbn [negb].
    unfold run_listenPromiseThen_throws, server_listen_throws, once.
    cbn [alloc fst snd].
    match goal with |- context [settle p _ ?W0] => set (W := W0) end.
    destruct (settle_rejected_frame p thrown W) as (-> & _ & ->).
    rewrite settle_rejected_listening, settle_invocations.
    unfold binds, lookups. rewrite settle_rejected_trace.
    subst W. views. auto 10.
Qed.

(** The callback form, the bind fails. *)
Lemma callback_bind_fails (m wrap : nat) (LO : ListenOptions) (f : value)
    (err e : value) (w : world) :
  listening w = false -> nullish err = true -> truthy e = true ->
  is_Some (servers w !! m) ->
  listeners_for m "error" w = [] ->
  (cb LO = UserCb f \/ exists lo, cb LO = LocalhostCb f lo) ->
  let w2 := run_listenCallbackFn m LO wrap err w in
  let w3 := emit m "error" e w2 in
  invocations w3 = invocations w ++ [(f, [e; VNull])]
  /\ listening w3 = false
  /\ binds w3 = binds w ++ [(m, LO)]
  /\ lookups w3 = lookups w /\ dnsQ w3 = dnsQ w
  /\ kServerBindings w3 = kServerBindings w
  /\ mainServer w3 = mainServer w /\ closing w3 = closing w.
Proof.
  intros Hl Herr He Hs Hne Hcb. cbv zeta.
  unfold run_listenCallbackFn. rewrite Herr, Hl. cbn [negb andb].
  set (w2 := set_listening true _).
  assert (He2 : listeners_for m "error" w2 = [Listener "error" true wrap (Wrap m LO)]).
  { subst w2. unfold server_listen, once, listeners_for in *. wcbn.
    rewrite !listeners_in_add by exists_server.
    rewrite Hne, Nat.eqb_refl. reflexivity. }
  assert (Hv2 : invocations w2 = invocations w /\ lookups w2 = lookups w
                /\ dnsQ w2 = dnsQ w /\ binds w2 = binds w ++ [(m, LO)]
                /\ kServerBindings w2 = kServerBindings w
                /\ mainServer w2 = mainServer w /\ closing w2 = closing w).
  { subst w2. unfold server_listen, once. views. auto 10. }
  destruct Hv2 as (Hi2 & Hk2 & Hd2 & Hb2 & Hkb2 & Hm2 & Hc2).
  clearbody w2.
  rewrite (emit_single _ _ _ _ _ He2). cbn [l_once l_id l_fn run_handler].
  unfold run_wrap. rewrite He. cbn [negb].
  destruct Hcb as [-> | [lo ->]]; cbn [call nth]; rewrite ?He;
    unfold removeListener; views;
    fold (invocations w2) (lookups w2) (binds w2); rewrite Hi2, Hk2, Hb2; auto 10.
Qed.

(** The promise form, the bind fails. *)
Lemma promise_bind_fails (m p q : nat) (LO : ListenOptions) (k : option reaction)
    (err e : value) (w : world) :
  listening w = false -> nullish err = true ->
  is_Some (servers w !! m) ->
  listeners_for m "error" w = [] ->
  promises w !! p = Some (Promise Pending k) ->
  ((k = None /\ q = p)
   \/ (exists lo, k = Some (ThenMultipleBindings lo q)) /\ q <> p
      /\ promises w !! q = Some (Promise Pending None)) ->
  let w2 := run_ready_cont (ListenPromiseThen m LO p) err w in
  let w3 := emit m "error" e w2 in
  promise_state q w3 = Some (Rejected e)
  /\ invocations w3 = invocations w
  /\ listening w3 = false
  /\ binds w3 = binds w ++ [(m, LO)]
  /\ lookups w3 = lookups w /\ dnsQ w3 = dnsQ w
  /\ kServerBindings w3 = kServerBindings w
  /\ mainServer w3 = mainServer w /\ closing w3 = closing w.
Proof.
  intros Hl Herr Hs Hne Hp Hk. cbv zeta.
  unfold run_ready_cont. rewrite Herr. cbn [negb].
  unfold run_listenPromiseThen. wcbn.
  set (w2 := set_listening true _).
  set (eh := fresh w) in *.
  assert (He2 : listeners_for m "error" w2 = [Listener "error" true eh (ErrEventHandler p)]).
  { subst w2. unfold server_listen, once, listeners_for in *. wcbn.
    rewrite !listeners_in_add by exists_server.
    rewrite Hne, Nat.eqb_refl. reflexivity. }
  assert (Hv2 : invocations w2 = invocations w /\ lookups w2 = lookups w
                /\ dnsQ w2 = dnsQ w /\ binds w2 = binds w ++ [(m, LO)]
                /\ kServerBindings w2 = kServerBindings w
                /\ mainServer w2 = mainServer w /\ closing w2 = closing w).
  { subst w2. unfold server_listen, once. views. auto 10. }
  assert (Hp2 : promises w2 = promises w) by reflexivity.
  destruct Hv2 as (Hi2 & Hk2 & Hd2 & Hb2 & Hkb2 & Hm2 & Hc2).
  clearbody w2.
  rewrite (emit_single _ _ _ _ _ He2). cbn [l_once l_id l_fn run_handler].
  unfold promise_state, settle, removeListener. wcbn. rewrite Hp2, Hp.
  destruct Hk as [[-> ->] | [[lo ->] [Hqp Hq]]]; unfold set_pstate; views.
  - rewrite lookup_alter_eq, Hp2, Hp.
    fold (invocations w2) (lookups w2) (binds w2). rewrite Hi2, Hk2, Hb2. auto 10.
  - rewrite lookup_alter_eq, lookup_alter_ne, Hp2, Hq by congruence.
    fold (invocations w2) (lookups w2) (binds w2). rewrite Hi2, Hk2, Hb2. auto 10.
Qed.

(** The callback form with the host 'localhost': once the main server has
    bound, [multipleBindings] is started with the [onListen] that tells the
    caller. *)
Lemma callback_localhost_bound (m wrap : nat) (LO : ListenOptions) (f : value)
    (lo' : obj) (err : value) (addr : bound_address) (w : world) :
  listening w = false -> nullish err = true ->
  is_Some (servers w !! m) ->
  listeners_for m "listening" w = [] ->
  cb LO = LocalhostCb f lo' ->
  let w2 := run_listenCallbackFn m LO wrap err w in
  let w3 := emit m "listening" VUndefined (with_server m (bind_address addr) w2) in
  exists text W,
    w3 = multipleBindings lo' (OnListenCallback f (VStr text)) W
    /\ (fresh w <= fresh W)%nat
    /\ fst (logServerAddress m DefaultResolver W) = Some text
    /\ invocations W = invocations w /\ lookups W = lookups w /\ dnsQ W = dnsQ w
    /\ binds W = binds w ++ [(m, LO)]
    /\ kServerBindings W = kServerBindings w
    /\ mainServer W = mainServer w /\ promises W = promises w
    /\ server_address m W = Some addr.
Proof.
  intros Hl Herr Hs Hnl Hcb. cbv zeta.
  unfold run_listenCallbackFn. rewrite Herr, Hl. cbn [negb andb].
  set (w2 := set_listening true _).
  assert (Hl2 : listeners_for m "listening" (with_server m (bind_address addr) w2)
                = [Listener "listening" true wrap (Wrap m LO)]).
  { subst w2. unfold server_listen, once, listeners_for in *. wcbn.
    rewrite listeners_in_bind, !listeners_in_add by exists_server.
    rewrite Hnl, Nat.eqb_refl. reflexivity. }
  assert (Hv2 : invocations w2 = invocations w /\ lookups w2 = lookups w
                /\ dnsQ w2 = dnsQ w /\ binds w2 = binds w ++ [(m, LO)]
                /\ kServerBindings w2 = kServerBindings w
                /\ mainServer w2 = mainServer w /\ promises w2 = promises w).
  { subst w2. unfold server_listen, once. views. auto 10. }
  assert (Hs2 : is_Some (servers w2 !! m)).
  { subst w2. unfold server_listen, once. wcbn. exists_server. }
  assert (Hf2 : fresh w2 = fresh w) by reflexivity.
  destruct Hv2 as (Hi2 & Hk2 & Hd2 & Hb2 & Hkb2 & Hm2 & Hp2).
  clearbody w2.
  rewrite (emit_single _ _ _ _ _ Hl2). cbn [l_once l_id l_fn run_handler].
  unfold run_wrap. cbn [truthy negb].
  set (W := removeListener m "error" wrap _).
  assert (HaW : server_address m W = Some addr).
  { subst W. unfold server_address, removeListener. wcbn.
    rewrite !lookup_drop_listener_address. apply lookup_bind_address, Hs2. }
  destruct (logServerAddress_bound m (resolver_of LO) addr W HaW) as (text & line & Hlog & Hline).
  rewrite Hlog. rewrite Hcb. cbn [call nth truthy].
  exists text, (record line W).
  split; [reflexivity |].
  split; [subst W; unfold removeListener; wcbn; rewrite Hf2; lia |].
  split.
  { rewrite (logServerAddress_same m (resolver_of LO) DefaultResolver W (record line W))
      by reflexivity.
    rewrite Hlog. reflexivity. }
  destruct Hline as [[t ->] | [g [t ->]]]; subst W; unfold removeListener; views;
    fold (invocations w2) (lookups w2) (binds w2); rewrite Hi2, Hk2, Hb2;
    unfold server_address in *; auto 10.
Qed.

(** The promise form with the host 'localhost': once the main server has
    bound, [multipleBindings] is started with the [onListen] that resolves
    the promise the caller holds. *)
Lemma promise_localhost_bound (m p q : nat) (LO : ListenOptions) (lo' : obj)
    (err : value) (addr : bound_address) (w : world) :
  listening w = false -> nullish err = true ->
  is_Some (servers w !! m) ->
  listeners_for m "listening" w = [] ->
  promises w !! p = Some (Promise Pending (Some (ThenMultipleBindings lo' q))) ->
  q <> p -> promises w !! q = Some (Promise Pending None) ->
  let w2 := run_ready_cont (ListenPromiseThen m LO p) err w in
  let w3 := emit m "listening" VUndefined (with_server m (bind_address addr) w2) in
  exists text W,
    w3 = multipleBindings lo' (OnListenResolve q (VStr text)) W
    /\ (fresh w <= fresh W)%nat
    /\ fst (logServerAddress m DefaultResolver W) = Some text
    /\ invocations W = invocations w /\ lookups W = lookups w /\ dnsQ W = dnsQ w
    /\ binds W = binds w ++ [(m, LO)]
    /\ kServerBindings W = kServerBindings w
    /\ mainServer W = mainServer w
    /\ promises W !! q = Some (Promise Pending None)
    /\ server_address m W = Some addr.
Proof.
  intros Hl Herr Hs Hnl Hp Hqp Hq. cbv zeta.
  unfold run_ready_cont. rewrite Herr. cbn [negb].
  unfold run_listenPromiseThen. wcbn.
  set (w2 := set_listening true _).
  set (eh := fresh w) in *.
  assert (Hl2 : listeners_for m "listening" (with_server m (bind_address addr) w2)
                = [Listener "listening" true (S eh) (OnListening m LO eh p)]).
  { subst w2. unfold server_listen, once, listeners_for in *. wcbn.
    rewrite listeners_in_bind, !listeners_in_add by exists_server.
    rewrite Hnl, Nat.eqb_refl. reflexivity. }
  assert (Hv2 : invocations w2 = invocations w /\ lookups w2 = lookups w
                /\ dnsQ w2 = dnsQ w /\ binds w2 = binds w ++ [(m, LO)]
                /\ kServerBindings w2 = kServerBindings w
                /\ mainServer w2 = mainServer w).
  { subst w2. unfold server_listen, once. views. auto 10. }
  assert (Hs2 : is_Some (servers w2 !! m)).
  { subst w2. unfold server_listen, once. wcbn. exists_server. }
  assert (Hp2 : promises w2 = promises w) by reflexivity.
  assert (Hf2 : fresh w2 = S (S (fresh w))) by reflexivity.
  destruct Hv2 as (Hi2 & Hk2 & Hd2 & Hb2 & Hkb2 & Hm2).
  clearbody w2.
  rewrite (emit_single _ _ _ _ _ Hl2). cbn [l_once l_id l_fn run_handler].
  set (W := removeListener m "error" eh _).
  assert (HaW : server_address m W = Some addr).
  { subst W. unfold server_address, removeListener. wcbn.
    rewrite !lookup_drop_listener_address. apply lookup_bind_address, Hs2. }
  destruct (logServerAddress_bound m (resolver_of LO) addr W HaW) as (text & line & Hlog & Hline).
  rewrite Hlog.
  assert (HpW : promises W !! p = Some (Promise Pending (Some (ThenMultipleBindings lo' q)))).
  { subst W. unfold removeListener. wcbn. rewrite Hp2. exact Hp. }
  assert (HqW : promises W !! q = Some (Promise Pending None)).
  { subst W. unfold removeListener. wcbn. rewrite Hp2. exact Hq. }
  cbv beta iota. unfold settle. wcbn. rewrite HpW.
  exists text, (set_pstate p (Fulfilled (VStr text)) (record line W)).
  split; [reflexivity |].
  split; [subst W; unfold removeListener, set_pstate; wcbn; rewrite Hf2; lia |].
  split.
  { rewrite (logServerAddress_same m (resolver_of LO) DefaultResolver W
               (set_pstate p (Fulfilled (VStr text)) (record line W))) by reflexivity.
    rewrite Hlog. reflexivity. }
  unfold set_pstate. wcbn. rewrite lookup_alter_ne, HqW by congruence.
  destruct Hline as [[t ->] | [g [t ->]]]; subst W; unfold removeListener; views;
    fold (invocations w2) (lookups w2) (binds w2); rewrite Hi2, Hk2, Hb2;
    unfold server_address in *; auto 10.
Qed.



Lemma logServerAddress_line (sid : nat) (LO : ListenOptions) (a : bound_address)
    (w : world) :
  server_address sid w = Some a ->
  exists text,
    logServerAddress sid (resolver_of LO) w
    = (Some text, record (listening_line (props LO) text) w).
Proof.
  intros Ha. unfold logServerAddress, resolver_of, listening_line. rewrite Ha.
  destruct (truthy (get "listenTextResolver" (props LO))); eexists; reflexivity.
Qed.

Lemma logs_line (LO : obj) (text : string) (w : world) :
  logs (record (listening_line LO text) w) = logs w ++ [listening_line LO text].
Proof.
  unfold logs, record. wcbn. rewrite omap_app. cbn [omap list_omap].
  unfold listening_line. destruct (truthy (get "listenTextResolver" LO)); reflexivity.
Qed.

Lemma settle_logs (p : nat) (st : pstate) (w : world) : logs (settle p st w) = logs w.
Proof.
  unfold settle. destruct (promises w !! p) as [[[| |] k] |]; try reflexivity.
  destruct k as [[lo r] |]; destruct st; try reflexivity.
  unfold multipleBindings, logs. wcbn. rewrite omap_app. apply app_nil_r.
Qed.

Lemma call_logs (f : callback) (args : list value) (w : world) :
  (forall j s k, f <> SecondaryCb j s k) -> logs (call f args w) = logs w.
Proof.
  intros Hf. destruct f as [g | g lo | j s k]; cbn [call].
  - unfold logs. wcbn. rewrite omap_app. apply app_nil_r.
  - destruct (truthy (nth 0 args VUndefined)); unfold multipleBindings, logs; wcbn;
      rewrite omap_app; apply app_nil_r.
  - exfalso. exact (Hf _ _ _ eq_refl).
Qed.

(** One line is logged when the server that [listen] binds has bound. *)
Lemma bound_logs_once (m : nat) (LO : ListenOptions) (k : ready_cont) (err : value)
    (addr : bound_address) (w : world) :
  listening w = false -> nullish err = true ->
  is_Some (servers w !! m) ->
  listeners_for m "listening" w = [] ->
  ((exists wrap, k = ListenCallbackFn m LO wrap
                 /\ forall j s k', cb LO <> SecondaryCb j s k')
   \/ (exists p, k = ListenPromiseThen m LO p)) ->
  let w2 := run_ready_cont k err w in
  let w3 := emit m "listening" VUndefined (with_server m (bind_address addr) w2) in
  exists text,
    fst (logServerAddress m DefaultResolver w3) = Some text
    /\ logs w2 = logs w
    /\ logs w3 = logs w ++ [listening_line (props LO) text].
Proof.
  intros Hl Herr Hs Hnl Hk. cbv zeta.
  assert (Hsame : forall W W' text r,
            servers W' = servers W -> kOptions W' = kOptions W ->
            fst (logServerAddress m r W) = Some text ->
            fst (logServerAddress m DefaultResolver W') = Some text).
  { intros W W' text r HS HO <-. apply logServerAddress_same; [| exact HO].
    unfold server_address. rewrite HS. reflexivity. }
  destruct Hk as [(wrap & -> & Hcb) | (p & ->)]; cbn [run_ready_cont].
  - unfold run_listenCallbackFn. rewrite Herr, Hl. cbn [negb andb].
    set (w2 := set_listening true _).
    assert (Hl2 : listeners_for m "listening" (with_server m (bind_address addr) w2)
                  = [Listener "listening" true wrap (Wrap m LO)]).
    { subst w2. unfold server_listen, once, listeners_for in *. wcbn.
      rewrite listeners_in_bind, !listeners_in_add by exists_server.
      rewrite Hnl, Nat.eqb_refl. reflexivity. }
    assert (Hg2 : logs w2 = logs w).
    { subst w2. unfold server_listen, once, logs. wcbn.
      rewrite omap_app. apply app_nil_r. }
    assert (Hs2 : is_Some (servers w2 !! m)).
    { subst w2. unfold server_listen, once. wcbn. exists_server. }
    clearbody w2.
    rewrite (emit_single _ _ _ _ _ Hl2). cbn [l_once l_id l_fn run_handler].
    unfold run_wrap. cbn [truthy negb].
    set (W := removeListener m "error" wrap _).
    destruct (logServerAddress_line m LO addr W) as (text & Hlog).
    { subst W. unfold server_address, removeListener. wcbn.
      rewrite !lookup_drop_listener_address. apply lookup_bind_address, Hs2. }
    rewrite Hlog. exists text. split; [| split; [exact Hg2 |]].
    + apply (Hsame W _ text (resolver_of LO)).
      * rewrite call_servers. reflexivity.
      * destruct (cb LO) as [g | g lo | j s k']; cbn [call]; try reflexivity.
        exfalso. exact (Hcb _ _ _ eq_refl).
      * rewrite Hlog. reflexivity.
    + rewrite call_logs by exact Hcb. rewrite logs_line.
      subst W. unfold removeListener, logs. wcbn. fold (logs w2). rewrite Hg2. reflexivity.
  - rewrite Herr. cbn [negb]. unfold run_listenPromiseThen. wcbn.
    set (w2 := set_listening true _).
    set (eh := fresh w) in *.
    assert (Hl2 : listeners_for m "listening" (with_server m (bind_address addr) w2)
                  = [Listener "listening" true (S eh) (OnListening m LO eh p)]).
    { subst w2. unfold server_listen, once, listeners_for in *. wcbn.
      rewrite listeners_in_bind, !listeners_in_add by exists_server.
      rewrite Hnl, Nat.eqb_refl. reflexivity. }
    assert (Hg2 : logs w2 = logs w).
    { subst w2. unfold server_listen, once, logs. wcbn.
      rewrite omap_app. apply app_nil_r. }
    assert (Hs2 : is_Some (servers w2 !! m)).
    { subst w2. unfold server_listen, once. wcbn. exists_server. }
    clearbody w2.
    rewrite (emit_single _ _ _ _ _ Hl2). cbn [l_once l_id l_fn run_handler].
    set (W := removeListener m "error" eh _).
    destruct (logServerAddress_line m LO addr W) as (text & Hlog).
    { subst W. unfold server_address, removeListener. wcbn.
      rewrite !lookup_drop_listener_address. apply lookup_bind_address, Hs2. }
    rewrite Hlog. exists text. split; [| split; [exact Hg2 |]].
    + apply (Hsame W _ text (resolver_of LO)).
      * rewrite settle_servers. reflexivity.
      * unfold settle. destruct (promises _ !! p) as [[[| |] k0] |]; try reflexivity.
        destruct k0 as [[lo r] |]; reflexivity.
      * rewrite Hlog. reflexivity.
    + rewrite settle_logs, logs_line.
      subst W. unfold removeListener, logs. wcbn. fold (logs w2). rewrite Hg2. reflexivity.
Qed.

Section Calls.

Variable N : string -> number.

Lemma listen_arguments_frame (arguments : list value) (w : world) :
  let w1 := snd (listen_arguments N arguments w) in
  same_instance w w1 /\ readyQ w1 = readyQ w /\ promises w1 = promises w
  /\ fresh w1 = fresh w
  /\ warnings w1 = warnings w ++ (if variadic_call arguments then ["FSTDEP011"] else []).
Proof.
  cbv zeta. unfold listen_arguments.
  destruct arguments as [| first rest].
  { cbn. rewrite app_nil_r. split; [apply same_instance_refl | auto]. }
  change (length (first :: rest) =? 0)%nat with false. cbv iota.
  assert (Hrec : same_instance w (record (Warning "FSTDEP011") w)
                 /\ readyQ (record (Warning "FSTDEP011") w) = readyQ w
                 /\ promises (record (Warning "FSTDEP011") w) = promises w
                 /\ fresh (record (Warning "FSTDEP011") w) = fresh w
                 /\ warnings (record (Warning "FSTDEP011") w) = warnings w ++ ["FSTDEP011"]).
  { unfold same_instance, warnings. views. repeat split; reflexivity || lia. }
  assert (Hsame : same_instance w w /\ readyQ w = readyQ w /\ promises w = promises w
                  /\ fresh w = fresh w /\ warnings w = warnings w ++ []).
  { rewrite app_nil_r. split; [apply same_instance_refl | auto]. }
  cbn [nth tl].
  destruct first; cbn [toStringTag String.eqb Ascii.eqb Bool.eqb negb andb variadic_call fst snd];
    try exact Hrec;
    (destruct (1 <? length rest)%nat; cbn [fst snd]; [exact Hrec | exact Hsame]).
Qed.

(** The callback that [listen] works with. *)
Lemma listen_arguments_cb (arguments : list value) (w : world) :
  let cb0 := snd (fst (listen_arguments N arguments w)) in
  (is_undefined cb0 = false <-> has_callback arguments).
Proof.
  cbv zeta. unfold listen_arguments.
  destruct arguments as [| first rest].
  { cbn. split; [discriminate | tauto]. }
  change (length (first :: rest) =? 0)%nat with false. cbv iota.
  cbn [nth tl]. rewrite nth_last.
  assert (Hmodern : forall v, is_undefined v = false <-> v <> VUndefined).
  { intros v. destruct v; cbn; split; congruence. }
  assert (Hlegacy :
    is_undefined (get "cb" (normalizeListenArgs N (first :: rest))) = false
    <-> typeof (List.last (first :: rest) VUndefined) = "function").
  { destruct (normalizeListenArgs_nonempty N (first :: rest))
      as (cb1 & args1 & H1 & ->); [discriminate |].
    rewrite !nth_last in H1. cbv zeta.
    assert (Hget : forall b x y, get "cb" (if b : bool then ("cb", cb1) :: x else ("cb", cb1) :: y) = cb1).
    { intros [|] x y; reflexivity. }
    rewrite Hget.
    destruct H1 as [(_ & -> & Hno) | (_ & -> & Hyes)].
    - split; [discriminate | intros H; contradiction].
    - split; [intros _; exact Hyes |]. intros _.
      destruct (List.last (first :: rest) VUndefined); try discriminate Hyes. reflexivity. }
  destruct first; cbn [toStringTag String.eqb Ascii.eqb Bool.eqb negb andb has_callback fst snd];
    try exact Hlegacy;
    (destruct (1 <? length rest)%nat; cbn [fst snd]; apply Hmodern).
Qed.

(** What [listen] leaves behind on an instance that is not listening: the
    function [k] handed to the readiness gate, and, in the promise form,
    the pending promise (or promises) it made. *)
Lemma listen_enqueues (arguments : list value) (w : world) :
  listening w = false ->
  let lo := fst (fst (listen_arguments N arguments w)) in
  let cb0 := snd (fst (listen_arguments N arguments w)) in
  let LO := listen_options lo cb0 in
  let W := snd (listen N arguments w) in
  same_instance w W
  /\ warnings W = warnings (snd (listen_arguments N arguments w))
  /\ exists k,
       readyQ W = readyQ w ++ [k]
       /\ match fst (listen N arguments w) with
          | None =>
              is_undefined cb0 = false
              /\ exists wrap, k = ListenCallbackFn (mainServer w) LO wrap
                              /\ promises W = promises w
          | Some q =>
              is_undefined cb0 = true
              /\ exists p,
                   k = ListenPromiseThen (mainServer w) LO p
                   /\ ((is_str (listen_host lo) "localhost" = false /\ q = p
                        /\ promises W !! p = Some (Promise Pending None))
                       \/ (is_str (listen_host lo) "localhost" = true /\ q <> p
                           /\ promises W !! p
                              = Some (Promise Pending
                                        (Some (ThenMultipleBindings (props LO) q)))
                           /\ promises W !! q = Some (Promise Pending None)))
          end.
Proof.
  intros Hl. cbv zeta.
  pose proof (listen_arguments_frame arguments w) as Hf. cbv zeta in Hf.
  unfold listen.
  destruct (listen_arguments N arguments w) as [[lo cb0] w1].
  cbn [fst snd] in Hf |- *.
  destruct Hf as (Hsame & Hq1 & Hp1 & Hfr1 & Hw1).
  pose proof Hsame as (Hl1 & _ & _ & _ & Hm1 & _).
  rewrite Hl in Hl1.
  assert (Hgo : forall W, same_instance w1 W -> same_instance w W).
  { intros W. apply same_instance_trans, Hsame. }
  set (LO := listen_options lo cb0).
  destruct (is_undefined cb0) eqn:Hundef.
  - unfold listenPromise. rewrite Hl1. cbn [andb].
    destruct (is_str (listen_host lo) "localhost") eqn:Hlocal.
    + unfold then_multipleBindings, new_promise, alloc. cbn.
      rewrite lookup_insert_eq. cbn.
      split; [apply Hgo; unfold same_instance; cbn; repeat split; lia |].
      split; [reflexivity |].
      exists (ListenPromiseThen (mainServer w1) LO (fresh w1)).
      rewrite Hq1, Hm1. split; [reflexivity |]. split; [reflexivity |].
      exists (fresh w1). split; [reflexivity |]. right.
      split; [reflexivity |]. split; [lia |].
      rewrite lookup_alter_eq, lookup_insert_ne, lookup_insert_eq by lia.
      rewrite lookup_alter_ne, lookup_insert_eq by lia. split; reflexivity.
    + unfold new_promise, alloc. cbn.
      split; [apply Hgo; unfold same_instance; cbn; repeat split; lia |].
      split; [reflexivity |].
      exists (ListenPromiseThen (mainServer w1) LO (fresh w1)).
      rewrite Hq1, Hm1. split; [reflexivity |]. split; [reflexivity |].
      exists (fresh w1). split; [reflexivity |]. left.
      rewrite lookup_insert_eq. auto.
  - unfold listenCallback, alloc. cbn.
    split; [apply Hgo; unfold same_instance; cbn; repeat split; lia |].
    split; [reflexivity |].
    exists (ListenCallbackFn (mainServer w1) LO (fresh w1)).
    rewrite Hq1, Hm1. split; [reflexivity |]. split; [reflexivity |].
    exists (fresh w1). split; [reflexivity | exact Hp1].
Qed.

Lemma listen_trace (arguments : list value) (w : world) :
  trace (snd (listen N arguments w)) = trace (snd (listen_arguments N arguments w)).
Proof.
  unfold listen.
  destruct (listen_arguments N arguments w) as [[lo cb0] w1]. cbn [fst snd].
  destruct (is_undefined cb0); [| reflexivity].
  unfold listenPromise.
  destruct (listening w1 && closing w1); [| destruct (listening w1)];
    destruct (is_str (listen_host lo) "localhost");
    unfold then_multipleBindings, new_promise, alloc; cbn;
    rewrite ?lookup_insert_eq; reflexivity.
Qed.

(** X8: [listen] calls [warnings.emit('FSTDEP011')] once when it is called
    with the variadic signature, and not at all otherwise. *)
Theorem listen_deprecation_warning (arguments : list value) (w : world) :
  warnings (snd (listen N arguments w))
  = warnings w ++ (if variadic_call arguments then ["FSTDEP011"] else []).
Proof.
  unfold warnings at 1. rewrite listen_trace.
  apply (listen_arguments_frame arguments w).
Qed.

(** X9: [listen] returns nothing and works with the callback when the call
    comes with one, and returns a promise, which it has made, when it does
    not. *)
Theorem listen_form (arguments : list value) (w : world) :
  match fst (listen N arguments w) with
  | None => has_callback arguments
  | Some p => ~ has_callback arguments
              /\ is_Some (promise_state p (snd (listen N arguments w)))
  end.
Proof.
  pose proof (listen_arguments_cb arguments w) as Hcb. cbv zeta in Hcb.
  unfold listen.
  destruct (listen_arguments N arguments w) as [[lo cb0] w1]. cbn [fst snd] in Hcb |- *.
  destruct (is_undefined cb0) eqn:Hundef.
  - assert (Hno : ~ has_callback arguments).
    { intros H. apply Hcb in H. discriminate H. }
    unfold listenPromise, promise_state.
    destruct (listening w1 && closing w1); [| destruct (listening w1)];
      destruct (is_str (listen_host lo) "localhost");
      unfold then_multipleBindings, new_promise, alloc; cbn;
      rewrite ?lookup_insert_eq; cbn; rewrite ?lookup_insert_eq;
      rewrite ?lookup_alter_ne, ?lookup_insert_eq by lia; cbn; (split; [exact Hno | eauto]).
  - cbn. apply Hcb. reflexivity.
Qed.

(** The function that the callback form reports to. *)
Lemma callback_target (arguments : list value) (w : world) :
  let lo := fst (fst (listen_arguments N arguments w)) in
  let cb0 := snd (fst (listen_arguments N arguments w)) in
  exists f, (typeof cb0 = "function" -> f = cb0)
            /\ (is_str (listen_host lo) "localhost" = false ->
                cb (listen_options lo cb0) = UserCb f)
            /\ (is_str (listen_host lo) "localhost" = true ->
                f = cb0 /\ cb (listen_options lo cb0)
                           = LocalhostCb f (props (listen_options lo cb0))).
Proof.
  cbv zeta. destruct (listen_arguments_world N arguments w) as [_ Hcb].
  destruct (listen_arguments N arguments w) as [[lo cb0] w1]. cbn [fst snd] in *.
  unfold listen_options.
  destruct (is_str (listen_host lo) "localhost").
  - exists cb0. split; [reflexivity |]. split; [discriminate |].
    intros _. split; [reflexivity |].
    destruct (negb (hasOwnProperty "host" lo)); reflexivity.
  - exists (get "cb" lo). split; [intros Hf; apply Hcb, Hf |].
    split; [| discriminate]. intros _. cbn [cb props].
    destruct (negb (hasOwnProperty "host" lo)); [| reflexivity].
    rewrite get_set_ne by discriminate. reflexivity.
Qed.

(** X10: when the host that [listen] settles on is not 'localhost', the bind
    of the main server is the only one attempted; no lookup is requested,
    no secondary server is tracked, and once the server has bound the
    instance is listening and the caller is told its address, as
    [logServerAddress] renders it. *)
Theorem explicit_host_single_bind (arguments : list value) (w : world)
    (err : value) (addr : bound_address) :
  let lo := fst (fst (listen_arguments N arguments w)) in
  let cb := snd (fst (listen_arguments N arguments w)) in
  let LO := listen_options lo cb in
  is_str (listen_host lo) "localhost" = false ->
  listening w = false -> nullish err = true ->
  is_Some (servers w !! mainServer w) ->
  listeners_for (mainServer w) "listening" w = [] ->
  let w2 := step N (Ready (length (readyQ w)) err) (snd (listen N arguments w)) in
  let w3 := step N (ListeningEvent (mainServer w) addr) w2 in
  binds w3 = binds w ++ [(mainServer w, LO)]
  /\ lookups w3 = lookups w /\ dnsQ w3 = dnsQ w
  /\ kServerBindings w3 = kServerBindings w
  /\ listening w3 = true
  /\ exists text,
       fst (logServerAddress (mainServer w) DefaultResolver w3) = Some text
       /\ match fst (listen N arguments w) with
          | None => exists f, (typeof cb = "function" -> f = cb)
                              /\ invocations w3 = invocations w ++ [(f, [VNull; VStr text])]
          | Some p => promise_state p w3 = Some (Fulfilled (VStr text))
                      /\ invocations w3 = invocations w
          end.
Proof.
  cbv zeta. intros Hhost Hl Herr Hs Hnl.
  destruct (listen_enqueues arguments w Hl) as (Hsame & _ & k & Hq & Hform).
  destruct (callback_target arguments w) as (f & Hf & Hcb & _).
  rewrite (ready_step N k _ err _ Hq). unfold step.
  set (LO := listen_options _ _) in *.
  destruct Hsame as (SL & SC & SK & SO & SM & SS & SN & SD & SI & SB & SU & SF).
  rewrite Hl in SL. unfold listeners_for in Hnl. rewrite <- SS in Hs, Hnl.
  rewrite <- SI, <- SB, <- SU, <- SD, <- SK.
  destruct (fst (listen N arguments w)) as [q |].
  - destruct Hform as (_ & p & -> & [(_ & -> & Hp) | (Hloc & _)]);
      [| rewrite Hloc in Hhost; discriminate Hhost].
    destruct (promise_bind_bound (mainServer w) p LO err addr _ SL Herr Hs Hnl Hp)
      as (text & H1 & H2 & H3 & H4 & H5 & H6 & H7 & H8 & H9 & H10).
    repeat split; try assumption. exists text. auto.
  - destruct Hform as (_ & wrap & -> & _). cbn [run_ready_cont].
    destruct (callback_bind_bound (mainServer w) wrap LO f err addr _ SL Herr Hs Hnl (Hcb Hhost))
      as (text & H1 & H2 & H3 & H4 & H5 & H6 & H7 & H8 & H9).
    repeat split; try assumption. exists text. split; [exact H2 |]. exists f. auto.
Qed.

(** X11: when the readiness gate reports an error on an instance that is not
    listening, no bind is attempted and no lookup requested, the state stays
    not-listening, and the error goes to the caller: as the first argument of
    the callback, or as the reason the promise is rejected with. *)
Theorem readiness_error_reported (arguments : list value) (w : world) (err : value) :
  listening w = false -> truthy err = true ->
  let cb := snd (fst (listen_arguments N arguments w)) in
  let w2 := step N (Ready (length (readyQ w)) err) (snd (listen N arguments w)) in
  binds w2 = binds w /\ lookups w2 = lookups w /\ dnsQ w2 = dnsQ w
  /\ listening w2 = false /\ servers w2 = servers w
  /\ match fst (listen N arguments w) with
     | None => exists f rest, (typeof cb = "function" -> f = cb)
                              /\ invocations w2 = invocations w ++ [(f, err :: rest)]
     | Some p => promise_state p w2 = Some (Rejected err)
                 /\ invocations w2 = invocations w
     end.
Proof.
  cbv zeta. intros Hl Herr.
  destruct (listen_enqueues arguments w Hl) as (Hsame & _ & k & Hq & Hform).
  destruct (callback_target arguments w) as (f & Hf & Hcb & Hcb').
  rewrite (ready_step N k _ err _ Hq).
  set (LO := listen_options _ _) in *.
  destruct Hsame as (SL & SC & SK & SO & SM & SS & SN & SD & SI & SB & SU & SF).
  rewrite <- SI, <- SB, <- SU, <- SD, <- SS. rewrite Hl in SL.
  destruct (fst (listen N arguments w)) as [q |].
  - destruct Hform as (_ & p & -> & Hp).
    assert (Hcase : exists k0, promises (snd (listen N arguments w)) !! p
                               = Some (Promise Pending k0)
              /\ ((k0 = None /\ q = p)
                  \/ (exists lo, k0 = Some (ThenMultipleBindings lo q)) /\ q <> p
                     /\ promises (snd (listen N arguments w)) !! q
                        = Some (Promise Pending None))).
    { destruct Hp as [(_ & -> & Hp) | (_ & Hne & Hp & Hr)]; eauto 10. }
    destruct Hcase as (k0 & Hp0 & Hk0).
    destruct (promise_readiness_error (mainServer w) p q LO k0 err _ Herr Hp0 Hk0)
      as (H1 & H2 & H3 & H4 & H5 & H6 & H7).
    rewrite SL in H6. repeat split; assumption.
  - destruct Hform as (_ & wrap & -> & _).
    assert (Hshape : cb LO = UserCb f \/ exists lo, cb LO = LocalhostCb f lo).
    { destruct (is_str (listen_host (fst (fst (listen_arguments N arguments w)))) "localhost");
        [right; destruct Hcb' as [_ H]; eauto | left; auto]. }
    destruct (callback_readiness_error (mainServer w) wrap LO f err
                (snd (listen N arguments w)) Herr Hshape)
      as ((rest & H1) & H2 & H3 & H4 & H5 & H6).
    rewrite SL in H5. repeat split; try assumption. exists f, rest. split; assumption.
Qed.

(** X12: called with an options object and at most one more argument,
    [listen] hands the properties of the object, [cb] apart, to
    [server.listen] as they are: only [host] is filled in when the object
    has none of its own, with 'localhost' unless a path is given. *)
Theorem listen_hands_on_options (o : obj) (rest : list value) (w : world)
    (err : value) :
  (length rest <= 1)%nat ->
  listening w = false -> nullish err = true ->
  let w2 := step N (Ready (length (readyQ w)) err)
              (snd (listen N (VObj o :: rest) w)) in
  exists LO,
    binds w2 = binds w ++ [(mainServer w, LO)]
    /\ (forall k, k <> "host" -> k <> "cb" -> get k (props LO) = get k o)
    /\ get "host" (props LO)
       = if hasOwnProperty "host" o then get "host" o
         else if nullish (get "path" o) then VStr "localhost" else VUndefined.
Proof.
  cbv zeta. intros Hrest Hl Herr.
  destruct (listen_enqueues (VObj o :: rest) w Hl) as (Hsame & _ & k & Hq & Hform).
  rewrite (ready_step N k _ err _ Hq).
  destruct Hsame as (SL & SC & SK & SO & SM & SS & SN & SD & SI & SB & SU & SF).
  rewrite Hl in SL. rewrite <- SB.
  assert (Hlo : fst (fst (listen_arguments N (VObj o :: rest) w))
                = set "cb" (nth (length rest - 1) rest VUndefined) o).
  { unfold listen_arguments.
    change (length (VObj o :: rest) =? 0)%nat with false.
    cbn [nth tl toStringTag String.eqb Ascii.eqb Bool.eqb negb andb].
    replace (1 <? length rest)%nat with false by (symmetry; apply Nat.ltb_ge; exact Hrest).
    reflexivity. }
  set (lo := fst (fst (listen_arguments N (VObj o :: rest) w))) in *.
  set (LO := listen_options lo _) in *.
  exists LO. split.
  - apply bind_started; try assumption.
    destruct (fst (listen N (VObj o :: rest) w)).
    + destruct Hform as (_ & p & -> & _). right. eauto.
    + destruct Hform as (_ & wrap & -> & _). left. eauto.
  - assert (Hown : hasOwnProperty "host" lo = hasOwnProperty "host" o).
    { rewrite Hlo. unfold hasOwnProperty. rewrite lookup_prop_set_ne by discriminate.
      reflexivity. }
    assert (Hget : forall key, key <> "cb" -> get key lo = get key o).
    { intros key Hk. rewrite Hlo. apply get_set_ne. exact Hk. }
    subst LO. unfold listen_options. rewrite Hown.
    assert (Hprops : forall c1 c2,
              props (if is_str (listen_host lo) "localhost"
                     then ListenOpts (if negb (hasOwnProperty "host" o)
                                      then set "host" (listen_host lo) lo else lo) c1
                     else ListenOpts (if negb (hasOwnProperty "host" o)
                                      then set "host" (listen_host lo) lo else lo) c2)
              = if negb (hasOwnProperty "host" o)
                then set "host" (listen_host lo) lo else lo).
    { intros c1 c2. destruct (is_str (listen_host lo) "localhost"); reflexivity. }
    rewrite Hprops. split.
    + intros key Hh Hc. destruct (negb (hasOwnProperty "host" o)).
      * rewrite get_set_ne by exact Hh. apply Hget, Hc.
      * apply Hget, Hc.
    + destruct (hasOwnProperty "host" o) eqn:Ho; cbn [negb].
      * apply Hget. discriminate.
      * rewrite get_set_eq. unfold listen_host.
        rewrite !Hget by discriminate.
        assert (Hu : get "host" o = VUndefined).
        { unfold hasOwnProperty in Ho. unfold get.
          destruct (lookup_prop "host" o); [discriminate Ho | reflexivity]. }
        rewrite Hu. destruct (nullish (get "path" o)); reflexivity.
Qed.

(** The promise that the caller holds, and the promise that the bind
    settles. *)
Lemma listen_promises (arguments : list value) (w : world) (q p : nat)
    (LO : ListenOptions) :
  let lo := fst (fst (listen_arguments N arguments w)) in
  let W := snd (listen N arguments w) in
  ((is_str (listen_host lo) "localhost" = false /\ q = p
    /\ promises W !! p = Some (Promise Pending None))
   \/ (is_str (listen_host lo) "localhost" = true /\ q <> p
       /\ promises W !! p = Some (Promise Pending (Some (ThenMultipleBindings (props LO) q)))
       /\ promises W !! q = Some (Promise Pending None))) ->
  exists k0, promises W !! p = Some (Promise Pending k0)
    /\ ((k0 = None /\ q = p)
        \/ (exists lo', k0 = Some (ThenMultipleBindings lo' q)) /\ q <> p
           /\ promises W !! q = Some (Promise Pending None)).
Proof. cbv zeta. intros [(_ & -> & Hp) | (_ & Hne & Hp & Hr)]; eauto 10. Qed.

(** X13: a bind that fails with an 'error' event starts nothing else and
    leaves the instance able to listen again: no lookup is requested and no
    secondary server tracked, the state is not-listening, and a further call
    of [listen] calls [server.listen] on the main server once more; the
    state is listening again when that call returns, and stays
    not-listening when it throws. *)
Theorem bind_failure_recoverable (first second : list value) (w : world)
    (err e err' : value) :
  listening w = false -> nullish err = true -> truthy e = true ->
  nullish err' = true ->
  is_Some (servers w !! mainServer w) ->
  listeners_for (mainServer w) "error" w = [] ->
  let w2 := step N (Ready (length (readyQ w)) err) (snd (listen N first w)) in
  let w3 := step N (ErrorEvent (mainServer w) e) w2 in
  lookups w3 = lookups w /\ dnsQ w3 = dnsQ w
  /\ kServerBindings w3 = kServerBindings w
  /\ listening w3 = false
  /\ exists LO1 LO2,
       binds w3 = binds w ++ [(mainServer w, LO1)]
       /\ (let w5 := step N (Ready (length (readyQ w3)) err') (snd (listen N second w3)) in
           binds w5 = binds w ++ [(mainServer w, LO1); (mainServer w, LO2)]
           /\ listening w5 = true)
       /\ (forall thrown,
             let w5 := step N (ReadyThrows (length (readyQ w3)) err' thrown)
                         (snd (listen N second w3)) in
             binds w5 = binds w ++ [(mainServer w, LO1); (mainServer w, LO2)]
             /\ listening w5 = false).
Proof.
  cbv zeta. intros Hl Herr He Herr' Hs Hne.
  destruct (listen_enqueues first w Hl) as (Hsame & _ & k & Hq & Hform).
  destruct (callback_target first w) as (f & Hf & Hcb & Hcb').
  rewrite (ready_step N k _ err _ Hq).
  change (step N (ErrorEvent (mainServer w) e)
            (run_ready_cont k err (snd (listen N first w))))
    with (emit (mainServer w) "error" e (run_ready_cont k err (snd (listen N first w)))).
  set (LO := listen_options _ _) in *.
  destruct Hsame as (SL & SC & SK & SO & SM & SS & SN & SD & SI & SB & SU & SF).
  rewrite Hl in SL. unfold listeners_for in Hne. rewrite <- SS in Hs, Hne.
  rewrite <- SB, <- SU, <- SD, <- SK.
  assert (Hfail : let w3 := emit (mainServer w) "error" e
                              (run_ready_cont k err (snd (listen N first w))) in
                  listening w3 = false
                  /\ binds w3 = binds (snd (listen N first w)) ++ [(mainServer w, LO)]
                  /\ lookups w3 = lookups (snd (listen N first w))
                  /\ dnsQ w3 = dnsQ (snd (listen N first w))
                  /\ kServerBindings w3 = kServerBindings (snd (listen N first w))
                  /\ mainServer w3 = mainServer w).
  { cbv zeta. destruct (fst (listen N first w)) as [q |].
    - destruct Hform as (_ & p & -> & Hp).
      destruct (listen_promises first w q p LO Hp) as (k0 & Hp0 & Hk0).
      destruct (promise_bind_fails (mainServer w) p q LO k0 err e _ SL Herr Hs Hne Hp0 Hk0)
        as (H1 & H2 & H3 & H4 & H5 & H6 & H7 & H8 & H9).
      rewrite SM in H8. auto 10.
    - destruct Hform as (_ & wrap & -> & _). cbn [run_ready_cont].
      assert (Hshape : cb LO = UserCb f \/ exists lo, cb LO = LocalhostCb f lo).
      { destruct (is_str (listen_host (fst (fst (listen_arguments N first w)))) "localhost");
          [right; destruct Hcb' as [_ H]; eauto | left; auto]. }
      destruct (callback_bind_fails (mainServer w) wrap LO f err e _ SL Herr He Hs Hne Hshape)
        as (H1 & H2 & H3 & H4 & H5 & H6 & H7 & H8).
      rewrite SM in H7. auto 10. }
  cbv zeta in Hfail. destruct Hfail as (F1 & F2 & F3 & F4 & F5 & F6).
  set (w3 := emit (mainServer w) "error" e _) in *.
  repeat split; try assumption.
  destruct (listen_enqueues second w3 F1) as (Hsame2 & _ & k2 & Hq2 & Hform2).
  set (LO2 := listen_options (fst (fst (listen_arguments N second w3))) _) in *.
  destruct Hsame2 as (TL & _ & _ & _ & _ & _ & _ & _ & _ & TB & _).
  rewrite F1 in TL. rewrite F6 in Hform2.
  assert (Hk2 : (exists wrap, k2 = ListenCallbackFn (mainServer w) LO2 wrap)
                \/ (exists p, k2 = ListenPromiseThen (mainServer w) LO2 p)).
  { destruct (fst (listen N second w3)).
    - destruct Hform2 as (_ & p & -> & _). right. eauto.
    - destruct Hform2 as (_ & wrap & -> & _). left. eauto. }
  exists LO, LO2. split; [exact F2 |]. split.
  - rewrite (ready_step N k2 _ err' _ Hq2).
    destruct (bind_started (mainServer w) LO2 k2 err' _ TL Herr' Hk2) as (B1 & B2 & _).
    split; [| exact B2].
    rewrite B1, TB, F2, <- app_assoc. reflexivity.
  - intros thrown. rewrite (ready_throws_step N k2 _ err' thrown _ Hq2).
    destruct (bind_thrown (mainServer w) LO2 k2 err' thrown _ TL Herr' Hk2) as (B1 & B2 & _).
    split; [| exact B2].
    rewrite B1, TB, F2, <- app_assoc. reflexivity.
Qed.

Lemma multipleBindings_views (lo' : obj) (k : on_listen) (W : world) :
  let w3 := multipleBindings lo' k W in
  listening w3 = false /\ invocations w3 = invocations W
  /\ lookups w3 = lookups W ++ [get "host" lo']
  /\ binds w3 = binds W /\ promises w3 = promises W
  /\ (forall sid r, fst (logServerAddress sid r w3) = fst (logServerAddress sid r W)).
Proof.
  cbv zeta. unfold multipleBindings. views. repeat split.
  intros sid r. apply logServerAddress_same; reflexivity.
Qed.

(** With the host 'localhost', once the main server has bound: the world is
    that of [multipleBindings] started in [W], with the [onListen] that
    tells the caller. *)
Lemma localhost_primary_bound (arguments : list value) (w : world) (err : value)
    (addr : bound_address) :
  let lo := fst (fst (listen_arguments N arguments w)) in
  let cb := snd (fst (listen_arguments N arguments w)) in
  let LO := listen_options lo cb in
  is_str (listen_host lo) "localhost" = true ->
  listening w = false -> nullish err = true ->
  is_Some (servers w !! mainServer w) ->
  listeners_for (mainServer w) "listening" w = [] ->
  exists text W k0,
    step N (ListeningEvent (mainServer w) addr)
      (step N (Ready (length (readyQ w)) err) (snd (listen N arguments w)))
    = multipleBindings (props LO) k0 W
    /\ awaited k0 W
    /\ fst (logServerAddress (mainServer w) DefaultResolver W) = Some text
    /\ invocations W = invocations w /\ lookups W = lookups w /\ dnsQ W = dnsQ w
    /\ binds W = binds w ++ [(mainServer w, LO)]
    /\ kServerBindings W = kServerBindings w
    /\ mainServer W = mainServer w
    /\ server_address (mainServer w) W = Some addr
    /\ (fresh w <= fresh W)%nat
    /\ match fst (listen N arguments w) with
       | None => k0 = OnListenCallback cb (VStr text)
       | Some q => k0 = OnListenResolve q (VStr text)
       end.
Proof.
  cbv zeta. intros Hhost Hl Herr Hs Hnl.
  destruct (listen_enqueues arguments w Hl) as (Hsame & _ & k & Hq & Hform).
  destruct (callback_target arguments w) as (f & _ & _ & Hcb).
  destruct (Hcb Hhost) as [-> Hcb']. clear Hcb.
  rewrite (ready_step N k _ err _ Hq).
  change (step N (ListeningEvent (mainServer w) addr)
            (run_ready_cont k err (snd (listen N arguments w))))
    with (emit (mainServer w) "listening" VUndefined
            (with_server (mainServer w) (bind_address addr)
               (run_ready_cont k err (snd (listen N arguments w))))).
  set (LO := listen_options _ _) in *.
  destruct Hsame as (SL & SC & SK & SO & SM & SS & SN & SD & SI & SB & SU & SF).
  rewrite Hl in SL. unfold listeners_for in Hnl. rewrite <- SS in Hs, Hnl.
  rewrite <- SI, <- SB, <- SU, <- SD, <- SK.
  destruct (fst (listen N arguments w)) as [q |].
  - destruct Hform as (_ & p & -> & [(Hno & _) | (_ & Hne & Hp & Hr)]);
      [rewrite Hno in Hhost; discriminate Hhost |].
    destruct (promise_localhost_bound (mainServer w) p q LO (props LO) err addr _
                SL Herr Hs Hnl Hp Hne Hr)
      as (text & W & H1 & H0 & H2 & H3 & H4 & H5 & H6 & H7 & H8 & H9 & H10).
    exists text, W, (OnListenResolve q (VStr text)).
    cbn [awaited]. repeat split; try assumption; lia.
  - destruct Hform as (_ & wrap & -> & _). cbn [run_ready_cont].
    destruct (callback_localhost_bound (mainServer w) wrap LO _ (props LO) err addr _
                SL Herr Hs Hnl Hcb')
      as (text & W & H1 & H0 & H2 & H3 & H4 & H5 & H6 & H7 & H8 & H9 & H10).
    exists text, W, (OnListenCallback (snd (fst (listen_arguments N arguments w))) (VStr text)).
    cbn [awaited]. repeat split; try assumption; lia.
Qed.

(** X14: when the host that [listen] settles on is 'localhost', the caller is
    not told when the main server has bound: the instance is put back to
    not-listening and one lookup of the host is requested.  When the
    resolver then fails, or returns no address other than the one the main
    server is bound to, the instance is listening, no further bind has
    been attempted, and the caller is told the address of the main
    server. *)
Theorem localhost_listen_completes (arguments : list value) (w : world)
    (err : value) (addr : bound_address) (dnsErr : value) (addresses : list string) :
  let lo := fst (fst (listen_arguments N arguments w)) in
  let cb := snd (fst (listen_arguments N arguments w)) in
  let LO := listen_options lo cb in
  is_str (listen_host lo) "localhost" = true ->
  listening w = false -> nullish err = true ->
  is_Some (servers w !! mainServer w) ->
  listeners_for (mainServer w) "listening" w = [] ->
  (truthy dnsErr = true \/ Forall (fun adr => differs addr adr = false) addresses) ->
  let w2 := step N (Ready (length (readyQ w)) err) (snd (listen N arguments w)) in
  let w3 := step N (ListeningEvent (mainServer w) addr) w2 in
  let w4 := step N (DnsAnswer (length (dnsQ w)) dnsErr addresses) w3 in
  listening w3 = false /\ invocations w3 = invocations w
  /\ lookups w3 = lookups w ++ [get "host" (props LO)]
  /\ listening w4 = true
  /\ binds w4 = binds w ++ [(mainServer w, LO)]
  /\ kServerBindings w4 = kServerBindings w
  /\ exists text,
       fst (logServerAddress (mainServer w) DefaultResolver w3) = Some text
       /\ match fst (listen N arguments w) with
          | None => invocations w4 = invocations w ++ [(cb, [VNull; VStr text])]
          | Some p => promise_state p w3 = Some Pending
                      /\ promise_state p w4 = Some (Fulfilled (VStr text))
                      /\ invocations w4 = invocations w
          end.
Proof.
  cbv zeta. intros Hhost Hl Herr Hs Hnl Hdns.
  destruct (localhost_primary_bound arguments w err addr Hhost Hl Herr Hs Hnl)
    as (text & W & k0 & -> & Haw & Htext & HI & HU & HD & HB & HK & HM & HA & _ & Hk0).
  set (LO := listen_options _ _) in *.
  destruct (multipleBindings_views (props LO) k0 W) as (V1 & V2 & V3 & V4 & V5 & V6).
  rewrite <- HD. rewrite <- HM in HA.
  destruct (dns_answer_completes N W (props LO) k0 dnsErr addresses Haw) as (D1 & D2 & D3 & D4 & _).
  { destruct Hdns as [Hd | Hd]; [left; exact Hd | right; eauto]. }
  rewrite V2, V3, HI, HU, D3, D4, HB, HK.
  repeat split; try assumption.
  exists text. rewrite V6. split; [exact Htext |].
  destruct (fst (listen N arguments w)) as [q |]; subst k0; cbn [completed] in D1.
  - destruct D1 as [D1 D1']. unfold promise_state at 1. rewrite V5.
    cbn [awaited] in Haw. rewrite Haw, D1', D1, HI. auto.
  - rewrite D1, HI. reflexivity.
Qed.


(** The request that [listen] works on when the first argument is no
    options object. *)
Lemma listen_arguments_variadic (arguments : list value) (w : world) :
  options_first arguments = false ->
  fst (fst (listen_arguments N arguments w)) = normalizeListenArgs N arguments.
Proof.
  intros Hshape. unfold listen_arguments.
  destruct arguments as [| first rest]; [reflexivity |].
  change (length (first :: rest) =? 0)%nat with false. cbv iota. cbn [nth].
  destruct first; try discriminate Hshape; reflexivity.
Qed.

(** A normalized request has a host of its own, or a path. *)
Lemma normalizeListenArgs_host_or_path (args : list value) :
  hasOwnProperty "host" (normalizeListenArgs N args) = true
  \/ (hasOwnProperty "host" (normalizeListenArgs N args) = false
      /\ nullish (get "path" (normalizeListenArgs N args)) = false).
Proof.
  destruct args as [| a0 args0] eqn:Hargs; [left; reflexivity |].
  rewrite <- Hargs.
  destruct (normalizeListenArgs_nonempty N args) as (cb1 & args' & _ & ->); [congruence |].
  cbv zeta.
  destruct (String.eqb (typeof (nth 0 args' VUndefined)) "string"
            && Number_isNaN (toNumber N (nth 0 args' VUndefined))) eqn:Hpath.
  - right. apply andb_prop in Hpath as [Hstr _].
    apply typeof_string in Hstr as [s ->]. split; reflexivity.
  - left. reflexivity.
Qed.

(** X16: called with the variadic signature, or with no argument at all,
    [listen] hands to [server.listen] the request that
    [normalizeListenArgs] makes of the arguments, property by property, the
    callback [cb] apart. *)
Theorem variadic_listen_binds_normalized (arguments : list value) (w : world)
    (err : value) :
  options_first arguments = false ->
  listening w = false -> nullish err = true ->
  let w2 := step N (Ready (length (readyQ w)) err) (snd (listen N arguments w)) in
  exists LO,
    binds w2 = binds w ++ [(mainServer w, LO)]
    /\ forall key, key <> "cb" ->
         get key (props LO) = get key (normalizeListenArgs N arguments).
Proof.
  cbv zeta. intros Hshape Hl Herr.
  destruct (listen_enqueues arguments w Hl) as (Hsame & _ & k & Hq & Hform).
  rewrite (ready_step N k _ err _ Hq).
  destruct Hsame as (SL & SC & SK & SO & SM & SS & SN & SD & SI & SB & SU & SF).
  rewrite Hl in SL. rewrite <- SB.
  rewrite (listen_arguments_variadic arguments w Hshape) in Hform.
  set (lo := normalizeListenArgs N arguments) in *.
  set (LO := listen_options lo _) in *.
  exists LO. split.
  - apply bind_started; try assumption.
    destruct (fst (listen N arguments w)).
    + destruct Hform as (_ & p & -> & _). right. eauto.
    + destruct Hform as (_ & wrap & -> & _). left. eauto.
  - intros key _. subst LO. unfold listen_options.
    assert (Hprops : forall c1 c2 (x : obj),
              props (if is_str (listen_host lo) "localhost"
                     then ListenOpts x c1 else ListenOpts x c2) = x).
    { intros c1 c2 x. destruct (is_str (listen_host lo) "localhost"); reflexivity. }
    rewrite Hprops.
    destruct (normalizeListenArgs_host_or_path arguments) as [Hown | [Hown Hpath]];
      fold lo in Hown |- *; rewrite Hown; cbn [negb]; [reflexivity |].
    fold lo in Hpath. unfold listen_host. rewrite Hpath.
    destruct (String.eqb key "host") eqn:Hkey.
    + apply String.eqb_eq in Hkey. subst key. apply get_set_eq.
    + apply String.eqb_neq in Hkey. apply get_set_ne, Hkey.
Qed.

(** X17: when an options object that names an integer port and a host, and
    no path, is followed by more than one argument, its port and its host
    stay, the first of the arguments after it becomes the backlog, and its
    other properties are kept. *)
Theorem listen_options_then_positional (o : obj) (rest : list value) (w : world) :
  (1 < length rest)%nat ->
  truthy (get "path" o) = false ->
  Number_isInteger (get "port" o) = true ->
  truthy (get "host" o) = true ->
  let lo := fst (fst (listen_arguments N (VObj o :: rest) w)) in
  get "port" lo = get "port" o /\ get "host" lo = get "host" o
  /\ get "backlog" lo = nth 0 rest VUndefined
  /\ forall key, key <> "cb" -> key <> "port" -> key <> "host" -> key <> "backlog" ->
       get key lo = get key o.
Proof.
  cbv zeta. intros Hrest Hpath Hport Hhost.
  unfold listen_arguments.
  change (length (VObj o :: rest) =? 0)%nat with false.
  cbn [nth tl toStringTag String.eqb Ascii.eqb Bool.eqb negb andb props_of].
  replace (1 <? length rest)%nat with true by (symmetry; apply Nat.ltb_lt; exact Hrest).
  rewrite Hpath. cbn [fst snd].
  assert (Hp : coalesce (get "port" o) (int 0) = get "port" o).
  { apply isInteger_number in Hport as [q ->]. reflexivity. }
  assert (Hh : coalesce (get "host" o) (VStr "localhost") = get "host" o).
  { unfold coalesce. rewrite (truthy_not_nullish _ Hhost). reflexivity. }
  rewrite Hp, Hh.
  set (p := get "port" o) in *. set (h := get "host" o) in *.
  destruct (normalizeListenArgs_nonempty N ([p; h] ++ rest))
    as (cb1 & args' & Hargs' & ->); [discriminate |].
  cbv zeta.
  assert (Hshape : exists a tl', args' = p :: h :: a :: tl' /\ a = nth 0 rest VUndefined).
  { destruct rest as [| a [| b rest']]; try (cbn in Hrest; lia).
    destruct Hargs' as [(-> & _) | (-> & _)]; cbn [app].
    - eauto.
    - change (removelast (p :: h :: a :: b :: rest'))
        with (p :: h :: a :: removelast (b :: rest')). eauto. }
  destruct Hshape as (a & tl' & -> & ->).
  cbn [nth typeof length].
  assert (Htype : String.eqb (typeof p) "string" = false).
  { apply isInteger_number in Hport as [q Hq]. rewrite Hq. reflexivity. }
  rewrite Htype, Hport, Hhost. cbn [andb Nat.leb].
  repeat split.
  - rewrite get_assign by (repeat constructor; cbn; intuition discriminate). reflexivity.
  - rewrite get_assign by (repeat constructor; cbn; intuition discriminate). reflexivity.
  - rewrite get_assign by (repeat constructor; cbn; intuition discriminate). reflexivity.
  - intros key H1 H2 H3 H4.
    rewrite get_assign by (repeat constructor; cbn; intuition discriminate).
    cbn [lookup_prop].
    apply String.eqb_neq in H1, H2, H3, H4. rewrite H1, H2, H3, H4. reflexivity.
Qed.

(** X18: whatever the call, when the main server has bound one line is
    logged: "Server listening at " and the address, or, when the listen
    options carry a [listenTextResolver], what that function makes of the
    address; nothing is logged before. *)
Theorem bind_logged_once (arguments : list value) (w : world) (err : value)
    (addr : bound_address) :
  let lo := fst (fst (listen_arguments N arguments w)) in
  listening w = false -> nullish err = true ->
  is_Some (servers w !! mainServer w) ->
  listeners_for (mainServer w) "listening" w = [] ->
  let w2 := step N (Ready (length (readyQ w)) err) (snd (listen N arguments w)) in
  let w3 := step N (ListeningEvent (mainServer w) addr) w2 in
  exists text,
    fst (logServerAddress (mainServer w) DefaultResolver w3) = Some text
    /\ logs w2 = logs w
    /\ logs w3 = logs w ++ [listening_line lo text].
Proof.
  cbv zeta. intros Hl Herr Hs Hnl.
  destruct (listen_enqueues arguments w Hl) as (Hsame & Hwarn & k & Hq & Hform).
  destruct (callback_target arguments w) as (f & _ & Hcb & Hcb').
  rewrite (ready_step N k _ err _ Hq).
  change (step N (ListeningEvent (mainServer w) addr)
            (run_ready_cont k err (snd (listen N arguments w))))
    with (emit (mainServer w) "listening" VUndefined
            (with_server (mainServer w) (bind_address addr)
               (run_ready_cont k err (snd (listen N arguments w))))).
  set (lo := fst (fst (listen_arguments N arguments w))) in *.
  set (LO := listen_options lo _) in *.
  destruct Hsame as (SL & SC & SK & SO & SM & SS & SN & SD & SI & SB & SU & SF).
  rewrite Hl in SL. unfold listeners_for in Hnl. rewrite <- SS in Hs, Hnl.
  assert (Hlogs : logs (snd (listen N arguments w)) = logs w).
  { unfold logs. rewrite listen_trace.
    destruct (listen_arguments_world N arguments w) as [[-> | ->] _]; [reflexivity |].
    wcbn. rewrite omap_app. apply app_nil_r. }
  assert (Hline : forall text, listening_line (props LO) text = listening_line lo text).
  { intros text. unfold listening_line. subst LO. unfold listen_options.
    assert (Hget : get "listenTextResolver"
                     (props (if is_str (listen_host lo) "localhost"
                             then ListenOpts (if negb (hasOwnProperty "host" lo)
                                              then set "host" (listen_host lo) lo else lo)
                                    (LocalhostCb (snd (fst (listen_arguments N arguments w)))
                                       (if negb (hasOwnProperty "host" lo)
                                        then set "host" (listen_host lo) lo else lo))
                             else ListenOpts (if negb (hasOwnProperty "host" lo)
                                              then set "host" (listen_host lo) lo else lo)
                                    (UserCb (get "cb" (if negb (hasOwnProperty "host" lo)
                                        then set "host" (listen_host lo) lo else lo)))))
                   = get "listenTextResolver" lo).
    { destruct (is_str (listen_host lo) "localhost"); cbn [props];
        (destruct (negb (hasOwnProperty "host" lo));
         [apply get_set_ne; discriminate | reflexivity]). }
    rewrite Hget. reflexivity. }
  rewrite <- Hlogs.
  destruct (bound_logs_once (mainServer w) LO k err addr _ SL Herr Hs Hnl)
    as (text & H1 & H2 & H3).
  { destruct (fst (listen N arguments w)).
    - destruct Hform as (_ & p & -> & _). right. eauto.
    - destruct Hform as (_ & wrap & -> & _). left. exists wrap. split; [reflexivity |].
      intros j s k' Hsec.
      destruct (is_str (listen_host lo) "localhost");
        [destruct Hcb' as [_ Hc]; [reflexivity |] | rewrite Hcb in Hsec by reflexivity];
        try rewrite Hc in Hsec; discriminate Hsec. }
  exists text. rewrite <- Hline. auto.
Qed.

(** X19: in the callback form the state is looked at when the readiness gate
    calls back, not when [listen] is called.  Of two calls made before the
    instance is ready, the first comes to [server.listen].  When that call
    returns, the state is listening, and the second call, made with a
    callback, is turned down: its callback gets FST_ERR_REOPENED_SERVER, or
    FST_ERR_REOPENED_CLOSE_SERVER when the instance is closing, and
    [server.listen] is not called again.  When that call throws, the state
    is not listening, and the second call comes to [server.listen] in its
    turn, its callback not being called. *)
Theorem callback_guard_at_readiness (first second : list value) (w : world)
    (err err' : value) :
  let w1 := snd (listen N first w) in
  let cb2 := snd (fst (listen_arguments N second w1)) in
  let w2 := snd (listen N second w1) in
  listening w = false -> nullish err = true -> nullish err' = true ->
  fst (listen N second w1) = None ->
  (let w3 := step N (Ready (length (readyQ w)) err) w2 in
   let w4 := step N (Ready (S (length (readyQ w))) err') w3 in
   exists LO f,
     binds w3 = binds w ++ [(mainServer w, LO)]
     /\ listening w3 = true
     /\ binds w4 = binds w3
     /\ (typeof cb2 = "function" -> f = cb2)
     /\ invocations w4
        = invocations w
          ++ [(f, [VErr (if closing w then FST_ERR_REOPENED_CLOSE_SERVER
                         else FST_ERR_REOPENED_SERVER); VNull])])
  /\ (forall thrown,
        let w3 := step N (ReadyThrows (length (readyQ w)) err thrown) w2 in
        let w4 := step N (Ready (S (length (readyQ w))) err') w3 in
        exists LO LO2,
          binds w3 = binds w ++ [(mainServer w, LO)]
          /\ listening w3 = false
          /\ binds w4 = binds w ++ [(mainServer w, LO); (mainServer w, LO2)]
          /\ invocations w4 = invocations w
          /\ listening w4 = true).
Proof.
  cbv zeta. intros Hl Herr Herr' Hsecond.
  destruct (listen_enqueues first w Hl) as (Hsame & _ & k & Hq & Hform).
  set (w1 := snd (listen N first w)) in *.
  set (LO := listen_options (fst (fst (listen_arguments N first w))) _) in *.
  destruct Hsame as (SL & SC & SK & SO & SM & SS & SN & SD & SI & SB & SU & SF).
  rewrite Hl in SL.
  destruct (listen_enqueues second w1 SL) as (Hsame2 & _ & k2 & Hq2 & Hform2).
  destruct (callback_target second w1) as (f & Hf & Hcb & Hcb').
  rewrite Hsecond in Hform2. destruct Hform2 as (_ & wrap2 & -> & _).
  set (w2 := snd (listen N second w1)) in *.
  set (LO2 := listen_options (fst (fst (listen_arguments N second w1))) _) in *.
  destruct Hsame2 as (TL & TC & TK & TO & TM & TS & TN & TD & TI & TB & TU & TF).
  rewrite SL in TL. rewrite Hq, <- app_assoc in Hq2. cbn [app] in Hq2.
  assert (Hk : (exists wrap, k = ListenCallbackFn (mainServer w) LO wrap)
               \/ (exists p, k = ListenPromiseThen (mainServer w) LO p)).
  { destruct (fst (listen N first w)).
    - destruct Hform as (_ & p & -> & _). right. eauto.
    - destruct Hform as (_ & wrap & -> & _). left. eauto. }
  assert (Hsecond_step : forall w3, readyQ w3 = readyQ w2 ->
            step N (Ready (S (length (readyQ w))) err') w3
            = run_ready_cont (ListenCallbackFn (mainServer w1) LO2 wrap2) err' w3).
  { intros w3 Q3. unfold step. rewrite Q3, Hq2.
    change (readyQ w ++ k :: [ListenCallbackFn (mainServer w1) LO2 wrap2])
      with (readyQ w ++ [k] ++ [ListenCallbackFn (mainServer w1) LO2 wrap2]).
    rewrite app_assoc.
    replace (S (length (readyQ w))) with (length (readyQ w ++ [k]))
      by (rewrite length_app; cbn; lia).
    rewrite (list_lookup_middle (readyQ w ++ [k]) _ _ _ eq_refl). reflexivity. }
  split.
  - assert (Hstep3 : step N (Ready (length (readyQ w)) err) w2 = run_ready_cont k err w2).
    { unfold step. rewrite Hq2.
      rewrite (list_lookup_middle (readyQ w) _ k (length (readyQ w)) eq_refl). reflexivity. }
    rewrite Hstep3.
    destruct (bind_started (mainServer w) LO k err w2 TL Herr Hk) as (B1 & B2 & B3 & _).
    assert (Hframe : readyQ (run_ready_cont k err w2) = readyQ w2
                     /\ closing (run_ready_cont k err w2) = closing w2).
    { destruct Hk as [[wrap ->] | [p ->]]; cbn [run_ready_cont].
      - unfold run_listenCallbackFn. rewrite Herr, TL. cbn [negb andb]. split; reflexivity.
      - rewrite Herr. cbn [negb]. split; reflexivity. }
    destruct Hframe as (Q3 & C3).
    set (w3 := run_ready_cont k err w2) in *.
    rewrite (Hsecond_step w3 Q3). cbn [run_ready_cont]. unfold run_listenCallbackFn.
    rewrite Herr', B2, C3, TC, SC. cbn [negb andb].
    exists LO, f. split; [rewrite B1, TB, SB; reflexivity |]. split; [reflexivity |].
    assert (Hshape : cb LO2 = UserCb f \/ exists lo, cb LO2 = LocalhostCb f lo).
    { destruct (is_str (listen_host (fst (fst (listen_arguments N second w1)))) "localhost");
        [right; destruct Hcb' as [_ H]; eauto | left; auto]. }
    assert (Hcall : forall e0,
              binds (call (cb LO2) [VErr e0; VNull] w3) = binds w3
              /\ invocations (call (cb LO2) [VErr e0; VNull] w3)
                 = invocations w3 ++ [(f, [VErr e0; VNull])]).
    { intros e0. destruct Hshape as [-> | [lo ->]]; cbn [call nth truthy]; views; auto. }
    rewrite <- SI, <- TI, <- B3.
    destruct (closing w);
      [destruct (Hcall FST_ERR_REOPENED_CLOSE_SERVER) as (H1 & H2)
      | destruct (Hcall FST_ERR_REOPENED_SERVER) as (H1 & H2)];
      (split; [exact H1 | split; [exact Hf | exact H2]]).
  - intros thrown.
    assert (Hstep3 : step N (ReadyThrows (length (readyQ w)) err thrown) w2
                     = run_ready_cont_throws k err thrown w2).
    { unfold step. rewrite Hq2.
      rewrite (list_lookup_middle (readyQ w) _ k (length (readyQ w)) eq_refl). reflexivity. }
    rewrite Hstep3.
    destruct (bind_thrown (mainServer w) LO k err thrown w2 TL Herr Hk)
      as (B1 & B2 & B3 & _ & Q3 & C3).
    set (w3 := run_ready_cont_throws k err thrown w2) in *.
    rewrite (Hsecond_step w3 Q3).
    destruct (bind_started (mainServer w1) LO2 (ListenCallbackFn (mainServer w1) LO2 wrap2)
                err' w3 B2 Herr') as (D1 & D2 & D3 & _); [left; eauto |].
    exists LO, LO2. split; [rewrite B1, TB, SB; reflexivity |]. split; [exact B2 |].
    split; [rewrite D1, B1, TB, SB, SM, <- app_assoc; reflexivity |].
    split; [rewrite D3, B3, TI, SI; reflexivity | exact D2].
Qed.

End Calls.

(** ** Examples *)

Lemma listen_hands_on_options_witness :
  let w := createServer decimalStringToNumber [] in
  let w2 := step decimalStringToNumber (Ready 0 VUndefined)
              (snd (listen decimalStringToNumber
                      [VObj [("port", int 3000); ("backlog", int 511)]; VFun 0] w)) in
  exists LO,
    binds w2 = [(0%nat, LO)]
    /\ get "port" (props LO) = int 3000 /\ get "backlog" (props LO) = int 511
    /\ get "host" (props LO) = VStr "localhost".
Proof.
  destruct (listen_hands_on_options decimalStringToNumber
              [("port", int 3000); ("backlog", int 511)] [VFun 0]
              (createServer decimalStringToNumber []) VUndefined
              ltac:(cbn; lia) ltac:(vm_compute; reflexivity) ltac:(reflexivity))
    as (LO & H1 & H2 & H3).
  exists LO. split; [exact H1 |].
  split; [exact (H2 "port" ltac:(discriminate) ltac:(discriminate)) |].
  split; [exact (H2 "backlog" ltac:(discriminate) ltac:(discriminate)) | exact H3].
Defined.

Lemma readiness_error_reported_witness :
  let w := createServer decimalStringToNumber [] in
  let w2 := step decimalStringToNumber (Ready 0 (VErr (ExternalError "AVV_ERR_READY_TIMEOUT")))
              (snd (listen decimalStringToNumber [VObj [("port", int 3000)]] w)) in
  binds w2 = [] /\ lookups w2 = [] /\ listening w2 = false.
Proof.
  pose proof (readiness_error_reported decimalStringToNumber [VObj [("port", int 3000)]]
                (createServer decimalStringToNumber [])
                (VErr (ExternalError "AVV_ERR_READY_TIMEOUT"))
                ltac:(vm_compute; reflexivity) ltac:(reflexivity)) as H.
  cbv zeta in H. destruct H as (H1 & H2 & _ & H4 & _).
  split; [exact H1 | split; [exact H2 | exact H4]].
Defined.

Lemma bind_failure_recoverable_witness :
  let w := createServer decimalStringToNumber [] in
  let w3 := run decimalStringToNumber
              [ListenCall [VObj [("port", int 3000)]; VFun 0];
               Ready 0 VUndefined;
               ErrorEvent 0 (VErr (ExternalError "EADDRINUSE"))] w in
  let w5 := step decimalStringToNumber (Ready (length (readyQ w3)) VUndefined)
              (snd (listen decimalStringToNumber [VObj [("port", int 3001)]; VFun 1] w3)) in
  lookups w3 = [] /\ listening w3 = false
  /\ exists LO1 LO2, binds w5 = [(0%nat, LO1); (0%nat, LO2)] /\ listening w5 = true.
Proof.
  pose proof (bind_failure_recoverable decimalStringToNumber
                [VObj [("port", int 3000)]; VFun 0] [VObj [("port", int 3001)]; VFun 1]
                (createServer decimalStringToNumber []) VUndefined
                (VErr (ExternalError "EADDRINUSE")) VUndefined
                ltac:(vm_compute; reflexivity) ltac:(reflexivity) ltac:(reflexivity)
                ltac:(reflexivity) ltac:(vm_compute; eauto)
                ltac:(vm_compute; reflexivity)) as H.
  cbv zeta in H. destruct H as (H1 & _ & _ & H4 & LO1 & LO2 & _ & (H6 & H7) & _).
  split; [exact H1 | split; [exact H4 |]].
  exists LO1, LO2. split; [exact H6 | exact H7].
Defined.

Lemma explicit_host_single_bind_witness :
  let w := createServer decimalStringToNumber [] in
  let w3 := run decimalStringToNumber
              [ListenCall [VObj [("port", int 3000); ("host", VStr "127.0.0.1")]; VFun 0];
               Ready 0 VUndefined;
               ListeningEvent 0 (Inet "127.0.0.1" 3000)] w in
  lookups w3 = [] /\ dnsQ w3 = [] /\ kServerBindings w3 = [] /\ listening w3 = true.
Proof.
  pose proof (explicit_host_single_bind decimalStringToNumber
                [VObj [("port", int 3000); ("host", VStr "127.0.0.1")]; VFun 0]
                (createServer decimalStringToNumber []) VUndefined (Inet "127.0.0.1" 3000)
                ltac:(vm_compute; reflexivity) ltac:(vm_compute; reflexivity)
                ltac:(reflexivity) ltac:(vm_compute; eauto)
                ltac:(vm_compute; reflexivity)) as H.
  cbv zeta in H. destruct H as (_ & H2 & H3 & H4 & H5 & _).
  split; [exact H2 | split; [exact H3 | split; [exact H4 | exact H5]]].
Defined.

Lemma localhost_listen_completes_witness :
  let w := createServer decimalStringToNumber [] in
  let w3 := run decimalStringToNumber
              [ListenCall [VObj [("port", int 3000)]; VFun 0];
               Ready 0 VUndefined;
               ListeningEvent 0 (Inet "127.0.0.1" 3000)] w in
  let w4 := step decimalStringToNumber (DnsAnswer 0 VNull ["127.0.0.1"]) w3 in
  listening w3 = false /\ invocations w3 = [] /\ lookups w3 = [VStr "localhost"]
  /\ listening w4 = true /\ kServerBindings w4 = [].
Proof.
  pose proof (localhost_listen_completes decimalStringToNumber
                [VObj [("port", int 3000)]; VFun 0]
                (createServer decimalStringToNumber []) VUndefined (Inet "127.0.0.1" 3000)
                VNull ["127.0.0.1"]
                ltac:(vm_compute; reflexivity) ltac:(vm_compute; reflexivity)
                ltac:(reflexivity) ltac:(vm_compute; eauto)
                ltac:(vm_compute; reflexivity)
                ltac:(right; repeat constructor)) as H.
  cbv zeta in H. destruct H as (H1 & H2 & H3 & H4 & _ & H6 & _).
  split; [exact H1 | split; [exact H2 | split; [exact H3 | split; [exact H4 | exact H6]]]].
Defined.


Lemma variadic_listen_binds_normalized_witness :
  let w := createServer decimalStringToNumber [] in
  let w2 := step decimalStringToNumber (Ready 0 VUndefined)
              (snd (listen decimalStringToNumber
                      [VStr "3000"; VStr "127.0.0.1"; int 511; VFun 0] w)) in
  exists LO,
    binds w2 = [(0%nat, LO)]
    /\ get "port" (props LO) = int 3000 /\ get "host" (props LO) = VStr "127.0.0.1"
    /\ get "backlog" (props LO) = int 511.
Proof.
  destruct (variadic_listen_binds_normalized decimalStringToNumber
              [VStr "3000"; VStr "127.0.0.1"; int 511; VFun 0]
              (createServer decimalStringToNumber []) VUndefined
              ltac:(reflexivity) ltac:(vm_compute; reflexivity) ltac:(reflexivity))
    as (LO & H1 & H2).
  exists LO. split; [exact H1 |].
  split; [exact (H2 "port" ltac:(discriminate)) |].
  split; [exact (H2 "host" ltac:(discriminate)) |].
  exact (H2 "backlog" ltac:(discriminate)).
Defined.

Lemma listen_options_then_positional_witness :
  let lo := fst (fst (listen_arguments decimalStringToNumber
                        [VObj [("port", int 3000); ("host", VStr "0.0.0.0")];
                         VStr "127.0.0.1"; VFun 0]
                        (createServer decimalStringToNumber []))) in
  get "port" lo = int 3000 /\ get "host" lo = VStr "0.0.0.0"
  /\ get "backlog" lo = VStr "127.0.0.1".
Proof.
  pose proof (listen_options_then_positional decimalStringToNumber
                [("port", int 3000); ("host", VStr "0.0.0.0")]
                [VStr "127.0.0.1"; VFun 0]
                (createServer decimalStringToNumber [])
                ltac:(cbn; lia) ltac:(reflexivity) ltac:(reflexivity)
                ltac:(reflexivity)) as H.
  cbv zeta in H. destruct H as (H1 & H2 & H3 & _).
  split; [exact H1 | split; [exact H2 | exact H3]].
Defined.

Lemma bind_logged_once_witness :
  let w := createServer decimalStringToNumber [] in
  let w3 := run decimalStringToNumber
              [ListenCall [VObj [("port", int 3000); ("host", VStr "127.0.0.1")]; VFun 0];
               Ready 0 VUndefined;
               ListeningEvent 0 (Inet "127.0.0.1" 3000)] w in
  exists text, logs w3 = [LogInfo ("Server listening at " +:+ text)].
Proof.
  destruct (bind_logged_once decimalStringToNumber
              [VObj [("port", int 3000); ("host", VStr "127.0.0.1")]; VFun 0]
              (createServer decimalStringToNumber []) VUndefined (Inet "127.0.0.1" 3000)
              ltac:(vm_compute; reflexivity) ltac:(reflexivity)
              ltac:(vm_compute; eauto) ltac:(vm_compute; reflexivity))
    as (text & _ & _ & H).
  exists text. exact H.
Defined.

Lemma callback_guard_at_readiness_witness :
  let w := createServer decimalStringToNumber [] in
  let w4 := run decimalStringToNumber
              [ListenCall [VObj [("port", int 3000)]; VFun 0];
               ListenCall [VObj [("port", int 3001); ("host", VStr "127.0.0.1")]; VFun 1];
               Ready 0 VUndefined;
               Ready 1 VUndefined] w in
  exists LO f,
    binds w4 = [(0%nat, LO)]
    /\ invocations w4 = [(f, [VErr FST_ERR_REOPENED_SERVER; VNull])].
Proof.
  destruct (callback_guard_at_readiness decimalStringToNumber
              [VObj [("port", int 3000)]; VFun 0]
              [VObj [("port", int 3001); ("host", VStr "127.0.0.1")]; VFun 1]
              (createServer decimalStringToNumber []) VUndefined VUndefined
              ltac:(vm_compute; reflexivity) ltac:(reflexivity) ltac:(reflexivity)
              ltac:(vm_compute; reflexivity))
    as ((LO & f & H1 & _ & H2 & _ & H4) & _).
  exists LO, f. split; [| exact H4].
  etransitivity; [exact H2 | exact H1].
Defined.

(** ** The options of the secondary server *)

Section Secondary.

Variable N : string -> number.

(** X20: whatever the resolver returns, the one secondary bind goes to the
    first resolved address that differs from the primary's, on the
    primary's port; every other property of the listen options is handed
    to it as it is. *)
Theorem secondary_inherits_options w0 (lo : obj) k dnsErr addresses primary :
  List.NoDup (map fst lo) ->
  truthy dnsErr = false ->
  server_address (mainServer w0) w0 = Some primary ->
  (mainServer w0 < fresh w0)%nat ->
  Exists (fun adr => differs primary adr = true) addresses ->
  let w1 := step N (DnsAnswer (length (dnsQ w0)) dnsErr addresses)
              (multipleBindings lo k w0) in
  exists sec LO pre adr post,
    binds w1 = binds w0 ++ [(sec, LO)]
    /\ addresses = pre ++ adr :: post
    /\ Forall (fun a => differs primary a = false) pre
    /\ differs primary adr = true
    /\ get "host" (props LO) = VStr adr
    /\ get "port" (props LO) = port_field primary
    /\ forall key, key <> "host" -> key <> "port" -> key <> "cb" ->
         get key (props LO) = get key lo.
Proof.
  intros Hnd Hdns Hprimary Hfresh Hex. cbv zeta.
  destruct (dns_answer_binds N w0 lo k dnsErr addresses primary Hdns Hprimary Hfresh Hex)
    as (pre & adr & post & Hsplit & Hpre & Hadr & Hin & _).
  eexists _, _, pre, adr, post.
  split; [apply (if_binds _ _ _ _ _ _ Hin) |].
  repeat split; try assumption; cbn [props].
  - apply get_secondary_host.
  - apply get_secondary_host.
  - intros key Hh Hp _.
    rewrite get_assign by (repeat constructor; cbn; intuition discriminate).
    cbn [lookup_prop].
    apply String.eqb_neq in Hh, Hp. rewrite Hh, Hp.
    rewrite get_assign by exact Hnd.
    unfold get. destruct (lookup_prop key lo); reflexivity.
Qed.

(** X21: when the host that [listen] settles on is 'localhost' and the
    resolver returns an address other than the one the main server has bound
    to, one secondary bind is attempted and the caller is not told yet; the
    caller is told the address of the main server when that bind has
    completed: with the secondary server tracked when it has bound, and
    without it when it has failed. *)
Theorem localhost_dual_stack (arguments : list value) (w : world) (err : value)
    (addr : bound_address) (dnsErr : value) (addresses : list string) :
  let lo := fst (fst (listen_arguments N arguments w)) in
  let cb := snd (fst (listen_arguments N arguments w)) in
  let LO := listen_options lo cb in
  is_str (listen_host lo) "localhost" = true ->
  listening w = false -> nullish err = true ->
  is_Some (servers w !! mainServer w) ->
  listeners_for (mainServer w) "listening" w = [] ->
  (mainServer w < fresh w)%nat ->
  truthy dnsErr = false ->
  Exists (fun adr => differs addr adr = true) addresses ->
  let result := fst (listen N arguments w) in
  let w2 := step N (Ready (length (readyQ w)) err) (snd (listen N arguments w)) in
  let w3 := step N (ListeningEvent (mainServer w) addr) w2 in
  let w4 := step N (DnsAnswer (length (dnsQ w)) dnsErr addresses) w3 in
  exists sec SO text,
    fst (logServerAddress (mainServer w) DefaultResolver w3) = Some text
    /\ binds w4 = binds w ++ [(mainServer w, LO); (sec, SO)]
    /\ invocations w4 = invocations w
    /\ (forall saddr,
          let w5 := step N (ListeningEvent sec saddr) w4 in
          told result cb text w w5 /\ listening w5 = true
          /\ kServerBindings w5 = kServerBindings w ++ [sec]
          /\ binds w5 = binds w4)
    /\ (forall e, truthy e = true ->
          let w5 := step N (ErrorEvent sec e) w4 in
          told result cb text w w5 /\ listening w5 = true
          /\ kServerBindings w5 = kServerBindings w
          /\ binds w5 = binds w4).
Proof.
  cbv zeta. intros Hhost Hl Herr Hs Hnl Hfresh Hdns Hex.
  destruct (localhost_primary_bound N arguments w err addr Hhost Hl Herr Hs Hnl)
    as (text & W & k0 & -> & Haw & Htext & HI & HU & HD & HB & HK & HM & HA & HF & Hk0).
  set (LO := listen_options _ _) in *.
  destruct (multipleBindings_views (props LO) k0 W) as (_ & _ & _ & _ & _ & V6).
  rewrite <- HD. rewrite <- HM in HA.
  destruct (dns_answer_binds N W (props LO) k0 dnsErr addresses addr Hdns HA
              ltac:(rewrite HM; lia) Hex)
    as (pre & adr & post & _ & _ & _ & Hin & _).
  set (w4 := step N (DnsAnswer (length (dnsQ W)) dnsErr addresses) _) in *.
  assert (Htold : forall w5, completed k0 W w5 ->
            told (fst (listen N arguments w))
              (snd (fst (listen_arguments N arguments w))) text w w5).
  { intros w5 Hc. unfold told.
    destruct (fst (listen N arguments w)) as [q |]; subst k0; cbn [completed] in Hc.
    - destruct Hc as [Hc1 Hc2]. rewrite Hc1, HI. auto.
    - rewrite Hc, HI. reflexivity. }
  eexists _, _, text.
  split; [rewrite V6; exact Htext |].
  split; [rewrite (if_binds _ _ _ _ _ _ Hin), HB, <- app_assoc; reflexivity |].
  split; [rewrite (if_invocations _ _ _ _ _ _ Hin); exact HI |].
  split.
  - intros saddr.
    destruct (secondary_succeeds N W _ _ _ _ k0 w4 saddr Hin Haw) as (S1 & S2 & S3 & S4 & _).
    rewrite HK in S3. auto.
  - intros e He.
    destruct (secondary_fails N W _ _ _ _ k0 w4 e Hin Haw He) as (S1 & S2 & S3 & S4 & _).
    rewrite HK in S3. auto.
Qed.

End Secondary.

Lemma secondary_inherits_options_witness :
  let lo := [("port", int 3000); ("host", VStr "localhost"); ("backlog", int 511)] in
  let w1 := step decimalStringToNumber (DnsAnswer 0 VNull ["127.0.0.1"; "::1"])
              (multipleBindings lo tell_caller bound_instance) in
  exists sec LO,
    binds w1 = binds bound_instance ++ [(sec, LO)]
    /\ get "host" (props LO) = VStr "::1"
    /\ get "backlog" (props LO) = int 511.
Proof.
  destruct (secondary_inherits_options decimalStringToNumber bound_instance
              [("port", int 3000); ("host", VStr "localhost"); ("backlog", int 511)]
              tell_caller VNull ["127.0.0.1"; "::1"] (Inet "127.0.0.1" 3000)
              ltac:(repeat constructor; cbn; intuition discriminate)
              ltac:(reflexivity) ltac:(vm_compute; reflexivity) ltac:(vm_compute; lia)
              ltac:(apply Exists_cons_tl, Exists_cons_hd; vm_compute; reflexivity))
    as (sec & LO & pre & adr & post & H1 & H2 & H3 & H4 & H5 & H6 & H7).
  exists sec, LO. split; [exact H1 |].
  assert (Hadr : adr = "::1").
  { destruct pre as [| a pre].
    - injection H2 as H2 _. subst adr. discriminate H4.
    - injection H2 as Ha H2. destruct pre as [| b pre].
      + injection H2 as H2 _. symmetry. exact H2.
      + injection H2 as _ H2. destruct pre; discriminate H2. }
  rewrite Hadr in H5. split; [exact H5 |].
  exact (H7 "backlog" ltac:(discriminate) ltac:(discriminate) ltac:(discriminate)).
Defined.

Lemma localhost_dual_stack_witness :
  let w := createServer decimalStringToNumber [] in
  let w4 := run decimalStringToNumber
              [ListenCall [VObj [("port", int 3000)]; VFun 0];
               Ready 0 VUndefined;
               ListeningEvent 0 (Inet "127.0.0.1" 3000);
               DnsAnswer 0 VNull ["127.0.0.1"; "::1"]] w in
  exists sec text,
    invocations w4 = []
    /\ (forall saddr,
          let w5 := step decimalStringToNumber (ListeningEvent sec saddr) w4 in
          invocations w5 = [(VFun 0, [VNull; VStr text])]
          /\ listening w5 = true /\ kServerBindings w5 = [sec]).
Proof.
  destruct (localhost_dual_stack decimalStringToNumber
              [VObj [("port", int 3000)]; VFun 0]
              (createServer decimalStringToNumber []) VUndefined (Inet "127.0.0.1" 3000)
              VNull ["127.0.0.1"; "::1"]
              ltac:(vm_compute; reflexivity) ltac:(vm_compute; reflexivity)
              ltac:(reflexivity) ltac:(vm_compute; eauto)
              ltac:(vm_compute; reflexivity) ltac:(vm_compute; lia)
              ltac:(reflexivity)
              ltac:(apply Exists_cons_tl, Exists_cons_hd; vm_compute; reflexivity))
    as (sec & SO & text & _ & _ & H3 & H4 & _).
  exists sec, text. split; [exact H3 |].
  intros saddr. destruct (H4 saddr) as (T1 & T2 & T3 & _).
  split; [exact T1 | split; [exact T2 | exact T3]].
Defined.
